(** * Delivery scheduler: a shallow embedding of the service layer

    The development embeds the delivery-scheduling services of the app
    (DeliveryService, ShopService, the order webhook handler, the zones
    endpoint and the checkout cutoff helper) and proves the properties
    the specification states about them.

    Layout: [Js] holds the fragment of the ECMAScript library the code
    relies on (numbers, [split], [Date]); [Prisma] the relational store
    with the constraints of the migration and an error-and-state monad
    for queries that may throw; one module per source file follows.
    All definitions come first, the theorems after them. *)

From Stdlib Require Import ZArith List String Ascii Bool Lia DecimalString.
From Stdlib Require Import Sorted Permutation.
Import ListNotations.

Local Open Scope string_scope.
Local Open Scope list_scope.
Local Open Scope Z_scope.

(* ================================================================= *)
(** ** The ECMAScript fragment *)

Module Js.

(** Numbers.  The code only computes with small integers and with the
    NaN that [Number] yields on text that is not a numeral, so a
    Number value is an integer or NaN. *)
Inductive num : Type :=
| Int (z : Z)
| NaN.

Definition mul (a b : num) : num :=
  match a, b with
  | Int x, Int y => Int (x * y)
  | _, _ => NaN
  end.

Definition add (a b : num) : num :=
  match a, b with
  | Int x, Int y => Int (x + y)
  | _, _ => NaN
  end.

(** [a > b]: any comparison with NaN is false. *)
Definition gt (a b : num) : bool :=
  match a, b with
  | Int x, Int y => y <? x
  | _, _ => false
  end.

Definition isDigit (c : ascii) : bool :=
  ((48 <=? N_of_ascii c) && (N_of_ascii c <=? 57))%N.

Definition digitVal (c : ascii) : Z := Z.of_N (N_of_ascii c) - 48.

Fixpoint digitsValue (acc : Z) (s : string) : option Z :=
  match s with
  | EmptyString => Some acc
  | String c r =>
      if isDigit c then digitsValue (10 * acc + digitVal c) r else None
  end.

(** [Number(s)] on the strings the program feeds it: a run of decimal
    digits is its value, the empty string is 0, and text holding any
    other character is NaN.  (Signs, fractions, exponents, radix
    prefixes and surrounding blanks, which ECMAScript also accepts,
    do not occur in an 'HH:MM' field.) *)
Definition Number (s : string) : num :=
  match digitsValue 0 s with
  | Some z => Int z
  | None => NaN
  end.

(** [s.split(sep)] for a one-character separator. *)
Fixpoint split (sep : ascii) (s : string) : list string :=
  match s with
  | EmptyString => [EmptyString]
  | String c r =>
      if Ascii.eqb c sep then EmptyString :: split sep r
      else match split sep r with
           | x :: xs => String c x :: xs
           | [] => [String c EmptyString]
           end
  end.

(** Array destructuring [const [a, b] = xs]: a missing element is
    [undefined], which arithmetic turns into NaN. *)
Definition elem (xs : list num) (i : nat) : num := nth i xs NaN.

(** [s.includes(t)] *)
Fixpoint includes (s t : string) : bool :=
  String.prefix t s ||
  match s with
  | EmptyString => false
  | String _ r => includes r t
  end.

(** *** Date

    A Date is its time value: milliseconds since the epoch, UTC.  The
    calendar functions are those of the ECMAScript specification
    (Day, DayFromYear, YearFromTime, MonthFromTime, DateFromTime). *)
Definition Date := Z.

Definition msPerDay : Z := 86400000.

Definition Day (t : Date) : Z := t / msPerDay.

Definition DaysInYear (y : Z) : Z :=
  if (y mod 4 =? 0) && (negb (y mod 100 =? 0) || (y mod 400 =? 0))
  then 366 else 365.

Definition DayFromYear (y : Z) : Z :=
  365 * (y - 1970) + (y - 1969) / 4 - (y - 1901) / 100 + (y - 1601) / 400.

(** The largest year whose first day is not after [t]: an estimate
    from the mean year length, corrected by at most one. *)
Definition YearFromTime (t : Date) : Z :=
  let d := Day t in
  let y := 1970 + (400 * d) / 146097 in
  if d <? DayFromYear y then y - 1
  else if DayFromYear (y + 1) <=? d then y + 1
  else y.

Definition DayWithinYear (t : Date) : Z :=
  Day t - DayFromYear (YearFromTime t).

Definition InLeapYear (t : Date) : Z :=
  if DaysInYear (YearFromTime t) =? 366 then 1 else 0.

(** Month number, 0 for January to 11 for December. *)
Definition MonthFromTime (t : Date) : Z :=
  let d := DayWithinYear t in
  let l := InLeapYear t in
  if d <? 31 then 0
  else if d <? 59 + l then 1
  else if d <? 90 + l then 2
  else if d <? 120 + l then 3
  else if d <? 151 + l then 4
  else if d <? 181 + l then 5
  else if d <? 212 + l then 6
  else if d <? 243 + l then 7
  else if d <? 273 + l then 8
  else if d <? 304 + l then 9
  else if d <? 334 + l then 10
  else 11.

(** Day of the month, 1 to 31. *)
Definition DateFromTime (t : Date) : Z :=
  let d := DayWithinYear t in
  let l := InLeapYear t in
  match MonthFromTime t with
  | 0 => d + 1
  | 1 => d - 30
  | 2 => d - 58 - l
  | 3 => d - 89 - l
  | 4 => d - 119 - l
  | 5 => d - 150 - l
  | 6 => d - 180 - l
  | 7 => d - 211 - l
  | 8 => d - 242 - l
  | 9 => d - 272 - l
  | 10 => d - 303 - l
  | _ => d - 333 - l
  end.

(** Local time is UTC shifted by the zone adjustment [tza] of the
    server, in milliseconds. *)
Definition LocalTime (tza : Z) (t : Date) : Z := t + tza.

Definition getMonth (tza : Z) (t : Date) : Z := MonthFromTime (LocalTime tza t).
Definition getDate (tza : Z) (t : Date) : Z := DateFromTime (LocalTime tza t).

(** [d.setHours(0, 0, 0, 0)]: local midnight of the local day of [t]. *)
Definition startOfLocalDay (tza : Z) (t : Date) : Date :=
  Day (LocalTime tza t) * msPerDay - tza.

(** [d.setHours(23, 59, 59, 999)]: the last millisecond of that day. *)
Definition endOfLocalDay (tza : Z) (t : Date) : Date :=
  Day (LocalTime tza t) * msPerDay + (msPerDay - 1) - tza.

(** [new Date(Date.UTC(d.getUTCFullYear(), d.getUTCMonth(), d.getUTCDate()))]:
    00:00:00.000 UTC of the UTC day of [t]. *)
Definition startOfUTCDay (t : Date) : Date := Day t * msPerDay.

(** [e.setUTCDate(e.getUTCDate() + 1)]: the same time on the next day. *)
Definition addUTCDay (t : Date) : Date := t + msPerDay.

(** A DATE column read back by the client: midnight UTC of the stored day. *)
Definition ofDay (d : Z) : Date := d * msPerDay.

End Js.

(* ================================================================= *)
(** ** extensions/delivery-selector: the checkout cutoff check *)

Module Checkout.

Definition colon : ascii := ":"%char.

(** [isSlotPastCutoff] *)
Definition isSlotPastCutoff (slotEndTime cutoffTime : string) : bool :=
  let slot := map Js.Number (Js.split colon slotEndTime) in
  let cutoff := map Js.Number (Js.split colon cutoffTime) in
  let slotHour := Js.elem slot 0 in
  let slotMinute := Js.elem slot 1 in
  let cutoffHour := Js.elem cutoff 0 in
  let cutoffMinute := Js.elem cutoff 1 in
  let slotMinutes := Js.add (Js.mul slotHour (Js.Int 60)) slotMinute in
  let cutoffMinutes := Js.add (Js.mul cutoffHour (Js.Int 60)) cutoffMinute in
  Js.gt slotMinutes cutoffMinutes.

(** Minutes since midnight of an 'HH:MM' string, as the specification
    words it: two digits of hours, a colon, two digits of minutes;
    hours times 60 plus minutes.  Any other text has no reading. *)
Definition minutesSinceMidnight (s : string) : option Z :=
  match s with
  | String h1 (String h2 (String c (String m1 (String m2 EmptyString)))) =>
      if Js.isDigit h1 && Js.isDigit h2 && Ascii.eqb c colon
         && Js.isDigit m1 && Js.isDigit m2
      then Some ((10 * Js.digitVal h1 + Js.digitVal h2) * 60
                 + (10 * Js.digitVal m1 + Js.digitVal m2))
      else None
  | _ => None
  end.

End Checkout.

(* ================================================================= *)
(** ** The relational store and its client *)

Module Prisma.

Inductive OrderStatus : Type := PENDING | CONFIRMED | CANCELLED | DELIVERED.

Definition OrderStatus_eqb (a b : OrderStatus) : bool :=
  match a, b with
  | PENDING, PENDING | CONFIRMED, CONFIRMED
  | CANCELLED, CANCELLED | DELIVERED, DELIVERED => true
  | _, _ => false
  end.

(** Rows carry the columns the services read or write.  DATE columns
    hold a day number (days since the epoch); timestamps, notes and
    the JSON and DOUBLE payload columns of the migration play no part
    in the properties below and are left out, except the shipping
    rate, which is carried through as an uninterpreted amount. *)

Module ShopSettings.
Record t : Type := mk {
  id : string;
  shopName : string;
  cutoffTime : string;
  maxDaysInAdvance : Z;
  enableSameDayDelivery : bool;
  timezone : string
}.
End ShopSettings.

Module DeliveryZone.
Record t : Type := mk {
  id : string;
  shopName : string;
  name : string;
  shippingRate : Z;
  isActive : bool
}.
End DeliveryZone.

Module DeliverySlot.
Record t : Type := mk {
  id : string;
  shopName : string;
  startTime : string;
  endTime : string;
  capacity : Z;
  currentOrders : Z;
  isActive : bool;
  zoneId : string
}.

Definition withCurrentOrders (n : Z) (s : t) : t :=
  mk (id s) (shopName s) (startTime s) (endTime s) (capacity s) n
     (isActive s) (zoneId s).
End DeliverySlot.

Module BlackoutDate.
Record t : Type := mk {
  id : string;
  shopName : string;
  date : Z;
  isRecurring : bool;
  zoneId : option string
}.
End BlackoutDate.

Module Order.
Record t : Type := mk {
  id : string;
  shopName : string;
  shopifyOrderId : string;
  customerEmail : string;
  deliverySlotId : string;
  deliveryDate : Z;
  status : OrderStatus
}.

Definition withStatus (st : OrderStatus) (o : t) : t :=
  mk (id o) (shopName o) (shopifyOrderId o) (customerEmail o)
     (deliverySlotId o) (deliveryDate o) st.
End Order.

(** The tables, and the collation of their text columns.  [shop] keeps
    the shop names, the only column other tables refer to.
    [weightString] is the sort key the store gives a text (every table
    is utf8mb4_unicode_ci): texts with equal keys are the same text to
    the store, and it orders texts as it orders their keys. *)
Record DB : Type := mkDB {
  shop : list string;
  shopSettings : list ShopSettings.t;
  deliveryZone : list DeliveryZone.t;
  deliverySlot : list DeliverySlot.t;
  blackoutDate : list BlackoutDate.t;
  order : list Order.t;
  weightString : string -> list N
}.

Definition withShopSettings (l : list ShopSettings.t) (d : DB) : DB :=
  mkDB (shop d) l (deliveryZone d) (deliverySlot d) (blackoutDate d) (order d)
    (weightString d).
Definition withDeliverySlot (l : list DeliverySlot.t) (d : DB) : DB :=
  mkDB (shop d) (shopSettings d) (deliveryZone d) l (blackoutDate d) (order d)
    (weightString d).
Definition withOrder (l : list Order.t) (d : DB) : DB :=
  mkDB (shop d) (shopSettings d) (deliveryZone d) (deliverySlot d) (blackoutDate d) l
    (weightString d).

(** Sort keys are compared item by item. *)
Fixpoint keyCompare (a b : list N) : comparison :=
  match a, b with
  | [], [] => Eq
  | [], _ :: _ => Lt
  | _ :: _, [] => Gt
  | x :: a', y :: b' =>
      match N.compare x y with
      | Eq => keyCompare a' b'
      | c => c
      end
  end.

(** Two texts that the store's collation does not tell apart. *)
Definition sameText (d : DB) (a b : string) : bool :=
  match keyCompare (weightString d a) (weightString d b) with
  | Eq => true
  | _ => false
  end.

(** [a] comes no later than [b] in the store's order of texts. *)
Definition textLeb (d : DB) (a b : string) : bool :=
  match keyCompare (weightString d a) (weightString d b) with
  | Gt => false
  | _ => true
  end.

(** What an [Error] carries: its message. *)
Definition exn : Type := string.

(** The server process as the services see it: the store; the
    outcome of each coming round trip to the database ([Some e]: the
    call throws [e], for a lost connection or a timeout; an exhausted
    list means no further failure); the counter behind the client's
    id generator; and the zone adjustment of local time. *)
Record World : Type := mkWorld {
  db : DB;
  faults : list (option exn);
  nextId : nat;
  tza : Z
}.

Inductive result (A : Type) : Type :=
| Ok (a : A)
| Throw (e : exn).
Arguments Ok {A} a.
Arguments Throw {A} e.

(** Computations that read and write the world and may throw. *)
Definition M (A : Type) : Type := World -> result A * World.

Definition ret {A} (a : A) : M A := fun w => (Ok a, w).

Definition bind {A B} (m : M A) (k : A -> M B) : M B :=
  fun w =>
    match m w with
    | (Ok a, w') => k a w'
    | (Throw e, w') => (Throw e, w')
    end.

Definition throw {A} (e : exn) : M A := fun w => (Throw e, w).

(** [try { m } catch (e) { h e }] *)
Definition tryCatch {A} (m : M A) (h : exn -> M A) : M A :=
  fun w =>
    match m w with
    | (Ok a, w') => (Ok a, w')
    | (Throw e, w') => h e w'
    end.

Definition getTza : M Z := fun w => (Ok (tza w), w).

(** One round trip: it throws if the next scheduled outcome says so,
    and otherwise runs [q] on the store. *)
Definition call {A} (q : DB -> result A * DB) : M A :=
  fun w =>
    match faults w with
    | Some e :: fs => (Throw e, mkWorld (db w) fs (nextId w) (tza w))
    | None :: fs =>
        let (r, d) := q (db w) in (r, mkWorld d fs (nextId w) (tza w))
    | [] =>
        let (r, d) := q (db w) in (r, mkWorld d [] (nextId w) (tza w))
    end.

Definition read {A} (q : DB -> A) : M A := call (fun d => (Ok (q d), d)).

(** The client draws the id of a row it inserts (cuid); ids drawn are
    taken to be new, so the primary key never rejects an insert. *)
Definition cuid (n : nat) : string :=
  String "c"%char (NilEmpty.string_of_uint (Nat.to_uint n)).

Definition freshId : M string :=
  fun w => (Ok (cuid (nextId w)), mkWorld (db w) (faults w) (S (nextId w)) (tza w)).

(** [db.$transaction(body)]: what the body wrote is undone if it throws. *)
Definition transaction {A} (body : M A) : M A :=
  fun w =>
    match body w with
    | (Ok a, w') => (Ok a, w')
    | (Throw e, w') => (Throw e, mkWorld (db w) (faults w') (nextId w') (tza w'))
    end.

(** Queries.  A [where] clause is a predicate on rows.  Ids, shop
    names and times are generated ids, domain names and 'HH:MM' texts
    and are compared by their characters; names that people type (the
    names of zones) are compared by their sort keys. *)
Definition findFirst {R} (table : list R) (where_ : R -> bool) : option R :=
  find where_ table.

Definition findMany {R} (table : list R) (where_ : R -> bool) : list R :=
  filter where_ table.

Definition count {R} (table : list R) (where_ : R -> bool) : Z :=
  Z.of_nat (List.length (filter where_ table)).

(** [orderBy: { key: 'asc' }] on a column of ids or times: a stable
    sort. *)
Fixpoint insertBy {R} (key : R -> string) (x : R) (l : list R) : list R :=
  match l with
  | [] => [x]
  | y :: l' =>
      if String.leb (key x) (key y) then x :: y :: l'
      else y :: insertBy key x l'
  end.

Definition orderBy {R} (key : R -> string) (l : list R) : list R :=
  fold_right (insertBy key) [] l.

(** [orderBy: { name: 'asc' }] on a column of names: the store's order
    of texts; rows it does not tell apart keep their order. *)
Fixpoint insertByText {R} (d : DB) (key : R -> string) (x : R) (l : list R) : list R :=
  match l with
  | [] => [x]
  | y :: l' =>
      if textLeb d (key x) (key y) then x :: y :: l'
      else y :: insertByText d key x l'
  end.

Definition orderByText {R} (d : DB) (key : R -> string) (l : list R) : list R :=
  fold_right (insertByText d key) [] l.

(** [update]: the first row the unique filter selects is replaced. *)
Fixpoint updateFirst {R} (where_ : R -> bool) (f : R -> R) (l : list R)
  : option (list R) :=
  match l with
  | [] => None
  | x :: l' =>
      if where_ x then Some (f x :: l')
      else match updateFirst where_ f l' with
           | Some l'' => Some (x :: l'')
           | None => None
           end
  end.

(** [updateMany]: every selected row is replaced. *)
Definition updateAll {R} (where_ : R -> bool) (f : R -> R) (l : list R) : list R :=
  map (fun x => if where_ x then f x else x) l.

Definition existsb_str (x : string) (l : list string) : bool :=
  existsb (String.eqb x) l.

Definition uniqueViolation : exn := "Unique constraint failed".
Definition foreignKeyViolation : exn := "Foreign key constraint failed".
Definition recordNotFound : exn := "Record to update not found".
Definition valueOutOfRange : exn := "Value out of range for the column".

(** Inserts, with the unique indexes and foreign keys of the migration.
    The types of the columns are modelled for delivery_slots, whose
    values come as the admin typed them: the client refuses an Int
    beyond 32 bits, the server (in its default strict mode) a text
    longer than its column. *)

(** An INTEGER column holds 32 bits, signed. *)
Definition fitsInteger (n : Z) : bool :=
  (- 2147483648 <=? n) && (n <=? 2147483647).

(** A VARCHAR(n) column holds at most [n] characters. *)
Definition fitsVarchar (n : nat) (s : string) : bool :=
  Nat.leb (String.length s) n.

(** delivery_slots: startTime and endTime are VARCHAR(5), capacity
    and currentOrders are INTEGER. *)
Definition fitsSlotColumns (row : DeliverySlot.t) : bool :=
  fitsVarchar 5 (DeliverySlot.startTime row)
  && fitsVarchar 5 (DeliverySlot.endTime row)
  && fitsInteger (DeliverySlot.capacity row)
  && fitsInteger (DeliverySlot.currentOrders row).

(** delivery_slots: shopName and zoneId are foreign keys;
    (shopName, zoneId, startTime, endTime) is unique. *)
Definition sameSlotKey (a b : DeliverySlot.t) : bool :=
  String.eqb (DeliverySlot.shopName a) (DeliverySlot.shopName b)
  && String.eqb (DeliverySlot.zoneId a) (DeliverySlot.zoneId b)
  && String.eqb (DeliverySlot.startTime a) (DeliverySlot.startTime b)
  && String.eqb (DeliverySlot.endTime a) (DeliverySlot.endTime b).

Definition insertDeliverySlot (row : DeliverySlot.t) (d : DB)
  : result DeliverySlot.t * DB :=
  if negb (fitsSlotColumns row) then (Throw valueOutOfRange, d)
  else if negb (existsb_str (DeliverySlot.shopName row) (shop d)) then
    (Throw foreignKeyViolation, d)
  else if negb (existsb_str (DeliverySlot.zoneId row)
                  (map DeliveryZone.id (deliveryZone d))) then
    (Throw foreignKeyViolation, d)
  else if existsb (sameSlotKey row) (deliverySlot d) then
    (Throw uniqueViolation, d)
  else (Ok row, withDeliverySlot (deliverySlot d ++ [row]) d).

(** orders: shopName and deliverySlotId are foreign keys;
    shopifyOrderId is unique. *)
Definition insertOrder (row : Order.t) (d : DB) : result Order.t * DB :=
  if negb (existsb_str (Order.shopName row) (shop d)) then
    (Throw foreignKeyViolation, d)
  else if negb (existsb_str (Order.deliverySlotId row)
                  (map DeliverySlot.id (deliverySlot d))) then
    (Throw foreignKeyViolation, d)
  else if existsb_str (Order.shopifyOrderId row)
            (map Order.shopifyOrderId (order d)) then
    (Throw uniqueViolation, d)
  else (Ok row, withOrder (order d ++ [row]) d).

(** shop_settings: shopName is a foreign key and unique. *)
Definition insertShopSettings (row : ShopSettings.t) (d : DB)
  : result ShopSettings.t * DB :=
  if negb (existsb_str (ShopSettings.shopName row) (shop d)) then
    (Throw foreignKeyViolation, d)
  else if existsb_str (ShopSettings.shopName row)
            (map ShopSettings.shopName (shopSettings d)) then
    (Throw uniqueViolation, d)
  else (Ok row, withShopSettings (shopSettings d ++ [row]) d).

End Prisma.

Export Prisma.

Declare Scope monad_scope.
Delimit Scope monad_scope with monad.
Notation "x <- c ;; k" := (bind c (fun x => k))
  (at level 61, c at next level, right associativity) : monad_scope.
Notation "c ;;; k" := (bind c (fun _ => k))
  (at level 61, right associativity) : monad_scope.
Local Open Scope monad_scope.

(** [Promise.all(xs.map(f))] where each [f x] handles its own errors:
    the calls are taken in the order of the array. *)
Fixpoint mapM {A B} (f : A -> M B) (l : list A) : M (list B) :=
  match l with
  | [] => ret []
  | x :: l' => y <- f x ;; ys <- mapM f l' ;; ret (y :: ys)
  end.

(* ================================================================= *)
(** ** Services/DeliveryService.server.ts *)

Module DeliveryService.

Record CreateSlotData : Type := mkCreateSlotData {
  shopName : string;
  startTime : string;
  endTime : string;
  capacity : Z;
  zoneId : string
}.

(** A slot with the zone joined in ([include: { zone: true }]) and the
    booking figures of one date. *)
Record SlotWithBookings : Type := mkSlotWithBookings {
  slot : DeliverySlot.t;
  zone : option DeliveryZone.t;
  currentBookings : Z;
  availableCapacity : Z
}.

(** [OR: [{ zoneId: zoneId }, { zoneId: null }]]; an undefined
    [zoneId] leaves the first branch without a condition. *)
Definition zoneFilter (zoneId : option string) (b : BlackoutDate.t) : bool :=
  match zoneId with
  | None => true
  | Some z =>
      match BlackoutDate.zoneId b with
      | Some z' => String.eqb z' z
      | None => false
      end
  end
  || match BlackoutDate.zoneId b with
     | None => true
     | Some _ => false
     end.

(** The two [where] clauses of [isDateBlackedOut].  A DATE column is
    compared with a Date as the instant of its midnight, UTC. *)
Definition exactDateWhere (shopName : string) (startOfDay endOfDay : Js.Date)
    (zoneId : option string) (b : BlackoutDate.t) : bool :=
  String.eqb (BlackoutDate.shopName b) shopName
  && (startOfDay <=? Js.ofDay (BlackoutDate.date b))
  && (Js.ofDay (BlackoutDate.date b) <=? endOfDay)
  && zoneFilter zoneId b.

Definition recurringWhere (shopName : string) (zoneId : option string)
    (b : BlackoutDate.t) : bool :=
  String.eqb (BlackoutDate.shopName b) shopName
  && BlackoutDate.isRecurring b
  && zoneFilter zoneId b.

(** [isDateBlackedOut] *)
Definition isDateBlackedOut (shopName : string) (date : Js.Date)
    (zoneId : option string) : M bool :=
  tryCatch
    (tz <- getTza ;;
     let startOfDay := Js.startOfLocalDay tz date in
     let endOfDay := Js.endOfLocalDay tz date in
     exactDateBlackout <- read (fun d =>
       findFirst (blackoutDate d)
         (exactDateWhere shopName startOfDay endOfDay zoneId)) ;;
     match exactDateBlackout with
     | Some _ => ret true
     | None =>
         recurringBlackout <- read (fun d =>
           findFirst (blackoutDate d) (recurringWhere shopName zoneId)) ;;
         match recurringBlackout with
         | Some rb =>
             let blackoutMonth := Js.getMonth tz (Js.ofDay (BlackoutDate.date rb)) in
             let blackoutDay := Js.getDate tz (Js.ofDay (BlackoutDate.date rb)) in
             let requestedMonth := Js.getMonth tz date in
             let requestedDay := Js.getDate tz date in
             ret ((blackoutMonth =? requestedMonth) && (blackoutDay =? requestedDay))
         | None => ret false
         end
     end)
    (fun _ => ret false).

Definition bookingWhere (slotId : string) (start end_ : Js.Date) (o : Order.t) : bool :=
  String.eqb (Order.deliverySlotId o) slotId
  && negb (OrderStatus_eqb (Order.status o) CANCELLED)
  && (start <=? Js.ofDay (Order.deliveryDate o))
  && (Js.ofDay (Order.deliveryDate o) <? end_).

(** [getSlotBookingsForDate] *)
Definition getSlotBookingsForDate (slotId : string) (date : Js.Date) : M Z :=
  tryCatch
    (let start := Js.startOfUTCDay date in
     let end_ := Js.addUTCDay start in
     read (fun d => count (order d) (bookingWhere slotId start end_)))
    (fun _ => ret 0).

Definition activeSlotWhere (shopName zoneId : string) (s : DeliverySlot.t) : bool :=
  String.eqb (DeliverySlot.shopName s) shopName
  && String.eqb (DeliverySlot.zoneId s) zoneId
  && DeliverySlot.isActive s.

Definition joinZone (d : DB) (s : DeliverySlot.t) : option DeliveryZone.t :=
  findFirst (deliveryZone d)
    (fun z => String.eqb (DeliveryZone.id z) (DeliverySlot.zoneId s)).

(** [getAvailableSlots] *)
Definition getAvailableSlots (shopName : string) (requestedDate : Js.Date)
    (zoneId : string) : M (list SlotWithBookings) :=
  tryCatch
    (isBlackoutDate <- isDateBlackedOut shopName requestedDate (Some zoneId) ;;
     if isBlackoutDate : bool then ret []
     else
       slots <- read (fun d =>
         map (fun s => (s, joinZone d s))
           (orderBy DeliverySlot.startTime
              (findMany (deliverySlot d) (activeSlotWhere shopName zoneId)))) ;;
       slotsWithBookings <- mapM (fun sz : DeliverySlot.t * option DeliveryZone.t =>
         currentBookings <- getSlotBookingsForDate (DeliverySlot.id (fst sz)) requestedDate ;;
         ret (mkSlotWithBookings
                (DeliverySlot.withCurrentOrders currentBookings (fst sz))
                (snd sz)
                currentBookings
                (DeliverySlot.capacity (fst sz) - currentBookings))) slots ;;
       ret (filter (fun s => 0 <? availableCapacity s) slotsWithBookings))
    (fun _ => throw "Failed to fetch available slots").

(** [getZoneByCountryCode] *)
Definition zoneByCountryWhere (d : DB) (shopName countryCode : string)
    (z : DeliveryZone.t) : bool :=
  String.eqb (DeliveryZone.shopName z) shopName
  && sameText d (DeliveryZone.name z) countryCode
  && DeliveryZone.isActive z.

Definition getZoneByCountryCode (shopName countryCode : string)
  : M (option DeliveryZone.t) :=
  tryCatch
    (read (fun d =>
       findFirst (deliveryZone d) (zoneByCountryWhere d shopName countryCode)))
    (fun _ => throw "Failed to find delivery zone").

Definition zoneOfShopWhere (data : CreateSlotData) (z : DeliveryZone.t) : bool :=
  String.eqb (DeliveryZone.id z) (zoneId data)
  && String.eqb (DeliveryZone.shopName z) (shopName data)
  && DeliveryZone.isActive z.

(** The three alternatives of the overlap query. *)
Definition overlaps (data : CreateSlotData) (s : DeliverySlot.t) : bool :=
  (String.leb (DeliverySlot.startTime s) (startTime data)
   && String.ltb (startTime data) (DeliverySlot.endTime s))
  || (String.ltb (DeliverySlot.startTime s) (endTime data)
      && String.leb (endTime data) (DeliverySlot.endTime s))
  || (String.leb (startTime data) (DeliverySlot.startTime s)
      && String.leb (DeliverySlot.endTime s) (endTime data)).

Definition overlapWhere (data : CreateSlotData) (s : DeliverySlot.t) : bool :=
  String.eqb (DeliverySlot.shopName s) (shopName data)
  && String.eqb (DeliverySlot.zoneId s) (zoneId data)
  && DeliverySlot.isActive s
  && overlaps data s.

Definition newSlotRow (id : string) (data : CreateSlotData) : DeliverySlot.t :=
  DeliverySlot.mk id (shopName data) (startTime data) (endTime data)
    (capacity data) 0 true (zoneId data).

(** [createDeliverySlot] *)
Definition createDeliverySlot (data : CreateSlotData) : M DeliverySlot.t :=
  tryCatch
    (zone <- read (fun d => findFirst (deliveryZone d) (zoneOfShopWhere data)) ;;
     match zone with
     | None => throw "Invalid delivery zone for this shop"
     | Some _ =>
         existingSlots <- read (fun d => findMany (deliverySlot d) (overlapWhere data)) ;;
         if (0 <? Z.of_nat (List.length existingSlots)) then
           throw "Time slot overlaps with existing slot"
         else
           id <- freshId ;;
           call (insertDeliverySlot (newSlotRow id data))
     end)
    (fun error => throw error).

Definition findSlotById (d : DB) (slotId : string) : option DeliverySlot.t :=
  findFirst (deliverySlot d) (fun s => String.eqb (DeliverySlot.id s) slotId).

(** [isSlotAvailableForDate] *)
Definition isSlotAvailableForDate (slotId : string) (requestedDate : Js.Date) : M bool :=
  tryCatch
    (slot <- read (fun d => findSlotById d slotId) ;;
     match slot with
     | None => ret false
     | Some s =>
         if negb (DeliverySlot.isActive s) then ret false
         else
           isBlackedOut <- isDateBlackedOut (DeliverySlot.shopName s) requestedDate
                             (Some (DeliverySlot.zoneId s)) ;;
           if isBlackedOut : bool then ret false
           else
             currentBookings <- getSlotBookingsForDate slotId requestedDate ;;
             ret (currentBookings <? DeliverySlot.capacity s)
     end)
    (fun _ => ret false).

Definition releaseWhere (slotId : string) (s : DeliverySlot.t) : bool :=
  String.eqb (DeliverySlot.id s) slotId && (0 <? DeliverySlot.currentOrders s).

Definition decrementCurrentOrders (s : DeliverySlot.t) : DeliverySlot.t :=
  DeliverySlot.withCurrentOrders (DeliverySlot.currentOrders s - 1) s.

(** [releaseSlot] *)
Definition releaseSlot (slotId : string) : M bool :=
  tryCatch
    (n <- call (fun d =>
       (Ok (count (deliverySlot d) (releaseWhere slotId)),
        withDeliverySlot
          (updateAll (releaseWhere slotId) decrementCurrentOrders (deliverySlot d)) d)) ;;
     ret (0 <? n))
    (fun _ => ret false).

Record ReleaseResult : Type := mkReleaseResult {
  success : bool;
  error : option string
}.

Definition orderIdWhere (orderId : string) (o : Order.t) : bool :=
  String.eqb (Order.shopifyOrderId o) orderId.

(** [releaseDeliverySlot]; the [slotId] of the parameters is not used. *)
Definition releaseDeliverySlot (slotId orderId : string) : M ReleaseResult :=
  tryCatch
    (order_ <- read (fun d => findFirst (order d) (orderIdWhere orderId)) ;;
     match order_ with
     | None => ret (mkReleaseResult false (Some "Order not found"))
     | Some _ =>
         call (fun d =>
           match updateFirst (orderIdWhere orderId) (Order.withStatus CANCELLED) (order d) with
           | Some l => (Ok tt, withOrder l d)
           | None => (Throw recordNotFound, d)
           end) ;;;
         ret (mkReleaseResult true None)
     end)
    (fun _ => ret (mkReleaseResult false (Some "Failed to release delivery slot"))).

End DeliveryService.

(* ================================================================= *)
(** ** Services/ShopService.server.ts *)

Module ShopService.

Definition defaultSettings (id shopName : string) : ShopSettings.t :=
  ShopSettings.mk id shopName "14:00" 30 false "UTC".

(** [getShopSettings] *)
Definition getShopSettings (shopName : string) : M (option ShopSettings.t) :=
  tryCatch
    (settings <- read (fun d =>
       findFirst (shopSettings d)
         (fun s => String.eqb (ShopSettings.shopName s) shopName)) ;;
     match settings with
     | Some s => ret (Some s)
     | None =>
         id <- freshId ;;
         s <- call (insertShopSettings (defaultSettings id shopName)) ;;
         ret (Some s)
     end)
    (fun _ => ret None).

End ShopService.

(* ================================================================= *)
(** ** Services/WebHookService.server.ts *)

Module WebHookService.

(** What [extractDeliverySelection] yields, with the delivery date
    already read by [new Date(deliveryDate)]. *)
Record DeliverySelection : Type := mkDeliverySelection {
  slotId : string;
  deliveryDate : Js.Date
}.

(** The webhook payload: the order id, the customer's address and the
    delivery selection found in its metafields or note attributes. *)
Record ShopifyOrderCreated : Type := mkShopifyOrderCreated {
  id : N;
  email : string;
  deliverySelection : option DeliverySelection
}.

Record WebhookResult : Type := mkWebhookResult {
  success : bool;
  message : option string;
  error : option string
}.

Definition extractDeliverySelection (order : ShopifyOrderCreated)
  : option DeliverySelection := deliverySelection order.

(** [order.id.toString()] *)
Definition idToString (n : N) : string := NilEmpty.string_of_uint (N.to_uint n).

Definition newOrderRow (rowId shopName : string) (order : ShopifyOrderCreated)
    (sel : DeliverySelection) : Order.t :=
  Order.mk rowId shopName (idToString (id order)) (email order) (slotId sel)
    (Js.Day (deliveryDate sel)) CONFIRMED.

(** The callback handed to [db.$transaction]. *)
Definition orderTransaction (shopName : string) (order : ShopifyOrderCreated)
    (sel : DeliverySelection) : M (Order.t * DeliverySlot.t) :=
  slot <- read (fun d => DeliveryService.findSlotById d (slotId sel)) ;;
  match slot with
  | None => throw "Delivery slot not found"
  | Some s =>
      if negb (DeliverySlot.isActive s) then
        throw "Selected delivery slot is no longer active"
      else
        isAvailable <- DeliveryService.isSlotAvailableForDate (slotId sel) (deliveryDate sel) ;;
        if negb isAvailable then
          throw "Selected delivery slot is not available for the requested date"
        else
          rowId <- freshId ;;
          dbOrder <- call (insertOrder (newOrderRow rowId shopName order sel)) ;;
          ret (dbOrder, s)
  end.

(** [updateShopifyOrder]: it looks the shop's session up and talks to
    the Admin API; it handles its own errors and writes nothing to
    the store. *)
Definition updateShopifyOrder : M unit :=
  tryCatch (read (fun _ => tt)) (fun _ => ret tt).

(** [handleOrderCreated] *)
Definition handleOrderCreated (shopName : string) (order : ShopifyOrderCreated)
  : M WebhookResult :=
  tryCatch
    (match extractDeliverySelection order with
     | None => ret (mkWebhookResult true (Some "No delivery slot specified") None)
     | Some sel =>
         transaction (orderTransaction shopName order sel) ;;;
         updateShopifyOrder ;;;
         ret (mkWebhookResult true (Some "Order processed successfully") None)
     end)
    (fun e =>
       if Js.includes e "slot" || Js.includes e "not found" || Js.includes e "available"
       then ret (mkWebhookResult true (Some "Order processed") (Some e))
       else ret (mkWebhookResult false None (Some e))).

End WebHookService.

(* ================================================================= *)
(** ** routes/apps.delivery-scheduler.$args.tsx: the zones endpoint *)

Module DeliveryZones.

Inductive body : Type :=
| ErrorBody (error : string)
| ZoneBody (id name : string) (shippingRate : Z).

(** [json(body, { status })] *)
Record Response : Type := json {
  payload : body;
  status : Z
}.

(** A query parameter that is absent or empty is falsy. *)
Definition falsy (p : option string) : bool :=
  match p with
  | None => true
  | Some s => String.eqb s ""
  end.

Definition loader (country_code shop : option string) : M Response :=
  match country_code, shop with
  | Some countryCode, Some shopName =>
      if falsy country_code || falsy shop then
        ret (json (ErrorBody "Country code and shop are required") 400)
      else
        tryCatch
          (zone <- DeliveryService.getZoneByCountryCode shopName countryCode ;;
           match zone with
           | None => ret (json (ErrorBody "No delivery zone found for this country") 404)
           | Some z =>
               ret (json (ZoneBody (DeliveryZone.id z) (DeliveryZone.name z)
                            (DeliveryZone.shippingRate z)) 200)
           end)
          (fun _ => ret (json (ErrorBody "Internal server error") 500))
  | _, _ => ret (json (ErrorBody "Country code and shop are required") 400)
  end.

End DeliveryZones.

(* ================================================================= *)
(** ** Vocabulary of the statements *)

Import DeliveryService.

(** No failure of the database connection is scheduled. *)
Definition quiet (w : World) : Prop := Forall (fun f => f = None) (faults w).

(** The world after one round trip that did not throw and left the
    store as [d]. *)
Definition advance (d : DB) (w : World) : World :=
  mkWorld d (tl (faults w)) (nextId w) (tza w).

(** An order that counts as a booking of slot [slotId] on day [day]:
    it names the slot, is due that day and is not cancelled. *)
Definition bookedOn (slotId : string) (day : Z) (o : Order.t) : bool :=
  String.eqb (Order.deliverySlotId o) slotId
  && (Order.deliveryDate o =? day)
  && negb (OrderStatus_eqb (Order.status o) CANCELLED).

Definition bookings (d : DB) (slotId : string) (day : Z) : Z :=
  Z.of_nat (List.length (filter (bookedOn slotId day) (order d))).


(** The outcomes of the round trips made between [w] and [w'], and
    whether one of them was a failure. *)
Definition consumed (w w' : World) : list (option exn) :=
  firstn (List.length (faults w) - List.length (faults w')) (faults w).

Definition threw (w w' : World) : Prop :=
  exists e, In (Some e) (consumed w w').



(** A slot as [getAvailableSlots] reports it for day [day]: the zone
    joined in, the bookings of the day counted, the capacity left. *)
Definition annotate (d : DB) (day : Z) (s : DeliverySlot.t) : SlotWithBookings :=
  mkSlotWithBookings
    (DeliverySlot.withCurrentOrders (bookings d (DeliverySlot.id s) day) s)
    (joinZone d s)
    (bookings d (DeliverySlot.id s) day)
    (DeliverySlot.capacity s - bookings d (DeliverySlot.id s) day).

(** An active slot of the shop and zone with capacity left on [day]. *)
Definition availableOn (d : DB) (shopName zoneId : string) (day : Z)
    (s : DeliverySlot.t) : bool :=
  String.eqb (DeliverySlot.shopName s) shopName
  && String.eqb (DeliverySlot.zoneId s) zoneId
  && DeliverySlot.isActive s
  && (0 <? DeliverySlot.capacity s - bookings d (DeliverySlot.id s) day).

(** Ascending start times. *)
Definition startsNoLater (a b : SlotWithBookings) : Prop :=
  String.leb (DeliverySlot.startTime (slot a)) (DeliverySlot.startTime (slot b)) = true.

(** What [isDateBlackedOut] and [isSlotAvailableForDate] report on
    store [d] in a zone adjustment [tz] when no query fails. *)
Definition reportsBlackedOut (d : DB) (tz : Z) (shopName : string) (date : Js.Date)
    (zoneId : option string) : bool :=
  match findFirst (blackoutDate d)
          (exactDateWhere shopName (Js.startOfLocalDay tz date)
             (Js.endOfLocalDay tz date) zoneId) with
  | Some _ => true
  | None =>
      match findFirst (blackoutDate d) (recurringWhere shopName zoneId) with
      | Some rb =>
          (Js.getMonth tz (Js.ofDay (BlackoutDate.date rb)) =? Js.getMonth tz date)
          && (Js.getDate tz (Js.ofDay (BlackoutDate.date rb)) =? Js.getDate tz date)
      | None => false
      end
  end.

Definition reportsAvailable (d : DB) (tz : Z) (slotId : string) (date : Js.Date) : bool :=
  match findSlotById d slotId with
  | None => false
  | Some s =>
      if negb (DeliverySlot.isActive s) then false
      else if reportsBlackedOut d tz (DeliverySlot.shopName s) date
                (Some (DeliverySlot.zoneId s)) then false
      else bookings d slotId (Js.Day date) <? DeliverySlot.capacity s
  end.

(** Slot creation.  Times are compared as the query compares them, as
    strings. *)
Definition atOrBefore (a b : string) : Prop := String.leb a b = true.
Definition before (a b : string) : Prop := String.ltb a b = true.

(** The minutes field of a time written 'HH:MM'. *)
Definition minuteField (s : string) : Z :=
  match s with
  | String _ (String _ (String _ (String m1 (String m2 EmptyString)))) =>
      10 * Js.digitVal m1 + Js.digitVal m2
  | _ => 0
  end.






(** A blackout record of the shop that matches the requested date for
    the zone: it is shop-wide or of that zone, and either it is not
    recurring and its stored day is the calendar day of the date, or it
    is recurring and its stored month and day of the month are those
    of the date.  Calendar days are UTC days, as DATE columns and the
    dates of the API are. *)
Definition blackoutMatches (shopName zoneId : string) (date : Js.Date)
    (b : BlackoutDate.t) : bool :=
  String.eqb (BlackoutDate.shopName b) shopName
  && match BlackoutDate.zoneId b with
     | None => true
     | Some z => String.eqb z zoneId
     end
  && if BlackoutDate.isRecurring b then
       (Js.MonthFromTime (Js.ofDay (BlackoutDate.date b)) =? Js.MonthFromTime date)
       && (Js.DateFromTime (Js.ofDay (BlackoutDate.date b)) =? Js.DateFromTime date)
     else BlackoutDate.date b =? Js.Day date.




(** [a] comes no later than [b] in the store's order of texts. *)
Definition textNoLater (d : DB) (a b : string) : Prop := textLeb d a b = true.

(* ================================================================= *)
(** ** A small shop, used to exercise the statements *)

Module Demo.

Definition shopName : string := "demo.myshopify.com".

Definition zoneUS : DeliveryZone.t := DeliveryZone.mk "z1" shopName "US" 500 true.
Definition zoneCA : DeliveryZone.t := DeliveryZone.mk "z2" shopName "CA" 900 false.

Definition morning : DeliverySlot.t :=
  DeliverySlot.mk "s1" shopName "09:00" "12:00" 2 1 true "z1".
Definition afternoon : DeliverySlot.t :=
  DeliverySlot.mk "s2" shopName "13:00" "17:00" 1 0 true "z1".
Definition evening : DeliverySlot.t :=
  DeliverySlot.mk "s3" shopName "18:00" "20:00" 5 0 false "z1".
Definition morningCA : DeliverySlot.t :=
  DeliverySlot.mk "s4" shopName "09:00" "12:00" 3 0 true "z2".

(** Day numbers: 2024-12-25, 2025-01-01, 2026-01-01, 2026-01-15, 2026-03-10. *)
Definition day_2024_12_25 : Z := 20082.
Definition day_2025_01_01 : Z := 20089.
Definition day_2026_01_01 : Z := 20454.
Definition day_2026_01_15 : Z := 20468.
Definition day_2026_03_10 : Z := 20522.

Definition order1 : Order.t :=
  Order.mk "o1" shopName "1001" "ann@example.com" "s1" day_2026_01_15 CONFIRMED.
Definition order2 : Order.t :=
  Order.mk "o2" shopName "1002" "bob@example.com" "s2" day_2026_01_15 CONFIRMED.
Definition order3 : Order.t :=
  Order.mk "o3" shopName "1003" "cyd@example.com" "s1" day_2026_01_15 CANCELLED.

Definition christmas : BlackoutDate.t :=
  BlackoutDate.mk "b1" shopName day_2024_12_25 true None.
Definition newYear : BlackoutDate.t :=
  BlackoutDate.mk "b2" shopName day_2025_01_01 true None.
Definition stocktaking : BlackoutDate.t :=
  BlackoutDate.mk "b3" shopName day_2026_03_10 false (Some "z1").

(** The collation on the texts the shop uses, unaccented letters and
    digits: letter case does not count, nor do spaces at the end. *)
Definition foldCase (c : ascii) : N :=
  let n := N_of_ascii c in
  if ((97 <=? n) && (n <=? 122))%N then (n - 32)%N else n.

Fixpoint weightString (s : string) : list N :=
  match s with
  | EmptyString => []
  | String c s' =>
      match weightString s' with
      | [] => if Ascii.eqb c " " then [] else [foldCase c]
      | k => foldCase c :: k
      end
  end.

Definition store : DB :=
  mkDB [shopName] []
    [zoneUS; zoneCA]
    [morning; afternoon; evening; morningCA]
    [christmas; newYear; stocktaking]
    [order1; order2; order3]
    weightString.

(** The same records with the two yearly blackouts entered in the
    other order. *)
Definition storeNewYearFirst : DB :=
  mkDB [shopName] []
    [zoneUS; zoneCA]
    [morning; afternoon; evening; morningCA]
    [newYear; christmas; stocktaking]
    [order1; order2; order3]
    weightString.

(** The server in UTC, with no failure ahead. *)
Definition world : World := mkWorld store [] 0 0.

(** The same store behind a server five hours west of UTC. *)
Definition worldWest : World := mkWorld store [] 0 (- 18000000).

(** The same server when its next round trip to the database fails. *)
Definition offline : World :=
  mkWorld store [Some "Can't reach database server"] 0 0.

(** A checkout for the morning slot on 2026-01-16: a new order, and
    the webhook of order 1001 delivered once more. *)
Definition selection : WebHookService.DeliverySelection :=
  WebHookService.mkDeliverySelection "s1" (Js.ofDay 20469).
Definition newOrder : WebHookService.ShopifyOrderCreated :=
  WebHookService.mkShopifyOrderCreated 2001 "dee@example.com" (Some selection).

Definition requestNight : CreateSlotData := mkCreateSlotData shopName "20:00" "22:00" 5 "z1".
Definition requestNoon : CreateSlotData := mkCreateSlotData shopName "11:00" "14:00" 5 "z1".


(** 2026-03-09T12:00:00Z, noon of the eve of the stocktaking. *)
Definition eveNoon : Js.Date := Js.ofDay (day_2026_03_10 - 1) + 43200000.


End Demo.

(* ================================================================= *)
(** * Further code and its vocabulary *)

(** ** Ranges of slots *)

(** A slot whose start is before its end. *)
Definition properRange (s : DeliverySlot.t) : Prop :=
  before (DeliverySlot.startTime s) (DeliverySlot.endTime s).

(** The requested range and the range of [s] have a moment in common. *)
Definition rangesIntersect (data : CreateSlotData) (s : DeliverySlot.t) : Prop :=
  before (DeliverySlot.startTime s) (endTime data)
  /\ before (startTime data) (DeliverySlot.endTime s).

(** Two active slots of one shop and zone whose ranges have a moment
    in common. *)
Definition clash (s1 s2 : DeliverySlot.t) : Prop :=
  DeliverySlot.shopName s1 = DeliverySlot.shopName s2
  /\ DeliverySlot.zoneId s1 = DeliverySlot.zoneId s2
  /\ DeliverySlot.isActive s1 = true
  /\ DeliverySlot.isActive s2 = true
  /\ before (DeliverySlot.startTime s1) (DeliverySlot.endTime s2)
  /\ before (DeliverySlot.startTime s2) (DeliverySlot.endTime s1).

Definition noActiveOverlap (d : DB) : Prop :=
  ForallOrdPairs (fun s1 s2 => ~ clash s1 s2) (deliverySlot d).

(* ================================================================= *)
(** ** routes/apps.delivery-scheduler.$args.tsx: the slot actions *)

Module SlotActions.

Inductive body : Type :=
| ErrorBody (error : option string)
| SuccessBody (message : string).

(** [json(body, { status })]; the status defaults to 200. *)
Record Response : Type := json {
  payload : body;
  status : Z
}.

(** A field of the posted JSON that is absent or empty is falsy. *)
Definition present (p : option string) : bool :=
  match p with
  | None => false
  | Some s => negb (String.eqb s "")
  end.

(** The body of a reserve-slot request, with the delivery date already
    read by [new Date(deliveryDate)]; texts that do not read as a date
    are not covered. *)
Record ReserveBody : Type := mkReserveBody {
  reserve_slotId : option string;
  reserve_deliveryDate : option Js.Date
}.

(** [ReserveSlot.action]; [None] stands for a request whose body is
    not JSON, on which [request.json()] throws. *)
Definition reserveSlot (request : option ReserveBody) : M Response :=
  tryCatch
    (match request with
     | None => throw "Unexpected end of JSON input"
     | Some b =>
         match reserve_slotId b, reserve_deliveryDate b with
         | Some slotId, Some date =>
             if negb (present (reserve_slotId b)) then
               ret (json (ErrorBody (Some "Slot ID and delivery date are required")) 400)
             else
               isAvailable <- DeliveryService.isSlotAvailableForDate slotId date ;;
               if negb isAvailable then
                 ret (json (ErrorBody (Some "Slot is not available for the selected date")) 409)
               else ret (json (SuccessBody "Slot is available for reservation") 200)
         | _, _ =>
             ret (json (ErrorBody (Some "Slot ID and delivery date are required")) 400)
         end
     end)
    (fun _ => ret (json (ErrorBody (Some "Failed to check slot availability")) 500)).

Record ReleaseBody : Type := mkReleaseBody {
  release_slotId : option string;
  release_orderId : option string
}.

(** [ReleaseSlot.action] *)
Definition releaseSlot (request : option ReleaseBody) : M Response :=
  tryCatch
    (match request with
     | None => throw "Unexpected end of JSON input"
     | Some b =>
         match release_slotId b with
         | Some slotId =>
             if negb (present (release_slotId b)) then
               ret (json (ErrorBody (Some "Slot ID is required")) 400)
             else
               match release_orderId b with
               | Some orderId =>
                   if present (release_orderId b) then
                     result <- DeliveryService.releaseDeliverySlot slotId orderId ;;
                     if negb (DeliveryService.success result) then
                       ret (json (ErrorBody (DeliveryService.error result)) 409)
                     else
                       ret (json (SuccessBody "Order delivery slot released successfully") 200)
                   else
                     success <- DeliveryService.releaseSlot slotId ;;
                     if negb success then
                       ret (json (ErrorBody (Some "Failed to release slot")) 409)
                     else ret (json (SuccessBody "Slot released successfully") 200)
               | None =>
                   success <- DeliveryService.releaseSlot slotId ;;
                   if negb success then
                     ret (json (ErrorBody (Some "Failed to release slot")) 409)
                   else ret (json (SuccessBody "Slot released successfully") 200)
               end
         | None => ret (json (ErrorBody (Some "Slot ID is required")) 400)
         end
     end)
    (fun _ => ret (json (ErrorBody (Some "Failed to release slot")) 500)).

End SlotActions.

(* ================================================================= *)
(** ** Services/WebHookService.server.ts: cancellation and dispatch;
       routes/webhooks.all.tsx *)

Module WebHooks.

Import WebHookService.

(** The cancellation payload as the handler reads it. *)
Record ShopifyOrderCancelled : Type := mkShopifyOrderCancelled {
  cancelled_id : N;
  cancelled_email : string
}.

(** [tx.order.update({ where: { id }, data: { status } })]: the row of
    that id is replaced and returned. *)
Definition updateOrderStatus (rowId : string) (st : OrderStatus) (d : DB)
  : result Order.t * DB :=
  match updateFirst (fun o => String.eqb (Order.id o) rowId) (Order.withStatus st) (order d),
        findFirst (order d) (fun o => String.eqb (Order.id o) rowId) with
  | Some l, Some o => (Ok (Order.withStatus st o), withOrder l d)
  | _, _ => (Throw recordNotFound, d)
  end.

(** The callback handed to [db.$transaction] by [handleOrderCancelled];
    the flag says whether the order was cancelled already. *)
Definition cancelTransaction (order : ShopifyOrderCancelled) : M (Order.t * bool) :=
  dbOrder <- read (fun d =>
    findFirst (Prisma.order d)
      (DeliveryService.orderIdWhere (idToString (cancelled_id order)))) ;;
  match dbOrder with
  | None => throw "Order not found in local database"
  | Some o =>
      if OrderStatus_eqb (Order.status o) CANCELLED then ret (o, true)
      else
        updatedOrder <- call (updateOrderStatus (Order.id o) CANCELLED) ;;
        ret (updatedOrder, false)
  end.

(** [handleOrderCancelled]; composing and sending the cancellation
    e-mail neither throws nor touches the store. *)
Definition handleOrderCancelled (shop : string) (order : ShopifyOrderCancelled)
  : M WebhookResult :=
  tryCatch
    (transaction (cancelTransaction order) ;;;
     ret (mkWebhookResult true (Some "Order cancellation processed successfully") None))
    (fun e =>
       if Js.includes e "not found" then
         ret (mkWebhookResult true
                (Some "Order not found in local database, no action needed") None)
       else ret (mkWebhookResult false None (Some e))).

(** [payload as ShopifyOrderCancelled] *)
Definition asCancelled (payload : ShopifyOrderCreated) : ShopifyOrderCancelled :=
  mkShopifyOrderCancelled (id payload) (email payload).

(** [processWebhook] *)
Definition processWebhook (topic shop : string) (payload : ShopifyOrderCreated)
  : M WebhookResult :=
  tryCatch
    (if String.eqb topic "ORDERS_CREATE" || String.eqb topic "orders/create" then
       handleOrderCreated shop payload
     else if String.eqb topic "ORDERS_CANCELLED" || String.eqb topic "orders/cancelled" then
       handleOrderCancelled shop (asCancelled payload)
     else
       ret (mkWebhookResult true
              (Some (String.append "Topic "
                       (String.append topic " acknowledged but not processed"))) None))
    (fun e => ret (mkWebhookResult false None (Some e))).

(** [new Response(text, { status })] *)
Record Response : Type := mkResponse {
  text : string;
  status : Z
}.

(** The route's [action]; [session] tells whether the shop has a
    session. *)
Definition action (session : bool) (topic shop : string)
    (payload : ShopifyOrderCreated) : M Response :=
  if negb session then ret (mkResponse "Unauthorized" 401)
  else
    result <- processWebhook topic shop payload ;;
    if negb (success result) then ret (mkResponse "Failed to process webhook" 500)
    else ret (mkResponse "Webhook processed successfully" 200).

End WebHooks.

(** The store [handleOrderCancelled] leaves when no query fails. *)
Definition afterCancellation (orderId : string) (d : DB) : DB :=
  match findFirst (order d) (orderIdWhere orderId) with
  | None => d
  | Some o =>
      if OrderStatus_eqb (Order.status o) CANCELLED then d
      else snd (WebHooks.updateOrderStatus (Order.id o) CANCELLED d)
  end.

(* ================================================================= *)
(** ** Services/ShopService.server.ts: delivery zones;
       routes/app.delivery-zones.tsx *)

Module JsText.

(** White space that [trim] removes, among code units below 256: tab,
    line feed, vertical tab, form feed, carriage return, space and
    no-break space.  (Strings are sequences of such code units.) *)
Definition isWhiteSpace (c : ascii) : bool :=
  existsb (N.eqb (N_of_ascii c)) [9; 10; 11; 12; 13; 32; 160]%N.

Fixpoint trimStart (s : string) : string :=
  match s with
  | EmptyString => EmptyString
  | String c r => if isWhiteSpace c then trimStart r else s
  end.

Fixpoint trimEnd (s : string) : string :=
  match s with
  | EmptyString => EmptyString
  | String c r =>
      match trimEnd r with
      | EmptyString => if isWhiteSpace c then EmptyString else String c EmptyString
      | r' => String c r'
      end
  end.

(** [s.trim()] *)
Definition trim (s : string) : string := trimEnd (trimStart s).

(** A whole number in a template literal. *)
Definition numberToString (n : Z) : string :=
  match n with
  | Z0 => "0"
  | Zpos p => NilEmpty.string_of_uint (Pos.to_uint p)
  | Zneg p => String "-"%char (NilEmpty.string_of_uint (Pos.to_uint p))
  end.

End JsText.

Module Zones.

Definition withDeliveryZone (l : list DeliveryZone.t) (d : DB) : DB :=
  mkDB (shop d) (shopSettings d) l (deliverySlot d) (blackoutDate d) (order d)
    (weightString d).

Definition withIsActive (b : bool) (z : DeliveryZone.t) : DeliveryZone.t :=
  DeliveryZone.mk (DeliveryZone.id z) (DeliveryZone.shopName z) (DeliveryZone.name z)
    (DeliveryZone.shippingRate z) b.

Definition withName (n : string) (z : DeliveryZone.t) : DeliveryZone.t :=
  DeliveryZone.mk (DeliveryZone.id z) (DeliveryZone.shopName z) n
    (DeliveryZone.shippingRate z) (DeliveryZone.isActive z).

Definition withShippingRate (r : Z) (z : DeliveryZone.t) : DeliveryZone.t :=
  DeliveryZone.mk (DeliveryZone.id z) (DeliveryZone.shopName z) (DeliveryZone.name z)
    r (DeliveryZone.isActive z).

(** delivery_zones: shopName is a foreign key; (shopName, name) is
    unique, the names taken as the collation takes them. *)
Definition sameZoneKey (d : DB) (a b : DeliveryZone.t) : bool :=
  String.eqb (DeliveryZone.shopName a) (DeliveryZone.shopName b)
  && sameText d (DeliveryZone.name a) (DeliveryZone.name b).

Definition insertDeliveryZone (row : DeliveryZone.t) (d : DB)
  : result DeliveryZone.t * DB :=
  if negb (existsb_str (DeliveryZone.shopName row) (shop d)) then
    (Throw foreignKeyViolation, d)
  else if existsb (sameZoneKey d row) (deliveryZone d) then
    (Throw uniqueViolation, d)
  else (Ok row, withDeliveryZone (deliveryZone d ++ [row]) d).

(** [deliveryZone.update({ where: { id }, data })]: the row of that id
    is rewritten by [f], unless [f] changes its (shopName, name) to
    that of another row. *)
Fixpoint updateZoneIn (zoneId : string) (before after : list DeliveryZone.t)
  : option (DeliveryZone.t * list DeliveryZone.t * list DeliveryZone.t) :=
  match after with
  | [] => None
  | z :: rest =>
      if String.eqb (DeliveryZone.id z) zoneId then Some (z, before, rest)
      else updateZoneIn zoneId (before ++ [z]) rest
  end.

Definition updateDeliveryZoneRow (zoneId : string)
    (f : DeliveryZone.t -> DeliveryZone.t) (d : DB) : result DeliveryZone.t * DB :=
  match updateZoneIn zoneId [] (deliveryZone d) with
  | None => (Throw recordNotFound, d)
  | Some (z, before, rest) =>
      if negb (sameZoneKey d (f z) z) && existsb (sameZoneKey d (f z)) (before ++ rest)
      then (Throw uniqueViolation, d)
      else (Ok (f z), withDeliveryZone (before ++ f z :: rest) d)
  end.

Definition withBlackoutDate (l : list BlackoutDate.t) (d : DB) : DB :=
  mkDB (shop d) (shopSettings d) (deliveryZone d) (deliverySlot d) l (order d)
    (weightString d).

(** blackout_dates.zoneId: ON DELETE SET NULL. *)
Definition detachZone (zoneId : string) (b : BlackoutDate.t) : BlackoutDate.t :=
  match BlackoutDate.zoneId b with
  | Some z =>
      if String.eqb z zoneId then
        BlackoutDate.mk (BlackoutDate.id b) (BlackoutDate.shopName b)
          (BlackoutDate.date b) (BlackoutDate.isRecurring b) None
      else b
  | None => b
  end.

Fixpoint removeFirst {R} (where_ : R -> bool) (l : list R) : list R :=
  match l with
  | [] => []
  | x :: l' => if where_ x then l' else x :: removeFirst where_ l'
  end.

(** [deliveryZone.delete({ where: { id, shopName } })]: slots refer to
    zones with ON DELETE RESTRICT, blackout dates with ON DELETE SET
    NULL. *)
Definition deleteDeliveryZoneRow (zoneId shopName : string) (d : DB)
  : result DeliveryZone.t * DB :=
  let where_ := fun z => String.eqb (DeliveryZone.id z) zoneId
                         && String.eqb (DeliveryZone.shopName z) shopName in
  match findFirst (deliveryZone d) where_ with
  | None => (Throw recordNotFound, d)
  | Some z =>
      if existsb (fun s => String.eqb (DeliverySlot.zoneId s) zoneId) (deliverySlot d)
      then (Throw foreignKeyViolation, d)
      else (Ok z,
            withBlackoutDate (map (detachZone zoneId) (blackoutDate d))
              (withDeliveryZone (removeFirst where_ (deliveryZone d)) d))
  end.

(** [getShopByName] *)
Definition getShopByName (name : string) : M (option string) :=
  read (fun d => if existsb_str name (shop d) then Some name else None).

(** [getDeliveryZones] *)
Definition getDeliveryZones (shopName : string) : M (list DeliveryZone.t) :=
  tryCatch
    (read (fun d =>
       orderByText d DeliveryZone.name
         (findMany (deliveryZone d)
            (fun z => String.eqb (DeliveryZone.shopName z) shopName))))
    (fun _ => throw "Failed to fetch delivery zones").

Record ZoneData : Type := mkZoneData {
  name : string;
  shippingRate : Z
}.

(** [createDeliveryZone]; a new zone is active by the column default. *)
Definition createDeliveryZone (shopName : string) (data : ZoneData)
  : M DeliveryZone.t :=
  tryCatch
    (shop <- getShopByName shopName ;;
     match shop with
     | None => throw "Shop not found"
     | Some _ =>
         existingZone <- read (fun d =>
           findFirst (deliveryZone d)
             (fun z => String.eqb (DeliveryZone.shopName z) shopName
                       && sameText d (DeliveryZone.name z) (name data))) ;;
         match existingZone with
         | Some _ => throw "A delivery zone with this name already exists"
         | None =>
             id <- freshId ;;
             call (insertDeliveryZone
                     (DeliveryZone.mk id shopName (JsText.trim (name data))
                        (shippingRate data) true))
         end
     end)
    (fun error => throw error).

Definition zoneOfShop (zoneId shopName : string) (z : DeliveryZone.t) : bool :=
  String.eqb (DeliveryZone.id z) zoneId && String.eqb (DeliveryZone.shopName z) shopName.

(** [toggleDeliveryZone] *)
Definition toggleDeliveryZone (shopName zoneId : string) : M DeliveryZone.t :=
  tryCatch
    (existingZone <- read (fun d => findFirst (deliveryZone d) (zoneOfShop zoneId shopName)) ;;
     match existingZone with
     | None => throw "Delivery zone not found or access denied"
     | Some z =>
         call (updateDeliveryZoneRow zoneId (withIsActive (negb (DeliveryZone.isActive z))))
     end)
    (fun error => throw error).

(** [hasActiveSlots] *)
Definition hasActiveSlots (shopName zoneId : string) : M bool :=
  tryCatch
    (slotsCount <- read (fun d =>
       count (deliverySlot d)
         (fun s => String.eqb (DeliverySlot.zoneId s) zoneId
                   && String.eqb (DeliverySlot.shopName s) shopName
                   && DeliverySlot.isActive s)) ;;
     ret (0 <? slotsCount))
    (fun error => throw error).

(** The fields of [updateDeliveryZone]'s data that are given. *)
Record ZonePatch : Type := mkZonePatch {
  patch_name : option string;
  patch_shippingRate : option Z
}.

Definition applyPatch (data : ZonePatch) (z : DeliveryZone.t) : DeliveryZone.t :=
  let z1 := match patch_name data with
            | Some n => if String.eqb n "" then z else withName (JsText.trim n) z
            | None => z
            end in
  match patch_shippingRate data with
  | Some r => withShippingRate r z1
  | None => z1
  end.

(** [updateDeliveryZone] *)
Definition updateDeliveryZone (zoneId shopName : string) (data : ZonePatch)
  : M DeliveryZone.t :=
  tryCatch
    (existingZone <- read (fun d => findFirst (deliveryZone d) (zoneOfShop zoneId shopName)) ;;
     match existingZone with
     | None => throw "Delivery zone not found or access denied"
     | Some _ => call (updateDeliveryZoneRow zoneId (applyPatch data))
     end)
    (fun error => throw error).

(** [deleteDeliveryZone] *)
Definition deleteDeliveryZone (zoneId shopName : string) : M bool :=
  tryCatch
    (slotsCount <- read (fun d =>
       count (deliverySlot d) (fun s => String.eqb (DeliverySlot.zoneId s) zoneId)) ;;
     if 0 <? slotsCount then throw "Cannot delete zone with existing delivery slots"
     else
       call (deleteDeliveryZoneRow zoneId shopName) ;;;
       ret true)
    (fun error => throw error).

(** The admin page's [action].  [shop] is the shop of the session; the
    form carries the action type, the zone name, the rate as
    [parseFloat] read it ([None]: NaN; rates are whole numbers here, as
    in the zone rows) and the zone id. *)
Record Form : Type := mkForm {
  actionType : option string;
  form_name : option string;
  form_shippingRate : option Z;
  form_zoneId : option string
}.

Inductive body : Type :=
| StatusBody (status : string)
| ErrorBody (error : string).

Record Response : Type := json {
  payload : body;
  status : Z
}.

Definition truthy (p : option string) : bool :=
  match p with
  | None => false
  | Some s => negb (String.eqb s "")
  end.

Definition text (p : option string) : string :=
  match p with
  | None => ""
  | Some s => s
  end.

Definition equals (p : option string) (s : string) : bool :=
  match p with
  | None => false
  | Some t => String.eqb t s
  end.

Definition action (shop : string) (form : Form) : M Response :=
  tryCatch
    (if equals (actionType form) "create" || equals (actionType form) "update" then
       match form_shippingRate form with
       | None =>
           ret (json (ErrorBody
                  "All fields are required and shipping rate must be a valid number") 400)
       | Some rate =>
           if negb (truthy (form_name form)) || (rate =? 0) then
             ret (json (ErrorBody
                    "All fields are required and shipping rate must be a valid number") 400)
           else if rate <? 0 then
             ret (json (ErrorBody "Shipping rate cannot be negative") 400)
           else if equals (actionType form) "update" && truthy (form_zoneId form) then
             updateDeliveryZone (text (form_zoneId form)) shop
               (mkZonePatch (Some (text (form_name form))) (Some rate)) ;;;
             ret (json (StatusBody "updated") 200)
           else
             createDeliveryZone shop (mkZoneData (text (form_name form)) rate) ;;;
             ret (json (StatusBody "created") 200)
       end
     else if equals (actionType form) "toggle" then
       if negb (truthy (form_zoneId form)) then
         ret (json (ErrorBody "Zone ID is required") 400)
       else
         toggleDeliveryZone shop (text (form_zoneId form)) ;;;
         ret (json (StatusBody "toggled") 200)
     else if equals (actionType form) "delete" then
       if negb (truthy (form_zoneId form)) then
         ret (json (ErrorBody "Zone ID is required") 400)
       else
         hasSlots <- hasActiveSlots shop (text (form_zoneId form)) ;;
         if hasSlots : bool then
           ret (json (ErrorBody
                  "Cannot delete zone with active time slots or orders. Please remove time slots first.")
                  400)
         else
           deleteDeliveryZone shop (text (form_zoneId form)) ;;;
           ret (json (StatusBody "deleted") 200)
     else ret (json (ErrorBody "Invalid action type") 400))
    (fun message => ret (json (ErrorBody message) 500)).

End Zones.

(* ================================================================= *)
(** ** Services/ShopService.server.ts: [updateShopSettings] *)

Module Settings.

(** The configuration fields of a [Partial<ShopSettings>]. *)
Record Partial : Type := mkPartial {
  cutoffTime : option string;
  maxDaysInAdvance : option Z;
  enableSameDayDelivery : option bool
}.

(** The [create] branch: [settings.cutoffTime || "14:00"] and so on;
    the time zone takes the column default. *)
Definition created (id shopName : string) (settings : Partial) : ShopSettings.t :=
  ShopSettings.mk id shopName
    match cutoffTime settings with
    | Some c => if String.eqb c "" then "14:00" else c
    | None => "14:00"
    end
    match maxDaysInAdvance settings with
    | Some n => if n =? 0 then 30 else n
    | None => 30
    end
    match enableSameDayDelivery settings with
    | Some b => b
    | None => false
    end
    "UTC".

(** The [update] branch: [...settings]. *)
Definition updated (settings : Partial) (old : ShopSettings.t) : ShopSettings.t :=
  ShopSettings.mk (ShopSettings.id old) (ShopSettings.shopName old)
    match cutoffTime settings with
    | Some c => c
    | None => ShopSettings.cutoffTime old
    end
    match maxDaysInAdvance settings with
    | Some n => n
    | None => ShopSettings.maxDaysInAdvance old
    end
    match enableSameDayDelivery settings with
    | Some b => b
    | None => ShopSettings.enableSameDayDelivery old
    end
    (ShopSettings.timezone old).

(** [shopSettings.upsert({ where: { shopName }, create, update })] *)
Definition upsertShopSettings (shopName : string) (create : ShopSettings.t)
    (update : ShopSettings.t -> ShopSettings.t) (d : DB)
  : result ShopSettings.t * DB :=
  let where_ := fun s => String.eqb (ShopSettings.shopName s) shopName in
  match findFirst (shopSettings d) where_, updateFirst where_ update (shopSettings d) with
  | Some old, Some l => (Ok (update old), withShopSettings l d)
  | _, _ => insertShopSettings create d
  end.

(** [updateShopSettings]; the id drawn is used only if the row is
    created. *)
Definition updateShopSettings (shopName : string) (settings : Partial)
  : M ShopSettings.t :=
  id <- freshId ;;
  call (upsertShopSettings shopName (created id shopName settings) (updated settings)).

End Settings.

(* ================================================================= *)
(** ** routes/apps.delivery-scheduler.$args.tsx: [DeliveryEstimate] *)

Module DeliveryEstimate.

(** A slot as the estimate reports it. *)
Record FormattedSlot : Type := mkFormattedSlot {
  id : string;
  startTime : string;
  endTime : string;
  capacity : Z;
  currentOrders : Z;
  date : string;
  zoneId : string;
  isActive : bool
}.

Inductive body : Type :=
| ErrorBody (error : string)
| EstimateBody (shippingRate : Z) (availableSlots : list FormattedSlot) (zone : string).

Record Response : Type := json {
  payload : body;
  status : Z
}.

Definition formatSlot (deliveryDate : string) (x : DeliveryService.SlotWithBookings)
  : FormattedSlot :=
  mkFormattedSlot
    (DeliverySlot.id (DeliveryService.slot x))
    (DeliverySlot.startTime (DeliveryService.slot x))
    (DeliverySlot.endTime (DeliveryService.slot x))
    (DeliverySlot.capacity (DeliveryService.slot x))
    (DeliveryService.currentBookings x)
    deliveryDate
    (DeliverySlot.zoneId (DeliveryService.slot x))
    (DeliverySlot.isActive (DeliveryService.slot x)).

Section Loader.

(** [new Date(text)]: the instant the text denotes, if it denotes one. *)
Variable parseDate : string -> option Js.Date.

(** [DeliveryEstimate.loader]; [now] is the clock's reading. *)
Definition loader (now : Js.Date) (country_code delivery_date shop : option string)
  : M Response :=
  match country_code, delivery_date, shop with
  | Some countryCode, Some deliveryDate, Some shopName =>
      if DeliveryZones.falsy country_code || DeliveryZones.falsy delivery_date
         || DeliveryZones.falsy shop then
        ret (json (ErrorBody "Missing required parameters") 400)
      else
        tryCatch
          match parseDate deliveryDate with
          | None => ret (json (ErrorBody "Invalid delivery date") 400)
          | Some date =>
              tz <- getTza ;;
              let today := Js.startOfLocalDay tz now in
              if date <? today then
                ret (json (ErrorBody "Cannot select past dates") 400)
              else
                zone <- DeliveryService.getZoneByCountryCode shopName countryCode ;;
                match zone with
                | None =>
                    ret (json (ErrorBody "Delivery not available in this area") 404)
                | Some z =>
                    isBlackedOut <- DeliveryService.isDateBlackedOut shopName date
                                      (Some (DeliveryZone.id z)) ;;
                    if isBlackedOut : bool then
                      ret (json (ErrorBody "Selected date is not available for delivery")
                             400)
                    else
                      availableSlots <- DeliveryService.getAvailableSlots shopName date
                                          (DeliveryZone.id z) ;;
                      ret (json (EstimateBody (DeliveryZone.shippingRate z)
                                   (map (formatSlot deliveryDate) availableSlots)
                                   (DeliveryZone.name z)) 200)
                end
          end
          (fun _ => ret (json (ErrorBody "Failed to calculate shipping rate") 500))
  | _, _, _ => ret (json (ErrorBody "Missing required parameters") 400)
  end.

End Loader.

End DeliveryEstimate.

(* ================================================================= *)
(** ** extensions/delivery-selector/src: the checkout component *)

Module Selector.

Import DeliveryEstimate.

(** [formatTimeSlot] *)
Definition formatTimeSlot (slot : FormattedSlot) : string :=
  let spotsLeft := capacity slot - currentOrders slot in
  String.concat ""
    [startTime slot; " - "; endTime slot; " ("; JsText.numberToString spotsLeft; " ";
     if spotsLeft =? 1 then "spot" else "spots"; " available)"].

(** [isSlotAvailable] *)
Definition isSlotAvailable (slot : FormattedSlot) : bool :=
  isActive slot && (currentOrders slot <? capacity slot).

Record SelectOption : Type := mkSelectOption {
  label : string;
  value : string;
  disabled : bool
}.

(** [slotOptions]; the argument is [estimate?.availableSlots]. *)
Definition slotOptions (availableSlots : option (list FormattedSlot))
  : list SelectOption :=
  match availableSlots with
  | None => [mkSelectOption "No slots available" "" true]
  | Some slots =>
      let available := filter isSlotAvailable slots in
      if (Z.of_nat (List.length available) =? 0) then
        [mkSelectOption "No slots available" "" true]
      else
        mkSelectOption "Choose a time slot" "" true
        :: map (fun slot => mkSelectOption (formatTimeSlot slot) (id slot) false) available
  end.

(** The state the handlers set: the selected date (a valid date or
    none), the selected slot and the cut-off notice shown. *)
Record Selection : Type := mkSelection {
  selectedDate : option Js.Date;
  selectedSlot : string;
  cutoffNotification : option string
}.

Section Handlers.

(** [LocalTZA(t, isUTC)] of the browser's time zone: the offset of
    local time from UTC in force at the instant [t] ([isUTC] true) or
    at the local time [t] ([isUTC] false).  It changes with daylight
    saving time. *)
Variable LocalTZA : Z -> bool -> Z.

(** [date.toLocaleDateString('en-US', { weekday, month, day })] *)
Variable toLocaleDateString : Js.Date -> string.

(** [getNextAvailableDate]: [getDate()] reads the local day of the
    month; [setDate(getDate() + 1)] keeps the local time of day, moves
    to the next local day and converts back with the offset in force
    there. *)
Definition getNextAvailableDate (currentDate : Js.Date) (enableSameDay : bool)
  : Js.Date :=
  let t := currentDate + LocalTZA currentDate true in
  let newDate := (Js.Day t + 1) * Js.msPerDay + t mod Js.msPerDay in
  newDate - LocalTZA newDate false.

(** [handleSlotChange]: the state after the setters it calls. *)
Definition handleSlotChange (cutoffTime : string) (enableSameDay : bool)
    (availableSlots : option (list FormattedSlot)) (st : Selection) (slotId : string)
  : Selection :=
  match selectedDate st, availableSlots with
  | Some date, Some slots =>
      if String.eqb slotId "" then mkSelection (selectedDate st) slotId None
      else
        match find (fun slot => String.eqb (id slot) slotId) slots with
        | None => mkSelection (selectedDate st) slotId (cutoffNotification st)
        | Some selectedSlotData =>
            if Checkout.isSlotPastCutoff (endTime selectedSlotData) cutoffTime then
              let nextDate := getNextAvailableDate date enableSameDay in
              let nextDateStr := toLocaleDateString nextDate in
              mkSelection (Some nextDate) ""
                (Some (String.concat ""
                   ["The selected time slot (ending at "; endTime selectedSlotData;
                    ") is past our "; cutoffTime; " cutoff time. ";
                    "Your delivery has been automatically moved to "; nextDateStr;
                    " with the first available time slot selected."]))
            else mkSelection (selectedDate st) slotId None
        end
  | _, _ => mkSelection (selectedDate st) slotId None
  end.

End Handlers.

(** The offsets of a browser in New York in 2026: five hours behind
    UTC, four from 8 March, 02:00 local, to 1 November, 02:00 local.
    A local time the change skips is read with the offset before it, a
    local time it repeats with the earlier of the two. *)
Definition newYork2026 (t : Z) (isUTC : bool) : Z :=
  let hour := 3600000 in
  let spring := Js.ofDay 20520 in
  let autumn := Js.ofDay 20758 in
  if isUTC then
    if (spring + 7 * hour <=? t) && (t <? autumn + 6 * hour) then - 4 * hour
    else - 5 * hour
  else
    if (spring + 3 * hour <=? t) && (t <? autumn + 2 * hour) then - 4 * hour
    else - 5 * hour.

End Selector.

(* ================================================================= *)
(** ** routes/app.time-slots.tsx: the admin action *)

Module TimeSlots.

(** The first row that [where_] selects, with the rows before and
    after it. *)
Fixpoint splitFirst {R} (where_ : R -> bool) (before after : list R)
  : option (R * list R * list R) :=
  match after with
  | [] => None
  | x :: rest =>
      if where_ x then Some (x, before, rest)
      else splitFirst where_ (before ++ [x]) rest
  end.

(** [deliverySlot.update({ where: { id }, data })]: a changed zone must
    exist, and a changed (shopName, zoneId, startTime, endTime) must
    not be that of another row. *)
Definition updateDeliverySlotRow (slotId : string)
    (f : DeliverySlot.t -> DeliverySlot.t) (d : DB) : result DeliverySlot.t * DB :=
  match splitFirst (fun s => String.eqb (DeliverySlot.id s) slotId) [] (deliverySlot d) with
  | None => (Throw recordNotFound, d)
  | Some (s, before, rest) =>
      if negb (String.eqb (DeliverySlot.zoneId (f s)) (DeliverySlot.zoneId s))
         && negb (existsb_str (DeliverySlot.zoneId (f s))
                    (map DeliveryZone.id (deliveryZone d)))
      then (Throw foreignKeyViolation, d)
      else if negb (sameSlotKey (f s) s) && existsb (sameSlotKey (f s)) (before ++ rest)
      then (Throw uniqueViolation, d)
      else (Ok (f s), withDeliverySlot (before ++ f s :: rest) d)
  end.

(** [deliverySlot.delete({ where: { id } })]: orders refer to slots
    with ON DELETE RESTRICT. *)
Definition deleteDeliverySlotRow (slotId : string) (d : DB)
  : result DeliverySlot.t * DB :=
  match splitFirst (fun s => String.eqb (DeliverySlot.id s) slotId) [] (deliverySlot d) with
  | None => (Throw recordNotFound, d)
  | Some (s, before, rest) =>
      if existsb (fun o => String.eqb (Order.deliverySlotId o) slotId) (order d)
      then (Throw foreignKeyViolation, d)
      else (Ok s, withDeliverySlot (before ++ rest) d)
  end.

Definition withTimes (startTime endTime : string) (capacity : Z) (zoneId : string)
    (s : DeliverySlot.t) : DeliverySlot.t :=
  DeliverySlot.mk (DeliverySlot.id s) (DeliverySlot.shopName s) startTime endTime
    capacity (DeliverySlot.currentOrders s) (DeliverySlot.isActive s) zoneId.

Definition withIsActive (b : bool) (s : DeliverySlot.t) : DeliverySlot.t :=
  DeliverySlot.mk (DeliverySlot.id s) (DeliverySlot.shopName s)
    (DeliverySlot.startTime s) (DeliverySlot.endTime s) (DeliverySlot.capacity s)
    (DeliverySlot.currentOrders s) b (DeliverySlot.zoneId s).

(** The posted form; [capacity] is what [parseInt] read ([None]: NaN). *)
Record Form : Type := mkForm {
  actionType : option string;
  startTime : option string;
  endTime : option string;
  capacity : option Z;
  zoneId : option string;
  slotId : option string
}.

Inductive body : Type :=
| StatusBody (status : string)
| ToggledBody (newStatus : bool)
| ErrorBody (error : string).

Record Response : Type := json {
  payload : body;
  status : Z
}.

Definition activeOrderWhere (slotId : string) (o : Order.t) : bool :=
  String.eqb (Order.deliverySlotId o) slotId
  && negb (OrderStatus_eqb (Order.status o) CANCELLED).

(** [action]; [shop] is the shop of the session. *)
Definition action (shop : string) (form : Form) : M Response :=
  tryCatch
    (if Zones.equals (actionType form) "create" || Zones.equals (actionType form) "update"
     then
       match capacity form with
       | None => ret (json (ErrorBody "All fields are required") 400)
       | Some cap =>
           if negb (Zones.truthy (startTime form)) || negb (Zones.truthy (endTime form))
              || (cap =? 0) || negb (Zones.truthy (zoneId form)) then
             ret (json (ErrorBody "All fields are required") 400)
           else if String.leb (Zones.text (endTime form)) (Zones.text (startTime form)) then
             ret (json (ErrorBody "End time must be after start time") 400)
           else if cap <=? 0 then
             ret (json (ErrorBody "Capacity must be greater than 0") 400)
           else if Zones.equals (actionType form) "update" && Zones.truthy (slotId form)
           then
             call (updateDeliverySlotRow (Zones.text (slotId form))
                     (withTimes (Zones.text (startTime form)) (Zones.text (endTime form))
                        cap (Zones.text (zoneId form)))) ;;;
             ret (json (StatusBody "updated") 200)
           else
             DeliveryService.createDeliverySlot
               (DeliveryService.mkCreateSlotData shop (Zones.text (startTime form))
                  (Zones.text (endTime form)) cap (Zones.text (zoneId form))) ;;;
             ret (json (StatusBody "created") 200)
       end
     else if Zones.equals (actionType form) "toggle" then
       if negb (Zones.truthy (slotId form)) then
         ret (json (ErrorBody "Slot ID is required") 400)
       else
         currentSlot <- read (fun d =>
           DeliveryService.findSlotById d (Zones.text (slotId form))) ;;
         match currentSlot with
         | None => ret (json (ErrorBody "Slot not found") 404)
         | Some s =>
             call (updateDeliverySlotRow (Zones.text (slotId form))
                     (withIsActive (negb (DeliverySlot.isActive s)))) ;;;
             ret (json (ToggledBody (negb (DeliverySlot.isActive s))) 200)
         end
     else if Zones.equals (actionType form) "delete" then
       if negb (Zones.truthy (slotId form)) then
         ret (json (ErrorBody "Slot ID is required") 400)
       else
         orderCount <- read (fun d =>
           count (order d) (activeOrderWhere (Zones.text (slotId form)))) ;;
         if 0 <? orderCount then
           ret (json (ErrorBody
                  (String.concat ""
                     ["Cannot delete slot with "; JsText.numberToString orderCount;
                      " active orders. Please cancel or complete these orders first."]))
                  400)
         else
           call (deleteDeliverySlotRow (Zones.text (slotId form))) ;;;
           ret (json (StatusBody "deleted") 200)
     else ret (json (ErrorBody "Invalid action type") 400))
    (fun message => ret (json (ErrorBody message) 500)).

End TimeSlots.

(** Every slot starts before it ends and has room for an order. *)
Definition wellFormedSlots (d : DB) : Prop :=
  forall s, In s (deliverySlot d) ->
    properRange s /\ 0 < DeliverySlot.capacity s.

(* ================================================================= *)
(** ** routes/app.blackout-dates.tsx: the admin action *)

Module Blackouts.

(** blackout_dates: shopName and zoneId are foreign keys; (shopName,
    date, zoneId) is unique, rows without a zone apart. *)
Definition sameBlackoutKey (a b : BlackoutDate.t) : bool :=
  String.eqb (BlackoutDate.shopName a) (BlackoutDate.shopName b)
  && (BlackoutDate.date a =? BlackoutDate.date b)
  && match BlackoutDate.zoneId a, BlackoutDate.zoneId b with
     | Some x, Some y => String.eqb x y
     | _, _ => false
     end.

Definition refersToZone (row : BlackoutDate.t) (d : DB) : bool :=
  match BlackoutDate.zoneId row with
  | Some z => existsb_str z (map DeliveryZone.id (deliveryZone d))
  | None => true
  end.

Definition insertBlackoutDate (row : BlackoutDate.t) (d : DB)
  : result BlackoutDate.t * DB :=
  if negb (existsb_str (BlackoutDate.shopName row) (shop d)) then
    (Throw foreignKeyViolation, d)
  else if negb (refersToZone row d) then (Throw foreignKeyViolation, d)
  else if existsb (sameBlackoutKey row) (blackoutDate d) then (Throw uniqueViolation, d)
  else (Ok row, Zones.withBlackoutDate (blackoutDate d ++ [row]) d).

(** [blackoutDate.update({ where: { id }, data })] *)
Definition updateBlackoutDateRow (blackoutId : string)
    (f : BlackoutDate.t -> BlackoutDate.t) (d : DB) : result BlackoutDate.t * DB :=
  match TimeSlots.splitFirst (fun b => String.eqb (BlackoutDate.id b) blackoutId) []
          (blackoutDate d) with
  | None => (Throw recordNotFound, d)
  | Some (b, before, rest) =>
      if negb (existsb_str (BlackoutDate.shopName (f b)) (shop d)) then
        (Throw foreignKeyViolation, d)
      else if negb (refersToZone (f b) d) then (Throw foreignKeyViolation, d)
      else if existsb (sameBlackoutKey (f b)) (before ++ rest) then
        (Throw uniqueViolation, d)
      else (Ok (f b), Zones.withBlackoutDate (before ++ f b :: rest) d)
  end.

(** [blackoutDate.delete({ where: { id } })] *)
Definition deleteBlackoutDateRow (blackoutId : string) (d : DB)
  : result BlackoutDate.t * DB :=
  match TimeSlots.splitFirst (fun b => String.eqb (BlackoutDate.id b) blackoutId) []
          (blackoutDate d) with
  | None => (Throw recordNotFound, d)
  | Some (b, before, rest) => (Ok b, Zones.withBlackoutDate (before ++ rest) d)
  end.

(** The posted form, with the date as [new Date(text)] read it ([None]:
    an invalid date) and the recurring flag as compared with 'true'. *)
Record Form : Type := mkForm {
  actionType : option string;
  date : option Js.Date;
  isRecurring : bool;
  zoneId : option string;
  blackoutId : option string
}.

Inductive body : Type :=
| StatusBody (status : string)
| ErrorBody (error : string).

Record Response : Type := json {
  payload : body;
  status : Z
}.

(** [zoneId || null] *)
Definition orNull (p : option string) : option string :=
  if Zones.truthy p then p else None.

(** The duplicate check: the shop's row of that date and zone, a DATE
    column being compared with a Date as the instant of its midnight,
    UTC. *)
Definition duplicateWhere (shop : string) (date : Js.Date) (zoneId : option string)
    (b : BlackoutDate.t) : bool :=
  String.eqb (BlackoutDate.shopName b) shop
  && (Js.ofDay (BlackoutDate.date b) =? date)
  && match zoneId, BlackoutDate.zoneId b with
     | Some x, Some y => String.eqb y x
     | None, None => true
     | _, _ => false
     end.

(** [action]; [shop] is the shop of the session.  A DATE column keeps
    the UTC day of the instant written to it. *)
Definition action (shop : string) (form : Form) : M Response :=
  tryCatch
    (if Zones.equals (actionType form) "create" || Zones.equals (actionType form) "update"
     then
       match date form with
       | None => ret (json (ErrorBody "Invalid date provided") 400)
       | Some date =>
           let data := fun id =>
             BlackoutDate.mk id shop (Js.Day date) (isRecurring form)
               (orNull (zoneId form)) in
           if Zones.equals (actionType form) "update" && Zones.truthy (blackoutId form)
           then
             call (updateBlackoutDateRow (Zones.text (blackoutId form))
                     (fun b => data (BlackoutDate.id b))) ;;;
             ret (json (StatusBody "updated") 200)
           else
             existing <- read (fun d =>
               findFirst (blackoutDate d)
                 (duplicateWhere shop date (orNull (zoneId form)))) ;;
             match existing with
             | Some _ =>
                 ret (json (ErrorBody
                        "Blackout date already exists for this date and zone") 400)
             | None =>
                 id <- freshId ;;
                 call (insertBlackoutDate (data id)) ;;;
                 ret (json (StatusBody "created") 200)
             end
       end
     else if Zones.equals (actionType form) "delete" then
       if negb (Zones.truthy (blackoutId form)) then
         ret (json (ErrorBody "Blackout ID is required") 400)
       else
         call (deleteBlackoutDateRow (Zones.text (blackoutId form))) ;;;
         ret (json (StatusBody "deleted") 200)
     else ret (json (ErrorBody "Invalid action type") 400))
    (fun message => ret (json (ErrorBody message) 500)).

End Blackouts.

(* ================================================================= *)
(** ** Services/WebHookService.server.ts: [formatCustomerName] *)

Module Customers.

Record Customer : Type := mkCustomer {
  first_name : option string;
  last_name : option string
}.

(** [name?.trim() || ''] *)
Definition trimmed (p : option string) : string :=
  match p with
  | Some s => JsText.trim s
  | None => ""
  end.

(** [formatCustomerName] *)
Definition formatCustomerName (customer : option Customer) : string :=
  match customer with
  | None => "Valued Customer"
  | Some c =>
      let firstName := trimmed (first_name c) in
      let lastName := trimmed (last_name c) in
      let fullName := JsText.trim (firstName ++ " " ++ lastName) in
      if String.eqb fullName "" then "Valued Customer" else fullName
  end.

End Customers.

(* ================================================================= *)
(** ** Services/DeliveryService.server.ts: [getAllSlots] *)

Module Listing.

Import DeliveryService.

(** A slot of the admin's list: the zone's name joined in, and the
    booking figures of today. *)
Record SlotListing : Type := mkSlotListing {
  slot : DeliverySlot.t;
  zoneName : option string;
  currentBookings : Z;
  availableCapacity : Z
}.

Definition allSlotsWhere (shopName : string) (getActiveOnly : bool)
    (s : DeliverySlot.t) : bool :=
  String.eqb (DeliverySlot.shopName s) shopName
  && (if getActiveOnly then DeliverySlot.isActive s else true).

Definition joinZoneName (d : DB) (s : DeliverySlot.t) : option string :=
  option_map DeliveryZone.name (joinZone d s).

(** [getAllSlots]; [today] is the clock's reading.  The rows come
    ordered by zone and, within a zone, by start time. *)
Definition getAllSlots (today : Js.Date) (shopName : string) (getActiveOnly : bool)
  : M (list SlotListing) :=
  tryCatch
    (slots <- read (fun d =>
       map (fun s => (s, joinZoneName d s))
         (orderBy DeliverySlot.zoneId
            (orderBy DeliverySlot.startTime
               (findMany (deliverySlot d) (allSlotsWhere shopName getActiveOnly))))) ;;
     mapM (fun sz : DeliverySlot.t * option string =>
       tryCatch
         (currentBookings <- getSlotBookingsForDate (DeliverySlot.id (fst sz)) today ;;
          ret (mkSlotListing
                 (DeliverySlot.withCurrentOrders currentBookings (fst sz))
                 (snd sz)
                 currentBookings
                 (DeliverySlot.capacity (fst sz) - currentBookings)))
         (fun _ =>
          ret (mkSlotListing
                 (DeliverySlot.withCurrentOrders 0 (fst sz))
                 (snd sz)
                 0
                 (DeliverySlot.capacity (fst sz))))) slots)
    (fun _ => throw "Failed to fetch delivery slots").

End Listing.

(** The order of the admin's slot list: by zone, and by start time
    within a zone. *)
Definition zoneThenStart (a b : DeliverySlot.t) : Prop :=
  before (DeliverySlot.zoneId a) (DeliverySlot.zoneId b)
  \/ (DeliverySlot.zoneId a = DeliverySlot.zoneId b
      /\ atOrBefore (DeliverySlot.startTime a) (DeliverySlot.startTime b)).

(* ================================================================= *)
(** ** routes/apps.delivery-scheduler.$args.tsx: [DeliveryShopSettings];
       extensions/delivery-selector/src: [useShopSettings] *)

Module DeliveryShopSettings.

Inductive body : Type :=
| ErrorBody (error : string)
| SettingsBody (settings : option ShopSettings.t).

Record Response : Type := json {
  payload : body;
  status : Z
}.

(** [DeliveryShopSettings.loader] *)
Definition loader (shop : option string) : M Response :=
  match shop with
  | Some shopName =>
      if DeliveryZones.falsy shop then
        ret (json (ErrorBody "Shop parameter is required") 400)
      else
        tryCatch
          (settings <- ShopService.getShopSettings shopName ;;
           ret (json (SettingsBody settings) 200))
          (fun _ => ret (json (ErrorBody "Failed to fetch shop settings") 500))
  | None => ret (json (ErrorBody "Shop parameter is required") 400)
  end.



(** The values the component works with. *)
Definition enableSameDay (settings : option ShopSettings.t) : bool :=
  match settings with
  | Some s => ShopSettings.enableSameDayDelivery s
  | None => false
  end.


Definition cutoffTime (settings : option ShopSettings.t) : string :=
  match settings with
  | Some s => if String.eqb (ShopSettings.cutoffTime s) "" then "14:00"
              else ShopSettings.cutoffTime s
  | None => "14:00"
  end.

End DeliveryShopSettings.

(* ================================================================= *)
(** * Properties *)

(** ** Calendar *)

Lemma YearFromTime_spec (t : Js.Date) :
  Js.DayFromYear (Js.YearFromTime t) <= Js.Day t
  < Js.DayFromYear (Js.YearFromTime t + 1).
Proof.
  unfold Js.YearFromTime, Js.DayFromYear.
  set (d := Js.Day t). clearbody d.
  repeat match goal with
  | |- context [?a <? ?b] => destruct (Z.ltb_spec a b)
  | |- context [?a <=? ?b] => destruct (Z.leb_spec a b)
  end; Z.to_euclidean_division_equations; lia.
Qed.

Example date_2024_02_29 :
  (Js.YearFromTime 1709164800000, Js.MonthFromTime 1709164800000,
   Js.DateFromTime 1709164800000) = (2024, 1, 29).
Proof. vm_compute. reflexivity. Qed.

Example date_1999_12_31 :
  (Js.YearFromTime 946684799999, Js.MonthFromTime 946684799999,
   Js.DateFromTime 946684799999) = (1999, 11, 31).
Proof. vm_compute. reflexivity. Qed.

Example date_1969_12_31 :
  (Js.YearFromTime (-1), Js.MonthFromTime (-1), Js.DateFromTime (-1))
  = (1969, 11, 31).
Proof. vm_compute. reflexivity. Qed.

(** A stored day [d] lies in the UTC day window of [t] exactly when it
    is the day of [t]. *)
Lemma utc_window_iff (t : Js.Date) (d : Z) :
  Js.startOfUTCDay t <= Js.ofDay d < Js.addUTCDay (Js.startOfUTCDay t)
  <-> d = Js.Day t.
Proof.
  unfold Js.startOfUTCDay, Js.addUTCDay, Js.ofDay, Js.msPerDay. lia.
Qed.

(** ** The cutoff check *)

Section Cutoff.
Import Checkout.

Lemma digit_not_colon (c : ascii) :
  Js.isDigit c = true -> Ascii.eqb c colon = false.
Proof.
  intros H. apply Ascii.eqb_neq. intros ->. discriminate H.
Qed.

Lemma Number_two_digits (a b : ascii) :
  Js.isDigit a = true -> Js.isDigit b = true ->
  Js.Number (String a (String b EmptyString))
  = Js.Int (10 * Js.digitVal a + Js.digitVal b).
Proof.
  intros Ha Hb. unfold Js.Number. cbn [Js.digitsValue].
  rewrite Ha, Hb. f_equal; lia.
Qed.

Lemma minutesSinceMidnight_inv (s : string) (m : Z) :
  minutesSinceMidnight s = Some m ->
  exists h1 h2 m1 m2,
    s = String h1 (String h2 (String colon (String m1 (String m2 EmptyString))))
    /\ Js.isDigit h1 = true /\ Js.isDigit h2 = true
    /\ Js.isDigit m1 = true /\ Js.isDigit m2 = true
    /\ m = (10 * Js.digitVal h1 + Js.digitVal h2) * 60
           + (10 * Js.digitVal m1 + Js.digitVal m2).
Proof.
  unfold minutesSinceMidnight.
  destruct s as [|h1 [|h2 [|c [|m1 [|m2 [|x r]]]]]]; try discriminate.
  destruct (Js.isDigit h1) eqn:E1; try discriminate.
  destruct (Js.isDigit h2) eqn:E2; try discriminate.
  destruct (Ascii.eqb c colon) eqn:Ec; try discriminate.
  destruct (Js.isDigit m1) eqn:E3; try discriminate.
  destruct (Js.isDigit m2) eqn:E4; try discriminate.
  cbn. intros [= <-]. apply Ascii.eqb_eq in Ec. subst c.
  exists h1, h2, m1, m2. repeat split; auto.
Qed.

Lemma split_hhmm (h1 h2 m1 m2 : ascii) :
  Js.isDigit h1 = true -> Js.isDigit h2 = true ->
  Js.isDigit m1 = true -> Js.isDigit m2 = true ->
  Js.split colon
    (String h1 (String h2 (String colon (String m1 (String m2 EmptyString)))))
  = [String h1 (String h2 EmptyString); String m1 (String m2 EmptyString)].
Proof.
  intros H1 H2 H3 H4. cbn [Js.split].
  rewrite (digit_not_colon _ H1), (digit_not_colon _ H2),
    (digit_not_colon _ H3), (digit_not_colon _ H4).
  rewrite Ascii.eqb_refl. reflexivity.
Qed.

Lemma minutes_of_hhmm (s : string) (m : Z) :
  minutesSinceMidnight s = Some m ->
  let parts := map Js.Number (Js.split colon s) in
  Js.add (Js.mul (Js.elem parts 0) (Js.Int 60)) (Js.elem parts 1) = Js.Int m.
Proof.
  intros H. apply minutesSinceMidnight_inv in H.
  destruct H as (h1 & h2 & m1 & m2 & -> & H1 & H2 & H3 & H4 & ->).
  cbv zeta. rewrite split_hhmm by assumption.
  cbn [map Js.elem nth]. rewrite !Number_two_digits by assumption.
  reflexivity.
Qed.

End Cutoff.

(** C7. For end and cutoff times written 'HH:MM', [isSlotPastCutoff]
    is true exactly when the end time in minutes since midnight (hours
    times 60 plus minutes) is strictly greater than the cutoff in
    minutes; in particular a slot that ends at the cutoff is not past it. *)
Theorem isSlotPastCutoff_minutes (slotEndTime cutoffTime : string) (s c : Z) :
  Checkout.minutesSinceMidnight slotEndTime = Some s ->
  Checkout.minutesSinceMidnight cutoffTime = Some c ->
  Checkout.isSlotPastCutoff slotEndTime cutoffTime = (c <? s)
  /\ (s = c -> Checkout.isSlotPastCutoff slotEndTime cutoffTime = false).
Proof.
  intros Hs Hc.
  assert (E : Checkout.isSlotPastCutoff slotEndTime cutoffTime = (c <? s)).
  { unfold Checkout.isSlotPastCutoff. cbv zeta.
    rewrite (minutes_of_hhmm _ _ Hs), (minutes_of_hhmm _ _ Hc). reflexivity. }
  split; [exact E|]. intros ->. rewrite E. apply Z.ltb_irrefl.
Qed.

Lemma isSlotPastCutoff_minutes_witness :
  Checkout.isSlotPastCutoff "15:30" "14:00" = true
  /\ Checkout.isSlotPastCutoff "14:00" "14:00" = false.
Proof.
  split.
  - apply (isSlotPastCutoff_minutes "15:30" "14:00" 930 840); reflexivity.
  - apply (isSlotPastCutoff_minutes "14:00" "14:00" 840 840); reflexivity.
Defined.

(* ================================================================= *)
(** ** Running the client *)

Lemma quiet_advance (d : DB) (w : World) : quiet w -> quiet (advance d w).
Proof.
  unfold quiet, advance. cbn. intros H.
  destruct H; cbn; [constructor | assumption].
Qed.

Lemma call_quiet {A} (q : DB -> result A * DB) (w : World) :
  quiet w -> call q w = (fst (q (db w)), advance (snd (q (db w))) w).
Proof.
  unfold quiet, call, advance. intros H.
  destruct H as [|f fs Hf _]; cbn.
  - destruct (q (db w)); reflexivity.
  - subst f. destruct (q (db w)); reflexivity.
Qed.

Lemma read_quiet {A} (q : DB -> A) (w : World) :
  quiet w -> read q w = (Ok (q (db w)), advance (db w) w).
Proof. intros H. unfold read. rewrite call_quiet by assumption. reflexivity. Qed.

(** ** Lists *)

Lemma filter_nil_iff {A} (p : A -> bool) (l : list A) :
  filter p l = [] <-> forall x, In x l -> p x = false.
Proof.
  induction l as [|a l IH]; cbn.
  - split; [intros _ x [] | reflexivity].
  - destruct (p a) eqn:E; split.
    + discriminate.
    + intros H. specialize (H a (or_introl eq_refl)). congruence.
    + intros H x [<-|Hx]; [assumption | apply IH; assumption].
    + intros H. apply IH. intros x Hx. apply H. right. assumption.
Qed.



Lemma count_pos_iff {R} (p : R -> bool) (l : list R) :
  (0 <? count l p) = true <-> exists x, In x l /\ p x = true.
Proof.
  unfold count. rewrite Z.ltb_lt. split.
  - intros H. destruct (filter p l) as [|x r] eqn:E; [cbn in H; lia|].
    exists x. apply filter_In. rewrite E. left. reflexivity.
  - intros (x & Hx & Hp).
    assert (Hin : In x (filter p l)) by (apply filter_In; auto).
    destruct (filter p l); [destruct Hin | cbn; lia].
Qed.

(* ================================================================= *)
(** ** DeliveryService.releaseSlot *)

Lemma releaseSlot_run (slotId : string) (w : World) :
  releaseSlot slotId w =
  match faults w with
  | Some e :: fs => (Ok false, mkWorld (db w) fs (nextId w) (tza w))
  | _ =>
      (Ok (0 <? count (deliverySlot (db w)) (releaseWhere slotId)),
       mkWorld
         (withDeliverySlot
            (updateAll (releaseWhere slotId) decrementCurrentOrders
               (deliverySlot (db w))) (db w))
         (tl (faults w)) (nextId w) (tza w))
  end.
Proof.
  unfold releaseSlot, tryCatch, bind, call, ret.
  destruct (faults w) as [|[e|] fs]; reflexivity.
Qed.







(* ================================================================= *)
(** ** Failing open *)

Lemma consumed_0 (w w' : World) : faults w' = faults w -> consumed w w' = [].
Proof. unfold consumed. intros ->. rewrite Nat.sub_diag. reflexivity. Qed.

Lemma consumed_1 (w w' : World) (o : option exn) :
  faults w = o :: faults w' -> consumed w w' = [o].
Proof.
  unfold consumed. intros ->. cbn [List.length].
  replace (S (List.length (faults w')) - List.length (faults w'))%nat with 1%nat by lia.
  reflexivity.
Qed.

Lemma consumed_2 (w w' : World) (o1 o2 : option exn) :
  faults w = o1 :: o2 :: faults w' -> consumed w w' = [o1; o2].
Proof.
  unfold consumed. intros ->. cbn [List.length].
  replace (S (S (List.length (faults w'))) - List.length (faults w'))%nat with 2%nat by lia.
  reflexivity.
Qed.

Ltac settle_consumed H :=
  match type of H with
  | In _ (consumed ?a ?b) =>
      first [ rewrite (consumed_0 a b eq_refl) in H
            | rewrite (consumed_1 a b _ eq_refl) in H
            | rewrite (consumed_2 a b _ _ eq_refl) in H ]
  end; cbn in H; intuition discriminate.

(** C9. Availability checks fail open.  Whenever a database query made
    by [isDateBlackedOut] throws, it returns false, whatever blackout
    records the store holds; whenever the count query of
    [getSlotBookingsForDate] throws, it returns 0, whatever orders are
    booked, so a slot that is full is reported with its whole capacity
    free.  Neither propagates the error. *)
Theorem availability_fails_open (shopName : string) (date : Js.Date)
    (zoneId : option string) (slotId : string) (w : World) :
  (forall r w', isDateBlackedOut shopName date zoneId w = (r, w') ->
     threw w w' -> r = Ok false)
  /\ (forall r w', getSlotBookingsForDate slotId date w = (r, w') ->
        threw w w' -> r = Ok 0).
Proof.
  destruct w as [d fs n tz]. split; intros r w'.
  - unfold isDateBlackedOut, tryCatch, bind, getTza, read, call, ret. cbn.
    destruct fs as [|[e|] [|[e2|] fs]]; cbn;
    repeat match goal with
    | |- context [match findFirst ?t ?p with _ => _ end] =>
        destruct (findFirst t p); cbn
    end; intros [= <- <-]; try reflexivity; intros [x H]; exfalso;
    settle_consumed H.
  - unfold getSlotBookingsForDate, tryCatch, bind, read, call, ret. cbn.
    destruct fs as [|[e|] fs]; cbn; intros [= <- <-]; try reflexivity;
    intros [x H]; exfalso; settle_consumed H.
Qed.

Lemma availability_fails_open_witness :
  fst (isDateBlackedOut Demo.shopName (Js.ofDay Demo.day_2026_03_10) (Some "z1")
         Demo.world) = Ok true
  /\ fst (isDateBlackedOut Demo.shopName (Js.ofDay Demo.day_2026_03_10) (Some "z1")
            Demo.offline) = Ok false
  /\ fst (getSlotBookingsForDate "s2" (Js.ofDay Demo.day_2026_01_15) Demo.world) = Ok 1
  /\ fst (getSlotBookingsForDate "s2" (Js.ofDay Demo.day_2026_01_15) Demo.offline) = Ok 0.
Proof.
  destruct (availability_fails_open Demo.shopName (Js.ofDay Demo.day_2026_03_10)
              (Some "z1") "s2" Demo.offline) as [H1 _].
  destruct (availability_fails_open Demo.shopName (Js.ofDay Demo.day_2026_01_15)
              (Some "z1") "s2" Demo.offline) as [_ H2].
  split; [vm_compute; reflexivity|].
  split.
  - apply (H1 _ _ (surjective_pairing _)).
    exists "Can't reach database server". vm_compute. left. reflexivity.
  - split; [vm_compute; reflexivity|].
    apply (H2 _ _ (surjective_pairing _)).
    exists "Can't reach database server". vm_compute. left. reflexivity.
Defined.

(* ================================================================= *)
(** ** The collation of names *)

Lemma keyCompare_eq_iff (a b : list N) : keyCompare a b = Eq <-> a = b.
Proof.
  revert b. induction a as [|x a IH]; intros [|y b]; cbn;
    try (split; [discriminate|discriminate]); [tauto|].
  destruct (N.compare_spec x y) as [->| |].
  - rewrite IH. split; [intros ->; reflexivity|intros [= ->]; reflexivity].
  - split; [discriminate|]. intros [= -> _]. lia.
  - split; [discriminate|]. intros [= -> _]. lia.
Qed.

Lemma keyCompare_antisym (a b : list N) :
  keyCompare b a = CompOpp (keyCompare a b).
Proof.
  revert b. induction a as [|x a IH]; intros [|y b]; cbn; try reflexivity.
  rewrite (N.compare_antisym x y).
  destruct (N.compare x y); cbn; [apply IH|reflexivity|reflexivity].
Qed.

Lemma keyCompare_le_trans (a b c : list N) :
  keyCompare a b <> Gt -> keyCompare b c <> Gt -> keyCompare a c <> Gt.
Proof.
  revert b c. induction a as [|x a IH]; intros [|y b] [|z c]; cbn;
    try congruence.
  destruct (N.compare_spec x y), (N.compare_spec y z), (N.compare_spec x z);
    subst; try congruence; try lia.
  apply IH.
Qed.

(** The store does not tell two texts apart exactly when it gives them
    the same sort key. *)
Lemma sameText_iff (d : DB) (a b : string) :
  sameText d a b = true <-> weightString d a = weightString d b.
Proof.
  unfold sameText. rewrite <- keyCompare_eq_iff.
  destruct (keyCompare _ _); split; congruence.
Qed.

Lemma sameText_refl (d : DB) (a : string) : sameText d a a = true.
Proof. apply sameText_iff. reflexivity. Qed.

Lemma sameText_sym (d : DB) (a b : string) : sameText d a b = sameText d b a.
Proof.
  apply eq_true_iff_eq. rewrite !sameText_iff. split; congruence.
Qed.

Lemma sameText_trans (d : DB) (a b c : string) :
  sameText d a b = true -> sameText d b c = true -> sameText d a c = true.
Proof. rewrite !sameText_iff. congruence. Qed.

Lemma textLeb_total (d : DB) (a b : string) :
  textLeb d a b = false -> textLeb d b a = true.
Proof.
  unfold textLeb. rewrite (keyCompare_antisym (weightString d a) (weightString d b)).
  destruct (keyCompare _ _); cbn; congruence.
Qed.

Lemma textLeb_trans (d : DB) (a b c : string) :
  textLeb d a b = true -> textLeb d b c = true -> textLeb d a c = true.
Proof.
  unfold textLeb. intros H1 H2.
  assert (H : keyCompare (weightString d a) (weightString d c) <> Gt).
  { apply (keyCompare_le_trans _ (weightString d b)).
    - destruct (keyCompare (weightString d a) (weightString d b)); congruence.
    - destruct (keyCompare (weightString d b) (weightString d c)); congruence. }
  destruct (keyCompare (weightString d a) (weightString d c)); congruence.
Qed.

(* ================================================================= *)
(** ** Zones by country code *)





(* ================================================================= *)
(** ** Shop settings *)


Lemma existsb_str_false (x : string) (l : list string) :
  ~ In x l -> existsb_str x l = false.
Proof.
  intros H. unfold existsb_str. destruct (existsb _ l) eqn:E; [|reflexivity].
  apply existsb_exists in E. destruct E as (y & Hy & Heq).
  apply String.eqb_eq in Heq. subst y. contradiction.
Qed.

Lemma existsb_str_true (x : string) (l : list string) :
  In x l -> existsb_str x l = true.
Proof.
  intros H. unfold existsb_str. apply existsb_exists. exists x.
  split; [assumption | apply String.eqb_refl].
Qed.



Lemma find_app_none {A} (p : A -> bool) (l l' : list A) :
  find p l = None -> find p (l ++ l') = find p l'.
Proof.
  induction l as [|a l IH]; cbn; [reflexivity|].
  destruct (p a); [discriminate | exact IH].
Qed.

Lemma getShopSettings_found (shopName : string) (s : ShopSettings.t) (w : World) :
  quiet w ->
  find (fun s => String.eqb (ShopSettings.shopName s) shopName) (shopSettings (db w))
  = Some s ->
  ShopService.getShopSettings shopName w = (Ok (Some s), advance (db w) w).
Proof.
  intros Hq Hf. unfold ShopService.getShopSettings, tryCatch, bind.
  rewrite read_quiet by assumption. unfold findFirst. rewrite Hf. reflexivity.
Qed.



(* ================================================================= *)
(** ** Booking counts *)

Lemma bookingWhere_bookedOn (slotId : string) (date : Js.Date) (o : Order.t) :
  bookingWhere slotId (Js.startOfUTCDay date) (Js.addUTCDay (Js.startOfUTCDay date)) o
  = bookedOn slotId (Js.Day date) o.
Proof.
  unfold bookingWhere, bookedOn.
  destruct (String.eqb (Order.deliverySlotId o) slotId); cbn [andb]; [|reflexivity].
  destruct (negb (OrderStatus_eqb (Order.status o) CANCELLED));
    cbn [andb]; [|rewrite andb_false_r; reflexivity].
  rewrite andb_true_r.
  pose proof (utc_window_iff date (Order.deliveryDate o)) as H.
  destruct (Z.eqb_spec (Order.deliveryDate o) (Js.Day date)) as [E|E].
  - apply andb_true_iff. rewrite Z.leb_le, Z.ltb_lt. apply H. exact E.
  - apply andb_false_iff.
    destruct (Z.leb_spec (Js.startOfUTCDay date) (Js.ofDay (Order.deliveryDate o)));
      [|left; reflexivity].
    destruct (Z.ltb_spec (Js.ofDay (Order.deliveryDate o))
                (Js.addUTCDay (Js.startOfUTCDay date))); [|right; reflexivity].
    exfalso. apply E. apply H. split; assumption.
Qed.

Lemma getSlotBookingsForDate_quiet (slotId : string) (date : Js.Date) (w : World) :
  quiet w ->
  getSlotBookingsForDate slotId date w
  = (Ok (bookings (db w) slotId (Js.Day date)), advance (db w) w).
Proof.
  intros Hq. unfold getSlotBookingsForDate, tryCatch.
  rewrite read_quiet by assumption. unfold count, bookings.
  rewrite (filter_ext _ _ (bookingWhere_bookedOn slotId date)). reflexivity.
Qed.


Lemma filter_length_middle {A} (q : A -> bool) (l1 l2 : list A) (x : A) :
  List.length (filter q (l1 ++ x :: l2))
  = (List.length (filter q (l1 ++ l2)) + (if q x then 1 else 0))%nat.
Proof.
  rewrite !filter_app, !length_app. cbn [filter].
  destruct (q x); cbn [List.length]; lia.
Qed.

Lemma bookedOn_cancelled (slotId : string) (day : Z) (o : Order.t) :
  Order.status o = CANCELLED -> bookedOn slotId day o = false.
Proof.
  intros H. unfold bookedOn. rewrite H. cbn. apply andb_false_r.
Qed.


(* ================================================================= *)
(** ** Ordering by a string column *)

Lemma ascii_compare_N (a b : ascii) :
  Ascii.compare a b = N.compare (N_of_ascii a) (N_of_ascii b).
Proof. reflexivity. Qed.

Lemma ascii_compare_eq (a b : ascii) : Ascii.compare a b = Eq -> a = b.
Proof.
  rewrite ascii_compare_N. intros H. apply N.compare_eq in H.
  rewrite <- (ascii_N_embedding a), <- (ascii_N_embedding b), H. reflexivity.
Qed.

Lemma string_compare_trans (c : comparison) (s1 s2 s3 : string) :
  c <> Eq ->
  String.compare s1 s2 = c \/ String.compare s1 s2 = Eq ->
  String.compare s2 s3 = c \/ String.compare s2 s3 = Eq ->
  String.compare s1 s3 = c \/ String.compare s1 s3 = Eq.
Proof.
  intros Hc. revert s2 s3.
  induction s1 as [|a s1 IH]; intros [|b s2] [|x s3]; cbn;
    try solve [intuition congruence].
  destruct (Ascii.compare a b) eqn:Eab; destruct (Ascii.compare b x) eqn:Ebx;
    try solve [intuition congruence];
    try (apply ascii_compare_eq in Eab; subst b);
    try (apply ascii_compare_eq in Ebx; subst x);
    try (rewrite Eab); try (rewrite Ebx); auto.
  - assert (E : Ascii.compare a a = Eq)
      by (rewrite ascii_compare_N; apply N.compare_refl).
    rewrite E. apply IH.
  - rewrite ascii_compare_N in *. rewrite N.compare_lt_iff in *.
    assert (E : (N_of_ascii a ?= N_of_ascii x)%N = Lt)
      by (apply N.compare_lt_iff; lia).
    rewrite E. auto.
  - rewrite ascii_compare_N in *. rewrite N.compare_gt_iff in *.
    assert (E : (N_of_ascii a ?= N_of_ascii x)%N = Gt)
      by (apply N.compare_gt_iff; lia).
    rewrite E. auto.
Qed.

Lemma string_leb_trans (s1 s2 s3 : string) :
  String.leb s1 s2 = true -> String.leb s2 s3 = true -> String.leb s1 s3 = true.
Proof.
  unfold String.leb. intros H12 H23.
  assert (H : String.compare s1 s3 = Lt \/ String.compare s1 s3 = Eq).
  { apply (string_compare_trans Lt s1 s2 s3); [discriminate| |].
    - destruct (String.compare s1 s2); auto; discriminate.
    - destruct (String.compare s2 s3); auto; discriminate. }
  destruct H as [-> | ->]; reflexivity.
Qed.

Section OrderBy.
Context {R : Type} (key : R -> string).

Let le (a b : R) : Prop := String.leb (key a) (key b) = true.

Lemma insertBy_perm (x : R) (l : list R) : Permutation (x :: l) (insertBy key x l).
Proof.
  induction l as [|y l IH]; cbn; [reflexivity|].
  destruct (String.leb (key x) (key y)); [reflexivity|].
  rewrite perm_swap. constructor. exact IH.
Qed.

Lemma orderBy_perm (l : list R) : Permutation l (orderBy key l).
Proof.
  unfold orderBy. induction l as [|x l IH]; cbn; [constructor|].
  rewrite <- insertBy_perm. constructor. exact IH.
Qed.

Lemma insertBy_sorted (x : R) (l : list R) :
  StronglySorted le l -> StronglySorted le (insertBy key x l).
Proof.
  induction 1 as [|y l Hs IH Hy]; cbn.
  - constructor; constructor.
  - destruct (String.leb (key x) (key y)) eqn:E.
    + constructor; [constructor; assumption|].
      constructor; [exact E|].
      eapply Forall_impl; [|exact Hy]. intros z Hz.
      exact (string_leb_trans _ _ _ E Hz).
    + constructor; [exact IH|].
      eapply Permutation_Forall; [apply insertBy_perm|].
      constructor; [|exact Hy].
      destruct (String.leb_total (key x) (key y)) as [H|H]; [congruence|exact H].
Qed.

Lemma orderBy_sorted (l : list R) : StronglySorted le (orderBy key l).
Proof.
  unfold orderBy. induction l as [|x l IH]; cbn; [constructor|].
  apply insertBy_sorted. exact IH.
Qed.

End OrderBy.

Lemma StronglySorted_filter {A} (le : A -> A -> Prop) (p : A -> bool) (l : list A) :
  StronglySorted le l -> StronglySorted le (filter p l).
Proof.
  induction 1 as [|x l Hs IH Hx]; cbn; [constructor|].
  destruct (p x); [|exact IH]. constructor; [exact IH|].
  apply Forall_forall. intros y Hy. apply filter_In in Hy.
  rewrite Forall_forall in Hx. apply Hx. tauto.
Qed.

Lemma StronglySorted_map {A B} (leA : A -> A -> Prop) (leB : B -> B -> Prop)
    (f : A -> B) (l : list A) :
  (forall a b, leA a b -> leB (f a) (f b)) ->
  StronglySorted leA l -> StronglySorted leB (map f l).
Proof.
  intros Hf. induction 1 as [|x l Hs IH Hx]; cbn; constructor; [exact IH|].
  apply Forall_map. eapply Forall_impl; [|exact Hx]. intros y. apply Hf.
Qed.

Lemma Permutation_filter' {A} (p : A -> bool) (l l' : list A) :
  Permutation l l' -> Permutation (filter p l) (filter p l').
Proof.
  induction 1 as [|x l l' _ IH|x y l|l l' l'' _ IH1 _ IH2]; cbn.
  - constructor.
  - destruct (p x); [constructor|]; exact IH.
  - destruct (p x), (p y); try reflexivity. apply perm_swap.
  - etransitivity; eassumption.
Qed.

Lemma filter_map_swap {A B} (f : A -> B) (p : B -> bool) (l : list A) :
  filter p (map f l) = map f (filter (fun a => p (f a)) l).
Proof.
  induction l as [|a l IH]; cbn; [reflexivity|].
  destruct (p (f a)); cbn; rewrite IH; reflexivity.
Qed.

Lemma filter_filter_and {A} (p q : A -> bool) (l : list A) :
  filter q (filter p l) = filter (fun a => p a && q a) l.
Proof.
  induction l as [|a l IH]; cbn; [reflexivity|].
  destruct (p a); cbn; [destruct (q a)|]; rewrite IH; reflexivity.
Qed.
(* ================================================================= *)
(** ** Blackout dates *)

Lemma day_ofDay (d : Z) : Js.Day (Js.ofDay d) = d.
Proof. unfold Js.Day, Js.ofDay, Js.msPerDay. apply Z.div_mul. discriminate. Qed.

Lemma utc_local_window_iff (t : Js.Date) (d : Z) :
  Js.startOfLocalDay 0 t <= Js.ofDay d <= Js.endOfLocalDay 0 t <-> d = Js.Day t.
Proof.
  unfold Js.startOfLocalDay, Js.endOfLocalDay, Js.LocalTime, Js.ofDay, Js.Day,
    Js.msPerDay.
  rewrite Z.add_0_r. lia.
Qed.

Lemma month_date_of_day (t : Js.Date) :
  Js.MonthFromTime (Js.ofDay (Js.Day t)) = Js.MonthFromTime t
  /\ Js.DateFromTime (Js.ofDay (Js.Day t)) = Js.DateFromTime t.
Proof.
  unfold Js.DateFromTime, Js.MonthFromTime, Js.InLeapYear, Js.DayWithinYear,
    Js.YearFromTime. rewrite !day_ofDay. split; reflexivity.
Qed.

(** On a server running in UTC, a date that no blackout record of the
    shop matches is not reported as blacked out. *)
Lemma unmatched_date_not_blacked_out (d : DB) (shopName zoneId : string) (date : Js.Date) :
  (forall b, In b (blackoutDate d) -> blackoutMatches shopName zoneId date b = false) ->
  reportsBlackedOut d 0 shopName date (Some zoneId) = false.
Proof.
  intros Hno. unfold reportsBlackedOut, findFirst.
  destruct (find (exactDateWhere _ _ _ _) _) as [b|] eqn:E1.
  - exfalso. apply find_some in E1. destruct E1 as [Hin Hp].
    specialize (Hno b Hin). unfold exactDateWhere, zoneFilter in Hp.
    unfold blackoutMatches in Hno.
    rewrite !andb_true_iff, Z.leb_le, Z.leb_le in Hp.
    destruct Hp as [[[Hs H1] H2] Hz].
    assert (Hd : BlackoutDate.date b = Js.Day date)
      by (apply utc_local_window_iff; split; assumption).
    rewrite Hs in Hno. cbn [andb] in Hno.
    assert (Hzone : match BlackoutDate.zoneId b with
                    | Some z => (z =? zoneId)%string
                    | None => true
                    end = true)
      by (destruct (BlackoutDate.zoneId b); [rewrite orb_false_r in Hz|]; auto).
    rewrite Hzone in Hno. cbn [andb] in Hno.
    destruct (BlackoutDate.isRecurring b).
    + rewrite Hd in Hno. destruct (month_date_of_day date) as [Hm Hdt].
      rewrite Hm, Hdt, !Z.eqb_refl in Hno. discriminate.
    + rewrite Hd, Z.eqb_refl in Hno. discriminate.
  - destruct (find (recurringWhere _ _) _) as [rb|] eqn:E2; [|reflexivity].
    apply find_some in E2. destruct E2 as [Hin Hp].
    specialize (Hno rb Hin). unfold recurringWhere, zoneFilter in Hp.
    unfold blackoutMatches in Hno.
    rewrite !andb_true_iff in Hp. destruct Hp as [[Hs Hr] Hz].
    rewrite Hs, Hr in Hno. cbn [andb] in Hno.
    assert (Hzone : match BlackoutDate.zoneId rb with
                    | Some z => (z =? zoneId)%string
                    | None => true
                    end = true)
      by (destruct (BlackoutDate.zoneId rb); [rewrite orb_false_r in Hz|]; auto).
    rewrite Hzone in Hno. cbn [andb] in Hno.
    unfold Js.getMonth, Js.getDate, Js.LocalTime. rewrite !Z.add_0_r. exact Hno.
Qed.


(* ================================================================= *)
(** ** Available slots *)

Lemma isDateBlackedOut_quiet (shopName : string) (date : Js.Date)
    (zoneId : option string) (w : World) :
  quiet w ->
  exists w',
    isDateBlackedOut shopName date zoneId w
    = (Ok (reportsBlackedOut (db w) (tza w) shopName date zoneId), w')
    /\ db w' = db w /\ tza w' = tza w /\ nextId w' = nextId w /\ quiet w'.
Proof.
  intros Hq. unfold isDateBlackedOut, reportsBlackedOut, tryCatch, bind, getTza.
  rewrite read_quiet by assumption.
  destruct (findFirst _ _).
  - eexists; split; [reflexivity|].
    repeat split. apply quiet_advance. assumption.
  - rewrite read_quiet by (apply quiet_advance; assumption). cbn [db advance].
    destruct (findFirst _ _); eexists; (split; [reflexivity|]);
      repeat split; repeat apply quiet_advance; assumption.
Qed.

Lemma mapM_bookings (date : Js.Date) (l : list (DeliverySlot.t * option DeliveryZone.t))
    (w : World) :
  quiet w ->
  exists w',
    mapM (fun sz : DeliverySlot.t * option DeliveryZone.t =>
            currentBookings <- getSlotBookingsForDate (DeliverySlot.id (fst sz)) date ;;
            ret (mkSlotWithBookings
                   (DeliverySlot.withCurrentOrders currentBookings (fst sz))
                   (snd sz) currentBookings
                   (DeliverySlot.capacity (fst sz) - currentBookings))) l w
    = (Ok (map (fun sz : DeliverySlot.t * option DeliveryZone.t =>
                  let b := bookings (db w) (DeliverySlot.id (fst sz)) (Js.Day date) in
                  mkSlotWithBookings (DeliverySlot.withCurrentOrders b (fst sz))
                    (snd sz) b (DeliverySlot.capacity (fst sz) - b)) l), w')
    /\ db w' = db w /\ quiet w'.
Proof.
  revert w. induction l as [|sz l IH]; intros w Hq; cbn [mapM map].
  - exists w. repeat split. assumption.
  - unfold bind at 1. unfold bind at 1.
    rewrite getSlotBookingsForDate_quiet by assumption. unfold ret at 1.
    unfold bind at 1.
    destruct (IH (advance (db w) w) (quiet_advance _ _ Hq)) as (w' & E & Hdb & Hq').
    rewrite E. exists w'. cbn [db advance] in *. repeat split; assumption.
Qed.

(** With the database reachable and the date not reported as blacked
    out, [getAvailableSlots] returns exactly the active slots of the
    shop and zone whose capacity exceeds the number of non-cancelled
    orders booked for the date, each with currentBookings equal to
    that number and availableCapacity equal to the difference, in
    ascending order of startTime; the store is not written. *)
Lemma getAvailableSlots_when_reported_clear (shopName : string) (requestedDate : Js.Date)
    (zoneId : string) (w : World) :
  quiet w ->
  fst (isDateBlackedOut shopName requestedDate (Some zoneId) w) = Ok false ->
  exists l w',
    getAvailableSlots shopName requestedDate zoneId w = (Ok l, w')
    /\ db w' = db w
    /\ Permutation l
         (map (annotate (db w) (Js.Day requestedDate))
            (filter (availableOn (db w) shopName zoneId (Js.Day requestedDate))
               (deliverySlot (db w))))
    /\ StronglySorted startsNoLater l
    /\ (forall r, In r l ->
          currentBookings r
          = bookings (db w) (DeliverySlot.id (slot r)) (Js.Day requestedDate)
          /\ availableCapacity r = DeliverySlot.capacity (slot r) - currentBookings r
          /\ 0 < availableCapacity r).
Proof.
  intros Hq Hb.
  destruct (isDateBlackedOut_quiet shopName requestedDate (Some zoneId) w Hq)
    as (w1 & E1 & Hdb1 & _ & _ & Hq1).
  rewrite E1 in Hb. cbn [fst] in Hb. injection Hb as Hb.
  unfold getAvailableSlots, tryCatch. unfold bind at 1. rewrite E1, Hb.
  unfold bind at 1. rewrite read_quiet by assumption.
  unfold bind at 1.
  destruct (mapM_bookings requestedDate
              (map (fun s => (s, joinZone (db w1) s))
                 (orderBy DeliverySlot.startTime
                    (findMany (deliverySlot (db w1)) (activeSlotWhere shopName zoneId))))
              (advance (db w1) w1) (quiet_advance _ _ Hq1))
    as (w2 & E2 & Hdb2 & Hq2).
  rewrite E2. unfold ret. cbn [db advance] in *. rewrite Hdb1 in *.
  set (day := Js.Day requestedDate).
  set (sorted := orderBy DeliverySlot.startTime
                   (findMany (deliverySlot (db w)) (activeSlotWhere shopName zoneId))).
  assert (Eres :
    filter (fun s : SlotWithBookings => 0 <? availableCapacity s)
      (map (fun sz : DeliverySlot.t * option DeliveryZone.t =>
              mkSlotWithBookings
                (DeliverySlot.withCurrentOrders
                   (bookings (db w) (DeliverySlot.id (fst sz)) day) (fst sz))
                (snd sz) (bookings (db w) (DeliverySlot.id (fst sz)) day)
                (DeliverySlot.capacity (fst sz)
                 - bookings (db w) (DeliverySlot.id (fst sz)) day))
         (map (fun s => (s, joinZone (db w) s)) sorted))
    = map (annotate (db w) day)
        (filter (fun s => 0 <? DeliverySlot.capacity s
                               - bookings (db w) (DeliverySlot.id s) day) sorted)).
  { rewrite map_map. cbn [fst snd]. rewrite filter_map_swap. reflexivity. }
  eexists; eexists; split; [reflexivity|]. rewrite Eres.
  split; [exact Hdb2|]. split; [|split].
  - apply Permutation_map. unfold sorted, findMany.
    rewrite <- (Permutation_filter' _ _ _ (orderBy_perm _ _)).
    rewrite filter_filter_and. reflexivity.
  - apply (StronglySorted_map
             (fun a b => String.leb (DeliverySlot.startTime a) (DeliverySlot.startTime b) = true)).
    + intros a b H. exact H.
    + apply StronglySorted_filter. apply orderBy_sorted.
  - intros r Hr. apply in_map_iff in Hr. destruct Hr as (s & <- & Hs).
    apply filter_In in Hs. destruct Hs as [_ Hs]. apply Z.ltb_lt in Hs.
    cbn. repeat split. exact Hs.
Qed.

(** On a server running in UTC the same holds for every date that no
    blackout record of the shop matches for the zone. *)
Lemma getAvailableSlots_exact_utc (shopName : string) (requestedDate : Js.Date)
    (zoneId : string) (w : World) :
  quiet w ->
  tza w = 0 ->
  (forall b, In b (blackoutDate (db w)) ->
             blackoutMatches shopName zoneId requestedDate b = false) ->
  exists l w',
    getAvailableSlots shopName requestedDate zoneId w = (Ok l, w')
    /\ db w' = db w
    /\ Permutation l
         (map (annotate (db w) (Js.Day requestedDate))
            (filter (availableOn (db w) shopName zoneId (Js.Day requestedDate))
               (deliverySlot (db w))))
    /\ StronglySorted startsNoLater l
    /\ (forall r, In r l ->
          currentBookings r
          = bookings (db w) (DeliverySlot.id (slot r)) (Js.Day requestedDate)
          /\ availableCapacity r = DeliverySlot.capacity (slot r) - currentBookings r
          /\ 0 < availableCapacity r).
Proof.
  intros Hq Htz Hno.
  apply getAvailableSlots_when_reported_clear; [exact Hq|].
  destruct (isDateBlackedOut_quiet shopName requestedDate (Some zoneId) w Hq)
    as (w1 & E1 & _).
  rewrite E1, Htz. cbn [fst]. f_equal.
  apply unmatched_date_not_blacked_out. exact Hno.
Qed.

Example getAvailableSlots_exact_utc_demo :
  exists w',
    getAvailableSlots Demo.shopName (Js.ofDay Demo.day_2026_01_15) "z1" Demo.world
    = (Ok [annotate Demo.store Demo.day_2026_01_15 Demo.morning], w').
Proof.
  assert (Hq : quiet Demo.world) by constructor.
  destruct (getAvailableSlots_exact_utc Demo.shopName (Js.ofDay Demo.day_2026_01_15)
              "z1" Demo.world Hq eq_refl) as (l & w' & E & _ & Hp & _).
  - intros b Hin. cbn in Hin.
    destruct Hin as [<-|[<-|[<-|[]]]]; vm_compute; reflexivity.
  - exists w'. rewrite E. do 2 f_equal.
    vm_compute in Hp. apply Permutation_sym, Permutation_length_1_inv in Hp.
    rewrite Hp. vm_compute. reflexivity.
Qed.

(** C4. The shop's only record near 9 March 2026 is the stocktaking of
    10 March in zone z1; no blackout record matches 9 March, and the
    morning and afternoon slots of the zone have capacity left that
    day.  Asked at noon UTC of 9 March, a server in UTC returns both
    slots, but a server five hours west of UTC reports the date as
    blacked out and returns no slot: the stored day is compared with
    the bounds of the server's local day, which there runs from 05:00
    UTC of 9 March to 05:00 UTC of 10 March and so holds the midnight
    UTC of 10 March, while [getSlotBookingsForDate] takes the UTC day
    of the same date. *)
Theorem getAvailableSlots_misses_open_day :
  existsb (blackoutMatches Demo.shopName "z1" Demo.eveNoon)
    (blackoutDate (db Demo.worldWest)) = false
  /\ filter (availableOn (db Demo.worldWest) Demo.shopName "z1" (Js.Day Demo.eveNoon))
       (deliverySlot (db Demo.worldWest))
     = [Demo.morning; Demo.afternoon]
  /\ fst (isDateBlackedOut Demo.shopName Demo.eveNoon (Some "z1") Demo.worldWest)
     = Ok true
  /\ fst (getAvailableSlots Demo.shopName Demo.eveNoon "z1" Demo.worldWest) = Ok []
  /\ fst (getSlotBookingsForDate "s1" Demo.eveNoon Demo.worldWest) = Ok 0
  /\ fst (getAvailableSlots Demo.shopName Demo.eveNoon "z1" Demo.world)
     = Ok [annotate Demo.store (Js.Day Demo.eveNoon) Demo.morning;
           annotate Demo.store (Js.Day Demo.eveNoon) Demo.afternoon].
Proof. vm_compute. repeat split; reflexivity. Qed.

(* ================================================================= *)
(** ** The order webhook *)

Lemma isSlotAvailableForDate_quiet (slotId : string) (date : Js.Date) (w : World) :
  quiet w ->
  exists w',
    isSlotAvailableForDate slotId date w
    = (Ok (reportsAvailable (db w) (tza w) slotId date), w')
    /\ db w' = db w /\ tza w' = tza w /\ nextId w' = nextId w /\ quiet w'.
Proof.
  intros Hq. unfold isSlotAvailableForDate, reportsAvailable, tryCatch.
  unfold bind at 1. rewrite read_quiet by assumption.
  destruct (findSlotById (db w) slotId) as [s|].
  2: { eexists. split; [reflexivity|]. repeat split. apply quiet_advance; assumption. }
  destruct (negb (DeliverySlot.isActive s)).
  { eexists. split; [reflexivity|]. repeat split. apply quiet_advance; assumption. }
  unfold bind at 1.
  destruct (isDateBlackedOut_quiet (DeliverySlot.shopName s) date
              (Some (DeliverySlot.zoneId s)) (advance (db w) w)
              (quiet_advance _ _ Hq)) as (w1 & E1 & Hdb1 & Htz1 & Hn1 & Hq1).
  rewrite E1. cbn [db tza advance nextId] in *.
  destruct (reportsBlackedOut _ _ _ _ _).
  { eexists. split; [reflexivity|]. repeat split; assumption. }
  unfold bind. rewrite getSlotBookingsForDate_quiet by assumption.
  rewrite Hdb1. eexists. split; [reflexivity|].
  cbn [db tza advance nextId]. repeat split; try assumption.
  apply quiet_advance; assumption.
Qed.

Lemma updateShopifyOrder_store (w : World) :
  exists w', WebHookService.updateShopifyOrder w = (Ok tt, w') /\ db w' = db w.
Proof.
  unfold WebHookService.updateShopifyOrder, tryCatch, read, call, ret.
  destruct (faults w) as [|[e|] fs]; eexists; split; reflexivity.
Qed.

(** The store after [handleOrderCreated] is the store after its transaction. *)
Lemma handleOrderCreated_store (shopName : string)
    (payload : WebHookService.ShopifyOrderCreated)
    (sel : WebHookService.DeliverySelection) (w : World) :
  WebHookService.extractDeliverySelection payload = Some sel ->
  db (snd (WebHookService.handleOrderCreated shopName payload w))
  = db (snd (transaction (WebHookService.orderTransaction shopName payload sel) w)).
Proof.
  intros Hsel. unfold WebHookService.handleOrderCreated, tryCatch. rewrite Hsel.
  unfold bind at 1.
  destruct (transaction _ w) as [[a|e] w1].
  - unfold bind. destruct (updateShopifyOrder_store w1) as (w2 & -> & Hdb).
    cbn. exact Hdb.
  - cbn [snd]. destruct (_ || _); reflexivity.
Qed.

Lemma findSlotById_some (d : DB) (slotId : string) (s : DeliverySlot.t) :
  findSlotById d slotId = Some s ->
  In s (deliverySlot d) /\ DeliverySlot.id s = slotId.
Proof.
  unfold findSlotById, findFirst. intros H. apply find_some in H.
  destruct H as [Hin Hp]. apply String.eqb_eq in Hp. auto.
Qed.

(** What the transaction does when no query fails. *)
Lemma orderTransaction_quiet (shopName : string)
    (payload : WebHookService.ShopifyOrderCreated)
    (sel : WebHookService.DeliverySelection) (w : World) :
  quiet w ->
  exists w',
    transaction (WebHookService.orderTransaction shopName payload sel) w
    = (match findSlotById (db w) (WebHookService.slotId sel) with
       | None => Throw "Delivery slot not found"
       | Some s =>
           if negb (DeliverySlot.isActive s) then
             Throw "Selected delivery slot is no longer active"
           else if negb (reportsAvailable (db w) (tza w) (WebHookService.slotId sel)
                           (WebHookService.deliveryDate sel)) then
             Throw "Selected delivery slot is not available for the requested date"
           else
             match fst (insertOrder
                          (WebHookService.newOrderRow (cuid (nextId w)) shopName payload sel)
                          (db w)) with
             | Ok row => Ok (row, s)
             | Throw e => Throw e
             end
       end, w')
    /\ db w'
       = match findSlotById (db w) (WebHookService.slotId sel) with
         | None => db w
         | Some s =>
             if negb (DeliverySlot.isActive s) then db w
             else if negb (reportsAvailable (db w) (tza w) (WebHookService.slotId sel)
                             (WebHookService.deliveryDate sel)) then db w
             else
               match insertOrder
                       (WebHookService.newOrderRow (cuid (nextId w)) shopName payload sel)
                       (db w) with
               | (Ok _, d') => d'
               | (Throw _, _) => db w
               end
         end.
Proof.
  intros Hq. unfold transaction, WebHookService.orderTransaction.
  unfold bind at 1. rewrite read_quiet by assumption.
  destruct (findSlotById (db w) (WebHookService.slotId sel)) as [s|].
  2: { eexists. split; reflexivity. }
  destruct (negb (DeliverySlot.isActive s)).
  { eexists. split; reflexivity. }
  unfold bind at 1.
  destruct (isSlotAvailableForDate_quiet (WebHookService.slotId sel)
              (WebHookService.deliveryDate sel) (advance (db w) w)
              (quiet_advance _ _ Hq)) as (w1 & E1 & Hdb1 & Htz1 & Hn1 & Hq1).
  rewrite E1. cbn [db tza advance nextId] in *.
  destruct (negb (reportsAvailable _ _ _ _)).
  { eexists. split; reflexivity. }
  unfold bind at 1. unfold freshId at 1. unfold bind.
  rewrite call_quiet by exact Hq1. cbn [db nextId]. rewrite Hdb1, Hn1.
  destruct (insertOrder _ (db w)) as [[row|e] d']; cbn [fst snd];
    eexists; split; reflexivity.
Qed.
Lemma existsb_str_iff (x : string) (l : list string) :
  existsb_str x l = true <-> In x l.
Proof.
  split; [|apply existsb_str_true].
  intros H. destruct (in_dec string_dec x l) as [Hin|Hn]; [exact Hin|].
  rewrite (existsb_str_false _ _ Hn) in H. discriminate.
Qed.

Lemma insertOrder_cases (row : Order.t) (d : DB) :
  In (Order.deliverySlotId row) (map DeliverySlot.id (deliverySlot d)) ->
  (In (Order.shopName row) (shop d)
   /\ ~ In (Order.shopifyOrderId row) (map Order.shopifyOrderId (order d))
   /\ insertOrder row d = (Ok row, withOrder (order d ++ [row]) d))
  \/ (~ (In (Order.shopName row) (shop d)
         /\ ~ In (Order.shopifyOrderId row) (map Order.shopifyOrderId (order d)))
      /\ exists e, insertOrder row d = (Throw e, d)).
Proof.
  intros Hslot. unfold insertOrder.
  rewrite (existsb_str_true _ _ Hslot). cbn [negb].
  destruct (existsb_str (Order.shopName row) (shop d)) eqn:E1; cbn [negb].
  - destruct (existsb_str (Order.shopifyOrderId row) _) eqn:E2.
    + right. split; [|eexists; reflexivity].
      intros [_ Hn]. apply Hn. apply existsb_str_iff. exact E2.
    + left. apply existsb_str_iff in E1. repeat split; try assumption.
      intros Hin. apply existsb_str_iff in Hin. congruence.
  - right. split; [|eexists; reflexivity].
    intros [Hin _]. apply existsb_str_iff in Hin. congruence.
Qed.





(* ================================================================= *)
(** ** Creating a slot *)

Lemma digit_range (c : ascii) :
  Js.isDigit c = true -> 0 <= Js.digitVal c <= 9.
Proof.
  unfold Js.isDigit, Js.digitVal. rewrite andb_true_iff, !N.leb_le. lia.
Qed.

Lemma digit_compare (a b : ascii) :
  Ascii.compare a b = (Js.digitVal a ?= Js.digitVal b).
Proof.
  unfold Ascii.compare, Js.digitVal.
  destruct (N.compare_spec (N_of_ascii a) (N_of_ascii b));
    symmetry; [apply Z.compare_eq_iff | apply Z.compare_lt_iff | apply Z.compare_gt_iff];
    lia.
Qed.

(** On times written 'HH:MM' with minutes below 60, the order in which
    the overlap query compares two strings is the order of the times. *)
Lemma clock_order (a b : string) (x y : Z) :
  Checkout.minutesSinceMidnight a = Some x ->
  Checkout.minutesSinceMidnight b = Some y ->
  minuteField a < 60 -> minuteField b < 60 ->
  (atOrBefore a b <-> x <= y) /\ (before a b <-> x < y).
Proof.
  intros Ha Hb.
  apply minutesSinceMidnight_inv in Ha, Hb.
  destruct Ha as (h1 & h2 & m1 & m2 & -> & A1 & A2 & A3 & A4 & ->).
  destruct Hb as (k1 & k2 & n1 & n2 & -> & B1 & B2 & B3 & B4 & ->).
  cbn [minuteField]. intros Hm Hn.
  apply digit_range in A1, A2, A3, A4, B1, B2, B3, B4.
  unfold atOrBefore, before, String.leb, String.ltb. cbn [String.compare].
  change (Ascii.compare Checkout.colon Checkout.colon) with Eq.
  rewrite !digit_compare.
  repeat match goal with
  | |- context [?p ?= ?q] => destruct (Z.compare_spec p q)
  end; split; split; intros; try discriminate; try reflexivity; lia.
Qed.





(** What [createDeliverySlot] does when no query fails. *)
Lemma createDeliverySlot_quiet (data : CreateSlotData) (w : World) :
  quiet w ->
  exists w',
    createDeliverySlot data w
    = (match findFirst (deliveryZone (db w)) (zoneOfShopWhere data) with
       | None => Throw "Invalid delivery zone for this shop"
       | Some _ =>
           if 0 <? Z.of_nat (List.length (findMany (deliverySlot (db w)) (overlapWhere data)))
           then Throw "Time slot overlaps with existing slot"
           else fst (insertDeliverySlot (newSlotRow (cuid (nextId w)) data) (db w))
       end, w')
    /\ db w'
       = match findFirst (deliveryZone (db w)) (zoneOfShopWhere data) with
         | None => db w
         | Some _ =>
             if 0 <? Z.of_nat (List.length (findMany (deliverySlot (db w)) (overlapWhere data)))
             then db w
             else snd (insertDeliverySlot (newSlotRow (cuid (nextId w)) data) (db w))
         end.
Proof.
  intros Hq. unfold createDeliverySlot, tryCatch.
  unfold bind at 1. rewrite read_quiet by assumption.
  destruct (findFirst (deliveryZone (db w)) (zoneOfShopWhere data)) as [z|].
  2: { eexists. split; reflexivity. }
  unfold bind at 1. rewrite read_quiet by (apply quiet_advance; assumption).
  cbn [db advance].
  destruct (0 <? _).
  { eexists. split; reflexivity. }
  unfold bind, freshId. rewrite call_quiet by (apply quiet_advance, quiet_advance; assumption).
  cbn [db nextId advance].
  destruct (insertDeliverySlot _ (db w)) as [[row|e] d']; cbn [fst snd];
    eexists; split; reflexivity.
Qed.






(* ================================================================= *)
(** ** Yearly blackouts *)

(** C3. The shop blacks out every 25 December and every 1 January,
    shop-wide.  For 1 January 2026 the yearly record of 1 January
    matches, yet [isDateBlackedOut] reports false, [getAvailableSlots]
    offers both open slots of the zone and [isSlotAvailableForDate]
    accepts the morning slot: only the first recurring record the
    query finds, here 25 December, is compared with the date.  With
    the same two records entered in the other order the date is
    blacked out. *)
Theorem recurring_blackout_missed :
  existsb (blackoutMatches Demo.shopName "z1" (Js.ofDay Demo.day_2026_01_01))
    (blackoutDate (db Demo.world)) = true
  /\ fst (isDateBlackedOut Demo.shopName (Js.ofDay Demo.day_2026_01_01) (Some "z1")
            Demo.world) = Ok false
  /\ fst (getAvailableSlots Demo.shopName (Js.ofDay Demo.day_2026_01_01) "z1"
            Demo.world)
     = Ok [annotate Demo.store Demo.day_2026_01_01 Demo.morning;
           annotate Demo.store Demo.day_2026_01_01 Demo.afternoon]
  /\ fst (isSlotAvailableForDate "s1" (Js.ofDay Demo.day_2026_01_01) Demo.world)
     = Ok true
  /\ fst (isDateBlackedOut Demo.shopName (Js.ofDay Demo.day_2026_01_01) (Some "z1")
            (mkWorld Demo.storeNewYearFirst [] 0 0)) = Ok true.
Proof. vm_compute. repeat split; reflexivity. Qed.

(* ================================================================= *)
(** * Further properties *)

(** ** The order of time strings *)

Lemma before_atOrBefore (a b : string) : before a b -> atOrBefore a b.
Proof.
  unfold before, atOrBefore, String.ltb, String.leb.
  destruct (String.compare a b); auto; discriminate.
Qed.

Lemma not_atOrBefore (a b : string) : ~ atOrBefore a b <-> before b a.
Proof.
  unfold before, atOrBefore, String.ltb, String.leb.
  rewrite (String.compare_antisym a b).
  destruct (String.compare b a); cbn; split; intro H;
    try reflexivity; try discriminate; try (contradiction H; reflexivity).
Qed.

Lemma atOrBefore_dec (a b : string) : atOrBefore a b \/ before b a.
Proof.
  destruct (String.leb a b) eqn:E; [left; exact E|].
  right. apply not_atOrBefore. unfold atOrBefore. congruence.
Qed.

Lemma string_compare_refl (a : string) : String.compare a a = Eq.
Proof.
  induction a as [|c a IH]; cbn; [reflexivity|].
  rewrite ascii_compare_N, N.compare_refl. exact IH.
Qed.

Lemma before_irrefl (a : string) : ~ before a a.
Proof.
  unfold before, String.ltb. rewrite string_compare_refl. discriminate.
Qed.

Lemma atOrBefore_before_trans (a b c : string) :
  atOrBefore a b -> before b c -> before a c.
Proof.
  intros Hab Hbc.
  destruct (atOrBefore_dec c a) as [Hca|Hac]; [|exact Hac].
  exfalso. apply (proj2 (not_atOrBefore c b)); [exact Hbc|].
  exact (string_leb_trans _ _ _ Hca Hab).
Qed.

Lemma before_atOrBefore_trans (a b c : string) :
  before a b -> atOrBefore b c -> before a c.
Proof.
  intros Hab Hbc.
  destruct (atOrBefore_dec c a) as [Hca|Hac]; [|exact Hac].
  exfalso. apply (proj2 (not_atOrBefore b a)); [exact Hab|].
  exact (string_leb_trans _ _ _ Hbc Hca).
Qed.

Lemma overlaps_iff_intersect (data : CreateSlotData) (s : DeliverySlot.t) :
  before (startTime data) (endTime data) ->
  properRange s ->
  overlaps data s = true <-> rangesIntersect data s.
Proof.
  intros Hd Hs. unfold properRange in Hs.
  unfold overlaps, rangesIntersect.
  rewrite !orb_true_iff, !andb_true_iff.
  change (String.leb ?a ?b = true) with (atOrBefore a b).
  change (String.ltb ?a ?b = true) with (before a b).
  split.
  - intros [[[H1 H2]|[H1 H2]]|[H1 H2]].
    + split; [exact (atOrBefore_before_trans _ _ _ H1 Hd) | exact H2].
    + split; [exact H1 | exact (before_atOrBefore_trans _ _ _ Hd H2)].
    + split; [exact (before_atOrBefore_trans _ _ _ Hs H2)
             | exact (atOrBefore_before_trans _ _ _ H1 Hs)].
  - intros [H1 H2].
    destruct (atOrBefore_dec (DeliverySlot.startTime s) (startTime data)) as [A|A];
      [left; left; split; assumption|].
    destruct (atOrBefore_dec (endTime data) (DeliverySlot.endTime s)) as [B|B];
      [left; right; split; assumption|].
    right. split; apply before_atOrBefore; assumption.
Qed.

(** X1. For proper ranges the three alternatives of the overlap query
    select an existing slot exactly when its range and the requested
    one have a moment in common; slots that only touch (one ends when
    the other starts) are not selected. *)
Theorem overlap_query_is_intersection (data : CreateSlotData) (s : DeliverySlot.t) :
  before (startTime data) (endTime data) ->
  properRange s ->
  (overlaps data s = true <-> rangesIntersect data s)
  /\ (atOrBefore (DeliverySlot.endTime s) (startTime data) -> overlaps data s = false)
  /\ (atOrBefore (endTime data) (DeliverySlot.startTime s) -> overlaps data s = false).
Proof.
  intros Hd Hs.
  pose proof (overlaps_iff_intersect data s Hd Hs) as Hiff.
  split; [exact Hiff|]. split; intros H.
  - destruct (overlaps data s) eqn:E; [|reflexivity]. exfalso.
    destruct (proj1 Hiff eq_refl) as [_ E'].
    exact (proj2 (not_atOrBefore _ _) E' H).
  - destruct (overlaps data s) eqn:E; [|reflexivity]. exfalso.
    destruct (proj1 Hiff eq_refl) as [E' _].
    exact (proj2 (not_atOrBefore _ _) E' H).
Qed.

Lemma overlap_query_is_intersection_witness :
  rangesIntersect Demo.requestNoon Demo.morning
  /\ overlaps Demo.requestNight Demo.evening = false.
Proof.
  split.
  - apply (overlap_query_is_intersection Demo.requestNoon Demo.morning);
      reflexivity.
  - destruct (overlap_query_is_intersection Demo.requestNight Demo.evening)
      as (_ & H & _); [reflexivity | reflexivity |].
    apply H. reflexivity.
Defined.

(** ** Slots of a zone stay apart *)

Lemma ForallOrdPairs_snoc {A} (R : A -> A -> Prop) (l : list A) (y : A) :
  ForallOrdPairs R l -> Forall (fun x => R x y) l -> ForallOrdPairs R (l ++ [y]).
Proof.
  induction 1 as [|x l Hx _ IH]; cbn; intros Hy.
  - constructor; constructor.
  - inversion Hy as [|? ? Hxy Hly]; subst. constructor.
    + apply Forall_app. split; [exact Hx | constructor; [exact Hxy | constructor]].
    + apply IH. exact Hly.
Qed.

(** Whatever fails, [createDeliverySlot] either leaves the store alone
    or appends the new row after an overlap query that found nothing. *)
Lemma createDeliverySlot_store (data : CreateSlotData) (w : World) :
  db (snd (createDeliverySlot data w)) = db w
  \/ (findMany (deliverySlot (db w)) (overlapWhere data) = []
      /\ exists id,
           fst (createDeliverySlot data w) = Ok (newSlotRow id data)
           /\ db (snd (createDeliverySlot data w))
              = withDeliverySlot (deliverySlot (db w) ++ [newSlotRow id data]) (db w)).
Proof.
  destruct w as [d fs n tz].
  unfold createDeliverySlot, tryCatch, bind, read, call, freshId, throw, ret.
  cbn [db faults nextId tza].
  assert (Hins : forall row,
            (exists e0, insertDeliverySlot row d = (Throw e0, d))
            \/ insertDeliverySlot row d
               = (Ok row, withDeliverySlot (deliverySlot d ++ [row]) d)).
  { intros row. unfold insertDeliverySlot.
    destruct (negb _); [eauto|]. destruct (negb _); [eauto|].
    destruct (negb _); [eauto|]. destruct (existsb _ _); eauto. }
  destruct fs as [|[e|] [|[e2|] [|[e3|] fs]]]; cbn [db faults nextId tza fst snd];
    try (left; reflexivity);
    destruct (findFirst (deliveryZone d) (zoneOfShopWhere data));
    cbn [db faults nextId tza fst snd]; try (left; reflexivity);
    try (destruct (findMany (deliverySlot d) (overlapWhere data)) eqn:Eq;
         cbn [List.length Z.of_nat Z.ltb Z.compare db faults nextId tza fst snd];
         try (left; reflexivity));
    try (destruct (Hins (newSlotRow (cuid n) data)) as [[e0 E]|E]; rewrite E;
         cbn [db fst snd];
         [left; reflexivity
         | right; split; [reflexivity | exists (cuid n); split; reflexivity]]).
Qed.

Lemma quiet_overlap_none_apart (data : CreateSlotData) (id : string)
    (l : list DeliverySlot.t) :
  before (startTime data) (endTime data) ->
  Forall properRange l ->
  findMany l (overlapWhere data) = [] ->
  Forall (fun s => ~ clash s (newSlotRow id data)) l.
Proof.
  intros Hd Hp Hnone. unfold findMany in Hnone.
  rewrite filter_nil_iff in Hnone. rewrite Forall_forall in *.
  intros s Hin (H1 & H2 & H3 & _ & H5 & H6). cbn in H1, H2, H5, H6.
  specialize (Hnone s Hin). unfold overlapWhere in Hnone.
  rewrite H1, H2, H3, !String.eqb_refl in Hnone. cbn [andb] in Hnone.
  pose proof (overlaps_iff_intersect data s Hd (Hp s Hin)) as Hiff.
  rewrite Hnone in Hiff. destruct Hiff as [_ Hiff].
  discriminate Hiff. split; assumption.
Qed.

(** X2. Whatever fails, [createDeliverySlot] keeps the active slots of
    every shop and zone apart: if the requested range is proper, the
    stored ranges are proper and no two active slots of one shop and
    zone share a moment, the same holds of the store it leaves. *)
Theorem createDeliverySlot_keeps_slots_apart (data : CreateSlotData) (w : World) :
  before (startTime data) (endTime data) ->
  Forall properRange (deliverySlot (db w)) ->
  noActiveOverlap (db w) ->
  noActiveOverlap (db (snd (createDeliverySlot data w)))
  /\ Forall properRange (deliverySlot (db (snd (createDeliverySlot data w)))).
Proof.
  intros Hd Hp Hno.
  destruct (createDeliverySlot_store data w) as [E|(Hnone & id & _ & E)]; rewrite E.
  - split; assumption.
  - unfold noActiveOverlap. cbn [deliverySlot withDeliverySlot]. split.
    + apply ForallOrdPairs_snoc; [exact Hno|].
      apply quiet_overlap_none_apart; assumption.
    + apply Forall_app. split; [exact Hp|]. constructor; [exact Hd | constructor].
Qed.

Lemma createDeliverySlot_keeps_slots_apart_witness :
  noActiveOverlap (db (snd (createDeliverySlot Demo.requestNight Demo.world)))
  /\ Forall properRange
       (deliverySlot (db (snd (createDeliverySlot Demo.requestNight Demo.world)))).
Proof.
  apply (createDeliverySlot_keeps_slots_apart Demo.requestNight Demo.world).
  - reflexivity.
  - repeat constructor.
  - unfold noActiveOverlap. cbn.
    repeat first [apply FOP_nil | apply FOP_cons | apply Forall_nil | apply Forall_cons];
      intros (H1 & H2 & H3 & H4 & H5 & H6); cbn in *; discriminate.
Defined.
(* ================================================================= *)
(** ** Availability checks never write *)

Lemma isDateBlackedOut_store (shopName : string) (date : Js.Date)
    (zoneId : option string) (w : World) :
  exists b w', isDateBlackedOut shopName date zoneId w = (Ok b, w')
               /\ db w' = db w /\ tza w' = tza w /\ nextId w' = nextId w.
Proof.
  destruct w as [d fs n tz].
  unfold isDateBlackedOut, tryCatch, bind, getTza, read, call, ret. cbn.
  destruct fs as [|[e|] [|[e2|] fs]]; cbn;
  repeat match goal with
  | |- context [match findFirst ?t ?p with _ => _ end] => destruct (findFirst t p); cbn
  end; eexists; eexists; (split; [reflexivity|auto]).
Qed.

Lemma getSlotBookingsForDate_store (slotId : string) (date : Js.Date) (w : World) :
  exists n w', getSlotBookingsForDate slotId date w = (Ok n, w')
               /\ db w' = db w /\ tza w' = tza w /\ nextId w' = nextId w
               /\ (n = 0 \/ n = bookings (db w) slotId (Js.Day date)).
Proof.
  destruct w as [d fs n0 tz].
  unfold getSlotBookingsForDate, tryCatch, bind, read, call, ret. cbn.
  destruct fs as [|[e|] fs]; cbn; eexists; eexists;
    (split; [reflexivity|]); repeat split; auto;
    right; unfold count, bookings;
    rewrite (filter_ext _ _ (bookingWhere_bookedOn slotId date)); reflexivity.
Qed.

Lemma isSlotAvailableForDate_store (slotId : string) (date : Js.Date) (w : World) :
  exists b w', isSlotAvailableForDate slotId date w = (Ok b, w')
               /\ db w' = db w /\ tza w' = tza w /\ nextId w' = nextId w.
Proof.
  unfold isSlotAvailableForDate, tryCatch. unfold bind at 1.
  destruct (read (fun d => findSlotById d slotId) w) as [[o|e] w1] eqn:E1.
  2: { unfold read, call in E1. destruct (faults w) as [|[x|] fs];
       cbn in E1; try discriminate. injection E1 as <- <-.
       eexists; eexists; split; [reflexivity|]. auto. }
  assert (H1 : db w1 = db w /\ tza w1 = tza w /\ nextId w1 = nextId w).
  { unfold read, call in E1. destruct (faults w) as [|[x|] fs];
      cbn in E1; try discriminate; injection E1 as _ <-; auto. }
  destruct H1 as (Hd1 & Ht1 & Hn1).
  destruct o as [s|].
  2: { eexists; eexists; split; [reflexivity|]. auto. }
  destruct (negb (DeliverySlot.isActive s)).
  { eexists; eexists; split; [reflexivity|]. auto. }
  unfold bind at 1.
  destruct (isDateBlackedOut_store (DeliverySlot.shopName s) date
              (Some (DeliverySlot.zoneId s)) w1) as (b & w2 & E2 & Hd2 & Ht2 & Hn2).
  rewrite E2. destruct b.
  { eexists; eexists; split; [reflexivity|]. repeat split; congruence. }
  unfold bind.
  destruct (getSlotBookingsForDate_store slotId date w2)
    as (n & w3 & E3 & Hd3 & Ht3 & Hn3 & _).
  rewrite E3. eexists; eexists; split; [reflexivity|]. repeat split; congruence.
Qed.
(** X3. Reserving reserves nothing: whatever the request and whatever
    fails, [ReserveSlot.action] leaves the store as it was; and for a
    request naming a slot and a date the answer is never 500: it is
    200 when [isSlotAvailableForDate] says true and 409 otherwise. *)
Theorem reserveSlot_reserves_nothing (request : option SlotActions.ReserveBody)
    (w : World) :
  db (snd (SlotActions.reserveSlot request w)) = db w
  /\ (forall slotId date available,
        request = Some (SlotActions.mkReserveBody (Some slotId) (Some date)) ->
        slotId <> "" ->
        fst (isSlotAvailableForDate slotId date w) = Ok available ->
        fst (SlotActions.reserveSlot request w)
        = Ok (if available
              then SlotActions.json
                     (SlotActions.SuccessBody "Slot is available for reservation") 200
              else SlotActions.json
                     (SlotActions.ErrorBody
                        (Some "Slot is not available for the selected date")) 409)).
Proof.
  split.
  - unfold SlotActions.reserveSlot, tryCatch.
    destruct request as [[[slotId|] [date|]]|]; cbn; try reflexivity.
    destruct (String.eqb slotId ""); cbn; [reflexivity|].
    unfold bind.
    destruct (isSlotAvailableForDate_store slotId date w) as (b & w' & E & Hdb & _).
    rewrite E. destruct b; cbn; exact Hdb.
  - intros slotId date available -> Hne Hav.
    unfold SlotActions.reserveSlot, tryCatch. cbn.
    apply String.eqb_neq in Hne. rewrite Hne. cbn. unfold bind.
    destruct (isSlotAvailableForDate slotId date w) as [[b|e] w']; cbn in Hav;
      [|discriminate]. injection Hav as ->. destruct available; reflexivity.
Qed.

Lemma reserveSlot_reserves_nothing_witness :
  fst (SlotActions.reserveSlot
         (Some (SlotActions.mkReserveBody (Some "s2") (Some (Js.ofDay Demo.day_2026_01_15))))
         Demo.world)
  = Ok (SlotActions.json
          (SlotActions.ErrorBody (Some "Slot is not available for the selected date")) 409).
Proof.
  apply (proj2 (reserveSlot_reserves_nothing _ Demo.world) "s2"
           (Js.ofDay Demo.day_2026_01_15) false).
  - reflexivity.
  - discriminate.
  - vm_compute. reflexivity.
Defined.

(* ================================================================= *)
(** ** What is offered is what can be booked *)

Lemma map_injective_on_NoDup {A B} (f : A -> B) (l : list A) (x y : A) :
  NoDup (map f l) -> In x l -> In y l -> f x = f y -> x = y.
Proof.
  induction l as [|a l IH]; cbn; [intros _ []|].
  intros Hnd Hx Hy E. inversion Hnd as [|? ? Hnotin Hnd']; subst.
  destruct Hx as [<-|Hx], Hy as [<-|Hy]; auto.
  - exfalso. apply Hnotin. rewrite E. apply in_map. exact Hy.
  - exfalso. apply Hnotin. rewrite <- E. apply in_map. exact Hx.
Qed.

Lemma findSlotById_unique (d : DB) (s : DeliverySlot.t) :
  NoDup (map DeliverySlot.id (deliverySlot d)) ->
  In s (deliverySlot d) ->
  findSlotById d (DeliverySlot.id s) = Some s.
Proof.
  intros Hnd Hin. unfold findSlotById, findFirst.
  destruct (find _ _) as [s'|] eqn:E.
  - apply find_some in E. destruct E as [Hin' Hid]. apply String.eqb_eq in Hid.
    f_equal. exact (map_injective_on_NoDup _ _ _ _ Hnd Hin' Hin Hid).
  - apply (find_none _ _ E) in Hin. rewrite String.eqb_refl in Hin. discriminate.
Qed.

(** What [getAvailableSlots] returns when no query fails. *)
Lemma getAvailableSlots_quiet (shopName : string) (date : Js.Date) (zoneId : string)
    (w : World) :
  quiet w ->
  exists w',
    getAvailableSlots shopName date zoneId w
    = (Ok (if reportsBlackedOut (db w) (tza w) shopName date (Some zoneId) then []
           else map (annotate (db w) (Js.Day date))
                  (filter (fun s => 0 <? DeliverySlot.capacity s
                                         - bookings (db w) (DeliverySlot.id s) (Js.Day date))
                     (orderBy DeliverySlot.startTime
                        (findMany (deliverySlot (db w))
                           (activeSlotWhere shopName zoneId))))), w')
    /\ db w' = db w /\ quiet w'.
Proof.
  intros Hq.
  destruct (isDateBlackedOut_quiet shopName date (Some zoneId) w Hq)
    as (w1 & E1 & Hdb1 & _ & _ & Hq1).
  unfold getAvailableSlots, tryCatch. unfold bind at 1. rewrite E1.
  destruct (reportsBlackedOut _ _ _ _ _).
  { eexists. split; [reflexivity|]. split; assumption. }
  unfold bind at 1. rewrite read_quiet by assumption. unfold bind at 1.
  destruct (mapM_bookings date
              (map (fun s => (s, joinZone (db w1) s))
                 (orderBy DeliverySlot.startTime
                    (findMany (deliverySlot (db w1)) (activeSlotWhere shopName zoneId))))
              (advance (db w1) w1) (quiet_advance _ _ Hq1))
    as (w2 & E2 & Hdb2 & Hq2).
  rewrite E2. unfold ret. cbn [db advance] in *. rewrite Hdb1 in *.
  eexists. split; [|split; [exact Hdb2 | exact Hq2]].
  do 2 f_equal. rewrite map_map. cbn [fst snd]. rewrite filter_map_swap. reflexivity.
Qed.

(** X4. With the database reachable and slot ids unique, a slot of the
    store is among the slots [getAvailableSlots] offers for its shop
    and zone on a date exactly when [isSlotAvailableForDate] accepts
    it for that date. *)
Theorem offered_iff_bookable (s : DeliverySlot.t) (date : Js.Date) (w : World) :
  quiet w ->
  NoDup (map DeliverySlot.id (deliverySlot (db w))) ->
  In s (deliverySlot (db w)) ->
  exists offered w',
    getAvailableSlots (DeliverySlot.shopName s) date (DeliverySlot.zoneId s) w
    = (Ok offered, w')
    /\ ((exists r, In r offered /\ DeliverySlot.id (slot r) = DeliverySlot.id s)
        <-> fst (isSlotAvailableForDate (DeliverySlot.id s) date w) = Ok true).
Proof.
  intros Hq Hnd Hin.
  destruct (getAvailableSlots_quiet (DeliverySlot.shopName s) date
              (DeliverySlot.zoneId s) w Hq) as (w' & E & _).
  destruct (isSlotAvailableForDate_quiet (DeliverySlot.id s) date w Hq)
    as (wa & Ea & _).
  rewrite E, Ea. eexists; eexists; split; [reflexivity|]. cbn [fst].
  unfold reportsAvailable. rewrite (findSlotById_unique _ _ Hnd Hin).
  destruct (reportsBlackedOut _ _ _ _ _).
  { destruct (negb (DeliverySlot.isActive s)); split;
      try (intros [r [[] _]]); intros [= H]. }
  split.
  - intros (r & Hr & Hid). apply in_map_iff in Hr. destruct Hr as (s' & <- & Hs').
    apply filter_In in Hs'. destruct Hs' as [Hs' Hcap].
    apply (Permutation_in _ (Permutation_sym (orderBy_perm _ _))) in Hs'.
    unfold findMany in Hs'. apply filter_In in Hs'. destruct Hs' as [Hin' Hact].
    cbn in Hid.
    assert (s' = s) by exact (map_injective_on_NoDup _ _ _ _ Hnd Hin' Hin Hid).
    subst s'. unfold activeSlotWhere in Hact. rewrite !andb_true_iff in Hact.
    destruct Hact as [_ Hact]. rewrite Hact. cbn [negb].
    apply Z.ltb_lt in Hcap. f_equal. apply Z.ltb_lt. lia.
  - destruct (DeliverySlot.isActive s) eqn:Hact; cbn [negb]; [|discriminate].
    intros [= Hlt]. apply Z.ltb_lt in Hlt.
    exists (annotate (db w) (Js.Day date) s). split; [|reflexivity].
    apply in_map. apply filter_In. split.
    + apply (Permutation_in _ (orderBy_perm _ _)). unfold findMany.
      apply filter_In. split; [exact Hin|]. unfold activeSlotWhere.
      rewrite !String.eqb_refl, Hact. reflexivity.
    + apply Z.ltb_lt. lia.
Qed.

Lemma offered_iff_bookable_witness :
  quiet Demo.world
  /\ NoDup (map DeliverySlot.id (deliverySlot (db Demo.world)))
  /\ exists offered w',
       getAvailableSlots Demo.shopName (Js.ofDay Demo.day_2026_01_15) "z1" Demo.world
       = (Ok offered, w')
       /\ ~ exists r, In r offered /\ DeliverySlot.id (slot r) = "s2".
Proof.
  assert (Hq : quiet Demo.world) by constructor.
  assert (Hnd : NoDup (map DeliverySlot.id (deliverySlot (db Demo.world)))).
  { cbn. repeat constructor; cbn; intuition discriminate. }
  split; [exact Hq|]. split; [exact Hnd|].
  destruct (offered_iff_bookable Demo.afternoon (Js.ofDay Demo.day_2026_01_15)
              Demo.world Hq Hnd) as (offered & w' & E & Hiff).
  - right. left. reflexivity.
  - exists offered, w'. split; [exact E|]. intros H. apply Hiff in H.
    vm_compute in H. discriminate H.
Defined.
(* ================================================================= *)
(** ** Orders never exceed capacity *)

Lemma bookings_snoc (d : DB) (row : Order.t) (slotId : string) (day : Z) :
  bookings (withOrder (order d ++ [row]) d) slotId day
  = bookings d slotId day + (if bookedOn slotId day row then 1 else 0).
Proof.
  unfold bookings. cbn [order withOrder].
  rewrite filter_app, length_app. cbn [filter].
  destruct (bookedOn slotId day row); cbn [List.length]; lia.
Qed.

Lemma insertOrder_result (row : Order.t) (d : DB) :
  (exists e, insertOrder row d = (Throw e, d))
  \/ insertOrder row d = (Ok row, withOrder (order d ++ [row]) d).
Proof.
  unfold insertOrder.
  destruct (negb _); [left; eexists; reflexivity|].
  destruct (negb _); [left; eexists; reflexivity|].
  destruct (existsb_str _ _); [left; eexists; reflexivity|].
  right. reflexivity.
Qed.

(** X5. With the database reachable and slot ids unique,
    [handleOrderCreated] never overbooks: a slot whose non-cancelled
    orders for a day did not exceed its capacity before the webhook
    does not exceed it after, and the slot table is left as it was. *)
Theorem handleOrderCreated_never_overbooks (shopName : string)
    (payload : WebHookService.ShopifyOrderCreated) (w : World) :
  quiet w ->
  NoDup (map DeliverySlot.id (deliverySlot (db w))) ->
  let after := db (snd (WebHookService.handleOrderCreated shopName payload w)) in
  deliverySlot after = deliverySlot (db w)
  /\ forall s day,
       In s (deliverySlot (db w)) ->
       bookings (db w) (DeliverySlot.id s) day <= DeliverySlot.capacity s ->
       bookings after (DeliverySlot.id s) day <= DeliverySlot.capacity s.
Proof.
  intros Hq Hnd after.
  destruct (WebHookService.extractDeliverySelection payload) as [sel|] eqn:Hsel.
  2: { assert (E : after = db w).
       { unfold after, WebHookService.handleOrderCreated, tryCatch.
         rewrite Hsel. reflexivity. }
       rewrite E. split; [reflexivity | auto]. }
  assert (E : after
              = db (snd (transaction
                           (WebHookService.orderTransaction shopName payload sel) w)))
    by (apply handleOrderCreated_store; exact Hsel).
  destruct (orderTransaction_quiet shopName payload sel w Hq) as (w' & Erun & Hdb).
  rewrite Erun in E. cbn [snd] in E. rewrite Hdb in E. clear Erun Hdb.
  destruct (findSlotById (db w) (WebHookService.slotId sel)) as [s0|] eqn:Hs0;
    [|rewrite E; split; [reflexivity|auto]].
  destruct (negb (DeliverySlot.isActive s0)); [rewrite E; split; [reflexivity|auto]|].
  destruct (reportsAvailable _ _ _ _) eqn:Hav; cbn [negb] in E;
    [|rewrite E; split; [reflexivity|auto]].
  set (row := WebHookService.newOrderRow (cuid (nextId w)) shopName payload sel) in *.
  destruct (insertOrder_result row (db w)) as [[e Hi]|Hi]; rewrite Hi in E;
    rewrite E; [split; [reflexivity|auto]|].
  split; [reflexivity|]. intros s day Hin Hle. rewrite bookings_snoc.
  destruct (bookedOn (DeliverySlot.id s) day row) eqn:Hb; [|lia].
  unfold bookedOn, row in Hb. cbn in Hb.
  rewrite !andb_true_iff, String.eqb_eq, Z.eqb_eq in Hb. destruct Hb as [[Hid Hday] _].
  unfold reportsAvailable in Hav. rewrite Hs0 in Hav.
  apply findSlotById_some in Hs0. destruct Hs0 as [Hin0 Hid0].
  assert (s0 = s).
  { apply (map_injective_on_NoDup DeliverySlot.id _ _ _ Hnd Hin0 Hin). congruence. }
  subst s0.
  destruct (negb (DeliverySlot.isActive s)); [discriminate|].
  destruct (reportsBlackedOut _ _ _ _ _); [discriminate|].
  apply Z.ltb_lt in Hav. rewrite <- Hid, <- Hday. lia.
Qed.

Lemma handleOrderCreated_never_overbooks_witness :
  quiet Demo.world
  /\ bookings (db (snd (WebHookService.handleOrderCreated Demo.shopName Demo.newOrder
                         Demo.world))) "s1" 20469
     <= DeliverySlot.capacity Demo.morning.
Proof.
  assert (Hq : quiet Demo.world) by constructor.
  split; [exact Hq|].
  assert (Hnd : NoDup (map DeliverySlot.id (deliverySlot (db Demo.world)))).
  { cbn. repeat constructor; cbn; intuition discriminate. }
  destruct (handleOrderCreated_never_overbooks Demo.shopName Demo.newOrder Demo.world
              Hq Hnd) as [_ H].
  apply (H Demo.morning 20469).
  - left. reflexivity.
  - vm_compute. discriminate.
Defined.

(* ================================================================= *)
(** ** Webhooks that are acknowledged *)

Lemma includes_slot_messages :
  Js.includes "Delivery slot not found" "slot" = true
  /\ Js.includes "Selected delivery slot is no longer active" "slot" = true
  /\ Js.includes "Selected delivery slot is not available for the requested date"
       "slot" = true.
Proof. repeat split; reflexivity. Qed.

(* ================================================================= *)
(** ** Cancelling orders *)

Lemma find_split {A} (p : A -> bool) (l : list A) (x : A) :
  find p l = Some x ->
  exists l1 l2, l = l1 ++ x :: l2 /\ p x = true /\ find p l1 = None.
Proof.
  induction l as [|a l IH]; cbn; [discriminate|].
  destruct (p a) eqn:E.
  - intros [= ->]. exists [], l. repeat split. exact E.
  - intros H. destruct (IH H) as (l1 & l2 & -> & Hp & Hn).
    exists (a :: l1), l2. repeat split; [exact Hp|]. cbn. rewrite E. exact Hn.
Qed.

Lemma updateFirst_middle {A} (p : A -> bool) (f : A -> A) (l1 l2 : list A) (x : A) :
  find p l1 = None -> p x = true ->
  updateFirst p f (l1 ++ x :: l2) = Some (l1 ++ f x :: l2).
Proof.
  induction l1 as [|a l1 IH]; cbn; intros Hn Hp.
  - rewrite Hp. reflexivity.
  - destruct (p a); [discriminate|]. rewrite (IH Hn Hp). reflexivity.
Qed.

Lemma find_middle {A} (p : A -> bool) (l1 l2 : list A) (x : A) :
  find p l1 = None -> p x = true -> find p (l1 ++ x :: l2) = Some x.
Proof.
  intros Hn Hp. rewrite (find_app_none _ _ _ Hn). cbn. rewrite Hp. reflexivity.
Qed.

Lemma find_none_iff {A} (p : A -> bool) (l : list A) :
  find p l = None <-> forall x, In x l -> p x = false.
Proof.
  split; [intros H x Hx; exact (find_none _ _ H x Hx)|].
  intros H. destruct (find p l) as [x|] eqn:E; [|reflexivity].
  apply find_some in E. destruct E as [Hin Hp]. rewrite (H x Hin) in Hp. discriminate.
Qed.

(** Updating by the id of a row of the table always finds a row. *)
Lemma updateOrderStatus_found (o : Order.t) (st : OrderStatus) (d : DB) :
  In o (order d) ->
  exists l1 x l2,
    order d = l1 ++ x :: l2
    /\ Order.id x = Order.id o
    /\ find (fun o' => String.eqb (Order.id o') (Order.id o)) l1 = None
    /\ WebHooks.updateOrderStatus (Order.id o) st d
       = (Ok (Order.withStatus st x), withOrder (l1 ++ Order.withStatus st x :: l2) d).
Proof.
  intros Hin. unfold WebHooks.updateOrderStatus, findFirst.
  destruct (find (fun o' => String.eqb (Order.id o') (Order.id o)) (order d))
    as [x|] eqn:E.
  - destruct (find_split _ _ _ E) as (l1 & l2 & El & Hp & Hn).
    exists l1, x, l2. rewrite El at 1 2. rewrite (updateFirst_middle _ _ _ _ _ Hn Hp).
    apply String.eqb_eq in Hp. repeat split; assumption.
  - apply (find_none _ _ E) in Hin. rewrite String.eqb_refl in Hin. discriminate.
Qed.

Lemma handleOrderCancelled_quiet (shop : string)
    (c : WebHooks.ShopifyOrderCancelled) (w : World) :
  quiet w ->
  exists w',
    WebHooks.handleOrderCancelled shop c w
    = (Ok (match findFirst (order (db w))
                   (orderIdWhere (WebHookService.idToString (WebHooks.cancelled_id c))) with
           | None =>
               WebHookService.mkWebhookResult true
                 (Some "Order not found in local database, no action needed") None
           | Some _ =>
               WebHookService.mkWebhookResult true
                 (Some "Order cancellation processed successfully") None
           end), w')
    /\ db w'
       = afterCancellation (WebHookService.idToString (WebHooks.cancelled_id c)) (db w).
Proof.
  intros Hq. unfold WebHooks.handleOrderCancelled, afterCancellation, tryCatch,
    transaction, WebHooks.cancelTransaction.
  unfold bind at 1. unfold bind at 1. rewrite read_quiet by assumption.
  destruct (findFirst (order (db w)) _) as [o|] eqn:Ef.
  2: { eexists. split; reflexivity. }
  destruct (OrderStatus_eqb (Order.status o) CANCELLED).
  { eexists. split; reflexivity. }
  unfold bind at 1. rewrite call_quiet by (apply quiet_advance; assumption).
  cbn [db advance].
  apply find_some in Ef. destruct Ef as [Hin _].
  destruct (updateOrderStatus_found o CANCELLED (db w) Hin) as (l1 & x & l2 & _ & _ & _ & E).
  rewrite E. eexists. split; reflexivity.
Qed.
Lemma find_app_some {A} (p : A -> bool) (l l' : list A) (x : A) :
  find p l = Some x -> find p (l ++ l') = Some x.
Proof.
  induction l as [|a l IH]; cbn; [discriminate|].
  destruct (p a); [auto | exact IH].
Qed.

Lemma withOrder_withOrder (l l' : list Order.t) (d : DB) :
  withOrder l (withOrder l' d) = withOrder l d.
Proof. reflexivity. Qed.

Lemma withStatus_idem (st : OrderStatus) (o : Order.t) :
  Order.withStatus st (Order.withStatus st o) = Order.withStatus st o.
Proof. reflexivity. Qed.

Lemma afterCancellation_cases (orderId : string) (d : DB) :
  afterCancellation orderId d = d
  \/ exists l1 x l2,
       order d = l1 ++ x :: l2
       /\ afterCancellation orderId d
          = withOrder (l1 ++ Order.withStatus CANCELLED x :: l2) d
       /\ afterCancellation orderId (afterCancellation orderId d)
          = afterCancellation orderId d.
Proof.
  destruct (findFirst (order d) (orderIdWhere orderId)) as [o|] eqn:Ef.
  2: { left. unfold afterCancellation. rewrite Ef. reflexivity. }
  destruct (OrderStatus_eqb (Order.status o) CANCELLED) eqn:Est.
  { left. unfold afterCancellation. rewrite Ef, Est. reflexivity. }
  right. pose proof (find_some _ _ Ef) as [Hin Hq].
  destruct (updateOrderStatus_found o CANCELLED d Hin) as (l1 & x & l2 & El & Hid & Hn & E).
  exists l1, x, l2.
  set (f := Order.withStatus CANCELLED) in *.
  set (d' := withOrder (l1 ++ f x :: l2) d) in *.
  assert (Hfirst : afterCancellation orderId d = d').
  { unfold afterCancellation. rewrite Ef, Est, E. reflexivity. }
  assert (Hupd : WebHooks.updateOrderStatus (Order.id o) CANCELLED d' = (Ok (f x), d')).
  { unfold WebHooks.updateOrderStatus, findFirst. cbn [order d' withOrder].
    assert (Hp : String.eqb (Order.id (f x)) (Order.id o) = true)
      by (cbn; rewrite Hid; apply String.eqb_refl).
    rewrite (updateFirst_middle _ f _ _ _ Hn Hp), (find_middle _ _ _ _ Hn Hp).
    reflexivity. }
  assert (Hsecond : afterCancellation orderId d' = d').
  { unfold afterCancellation, findFirst. cbn [order d' withOrder]. fold d'.
    unfold findFirst in Ef. rewrite El in Ef.
    destruct (find (orderIdWhere orderId) l1) as [o1|] eqn:E1.
    - rewrite (find_app_some _ _ _ _ E1) in Ef. injection Ef as ->.
      rewrite (find_app_some _ _ _ _ E1), Est, Hupd. reflexivity.
    - rewrite (find_app_none _ _ _ E1) in Ef. rewrite (find_app_none _ _ _ E1).
      cbn [find] in *. unfold orderIdWhere at 1.
      cbn [Order.shopifyOrderId f Order.withStatus].
      unfold orderIdWhere at 1 in Ef.
      destruct (String.eqb (Order.shopifyOrderId x) orderId).
      + reflexivity.
      + rewrite Ef, Est, Hupd. reflexivity. }
  rewrite Hfirst. split; [exact El|]. split; [reflexivity | exact Hsecond].
Qed.

(** X7. With the database reachable, delivering a cancellation a
    second time changes nothing; a cancellation only rewrites the
    order table and never lowers the number of free places of any slot
    on any day; and for an order id the store does not know it reports
    that no action was needed and leaves the store as it was. *)
Theorem handleOrderCancelled_idempotent (shop : string)
    (c : WebHooks.ShopifyOrderCancelled) (w w1 : World) :
  quiet w -> quiet w1 ->
  db w1 = db (snd (WebHooks.handleOrderCancelled shop c w)) ->
  db (snd (WebHooks.handleOrderCancelled shop c w1)) = db w1
  /\ (exists l, db w1 = withOrder l (db w))
  /\ (forall slotId day, bookings (db w1) slotId day <= bookings (db w) slotId day)
  /\ ((forall o, In o (order (db w)) ->
         Order.shopifyOrderId o <> WebHookService.idToString (WebHooks.cancelled_id c)) ->
      db w1 = db w
      /\ fst (WebHooks.handleOrderCancelled shop c w)
         = Ok (WebHookService.mkWebhookResult true
                 (Some "Order not found in local database, no action needed") None)).
Proof.
  intros Hq Hq1 Hdb.
  destruct (handleOrderCancelled_quiet shop c w Hq) as (w' & E & Hd').
  destruct (handleOrderCancelled_quiet shop c w1 Hq1) as (w1' & E1 & Hd1').
  rewrite E in *. rewrite E1. cbn [fst snd] in *. rewrite Hd1', Hdb, Hd'.
  set (oid := WebHookService.idToString (WebHooks.cancelled_id c)) in *.
  destruct (afterCancellation_cases oid (db w)) as [Eq|(l1 & x & l2 & El & Eq & Eidem)].
  - rewrite !Eq. split; [reflexivity|]. split.
    + exists (order (db w)). destruct (db w); reflexivity.
    + split; [intros; lia|]. intros Hno. split; [reflexivity|].
      assert (Hf : findFirst (order (db w)) (orderIdWhere oid) = None).
      { apply find_none_iff. intros o Ho. apply String.eqb_neq. exact (Hno o Ho). }
      rewrite Hf. reflexivity.
  - split; [exact Eidem|]. rewrite Eq. split; [eexists; reflexivity|]. split.
    + intros slotId day. unfold bookings. cbn [order withOrder].
      rewrite El, !filter_length_middle.
      rewrite bookedOn_cancelled by reflexivity.
      destruct (bookedOn slotId day x); lia.
    + intros Hno.
      assert (Hf : findFirst (order (db w)) (orderIdWhere oid) = None).
      { apply find_none_iff. intros o Ho. apply String.eqb_neq. exact (Hno o Ho). }
      unfold afterCancellation in Eq. rewrite Hf in Eq.
      rewrite Hf. split; [symmetry; exact Eq | reflexivity].
Qed.

Lemma handleOrderCancelled_idempotent_witness :
  quiet Demo.world
  /\ bookings (db (snd (WebHooks.handleOrderCancelled Demo.shopName
                         (WebHooks.mkShopifyOrderCancelled 1002 "bob@example.com")
                         Demo.world))) "s2" Demo.day_2026_01_15
     <= bookings (db Demo.world) "s2" Demo.day_2026_01_15.
Proof.
  assert (Hq : quiet Demo.world) by constructor.
  split; [exact Hq|].
  set (w1 := snd (WebHooks.handleOrderCancelled Demo.shopName
                    (WebHooks.mkShopifyOrderCancelled 1002 "bob@example.com") Demo.world)).
  assert (Hq1 : quiet w1) by (vm_compute; constructor).
  destruct (handleOrderCancelled_idempotent Demo.shopName
              (WebHooks.mkShopifyOrderCancelled 1002 "bob@example.com")
              Demo.world w1 Hq Hq1 eq_refl) as (_ & _ & H & _).
  apply H.
Defined.
(** X8. Booking and cancelling compose to nothing: with the database
    reachable, when [handleOrderCreated] has stored an order (every
    check passed, the shop is registered, the Shopify order id and the
    drawn row id are new), the booking count of the selected slot and
    day is one higher; and after [handleOrderCancelled] for the same
    order the counts of every slot and day are back to what they were
    before the order. *)
Theorem cancel_after_create_restores (shop : string)
    (payload : WebHookService.ShopifyOrderCreated)
    (sel : WebHookService.DeliverySelection) (s : DeliverySlot.t) (w w1 : World) :
  quiet w -> quiet w1 ->
  WebHookService.extractDeliverySelection payload = Some sel ->
  findSlotById (db w) (WebHookService.slotId sel) = Some s ->
  DeliverySlot.isActive s = true ->
  fst (isSlotAvailableForDate (WebHookService.slotId sel)
         (WebHookService.deliveryDate sel) w) = Ok true ->
  In shop (Prisma.shop (db w)) ->
  ~ In (WebHookService.idToString (WebHookService.id payload))
       (map Order.shopifyOrderId (order (db w))) ->
  ~ In (cuid (nextId w)) (map Order.id (order (db w))) ->
  db w1 = db (snd (WebHookService.handleOrderCreated shop payload w)) ->
  bookings (db w1) (WebHookService.slotId sel) (Js.Day (WebHookService.deliveryDate sel))
  = bookings (db w) (WebHookService.slotId sel)
      (Js.Day (WebHookService.deliveryDate sel)) + 1
  /\ fst (WebHooks.handleOrderCancelled shop (WebHooks.asCancelled payload) w1)
     = Ok (WebHookService.mkWebhookResult true
             (Some "Order cancellation processed successfully") None)
  /\ forall slotId day,
       bookings (db (snd (WebHooks.handleOrderCancelled shop
                            (WebHooks.asCancelled payload) w1))) slotId day
       = bookings (db w) slotId day.
Proof.
  intros Hq Hq1 Hsel Hs Hact Hav Hshop Hnew Hfresh Hdb1.
  set (row := WebHookService.newOrderRow (cuid (nextId w)) shop payload sel).
  assert (Hcreated : db w1 = withOrder (order (db w) ++ [row]) (db w)).
  { rewrite Hdb1, (handleOrderCreated_store shop payload sel w Hsel).
    destruct (orderTransaction_quiet shop payload sel w Hq) as (w' & Erun & Hdb).
    rewrite Erun. cbn [snd]. rewrite Hdb, Hs, Hact. cbn [negb].
    destruct (isSlotAvailableForDate_quiet (WebHookService.slotId sel)
                (WebHookService.deliveryDate sel) w Hq) as (wa & Ea & _).
    rewrite Ea in Hav. cbn [fst] in Hav. injection Hav as ->. cbn [negb].
    fold row.
    assert (Hslot : In (Order.deliverySlotId row)
                      (map DeliverySlot.id (deliverySlot (db w)))).
    { apply findSlotById_some in Hs. destruct Hs as [Hin Hid].
      apply in_map_iff. exists s. split; [exact Hid | exact Hin]. }
    destruct (insertOrder_cases row (db w) Hslot) as [(_ & _ & E)|(Hn & _)].
    - rewrite E. reflexivity.
    - exfalso. apply Hn. split; assumption. }
  assert (Hrow : bookedOn (WebHookService.slotId sel)
                   (Js.Day (WebHookService.deliveryDate sel)) row = true).
  { unfold bookedOn, row. cbn. rewrite String.eqb_refl, Z.eqb_refl. reflexivity. }
  split.
  { rewrite Hcreated, bookings_snoc, Hrow. reflexivity. }
  destruct (handleOrderCancelled_quiet shop (WebHooks.asCancelled payload) w1 Hq1)
    as (w2 & E2 & Hdb2).
  rewrite E2. cbn [fst snd]. rewrite Hdb2. clear E2 Hdb2.
  set (oid := WebHookService.idToString (WebHooks.cancelled_id (WebHooks.asCancelled payload))).
  assert (Hq_old : find (orderIdWhere oid) (order (db w)) = None).
  { apply find_none_iff. intros o Ho. apply String.eqb_neq. intros E.
    apply Hnew. apply in_map_iff. exists o. split; [exact E | exact Ho]. }
  assert (Hfind : findFirst (order (db w1)) (orderIdWhere oid) = Some row).
  { unfold findFirst. rewrite Hcreated. cbn [order withOrder].
    rewrite (find_app_none _ _ _ Hq_old). cbn. unfold orderIdWhere, row, oid. cbn.
    rewrite String.eqb_refl. reflexivity. }
  rewrite Hfind. split; [reflexivity|].
  intros slotId day. unfold afterCancellation. rewrite Hfind.
  change (OrderStatus_eqb (Order.status row) CANCELLED) with false. cbv iota.
  assert (Hid_old : find (fun o' => String.eqb (Order.id o') (Order.id row))
                      (order (db w)) = None).
  { apply find_none_iff. intros o Ho. apply String.eqb_neq. intros E.
    apply Hfresh. apply in_map_iff. exists o. split; [exact E | exact Ho]. }
  unfold WebHooks.updateOrderStatus, findFirst. rewrite Hcreated.
  cbn [order withOrder].
  rewrite (updateFirst_middle _ (Order.withStatus CANCELLED) _ [] _ Hid_old
             (String.eqb_refl _)).
  rewrite (find_middle _ _ [] _ Hid_old (String.eqb_refl _)). cbn [snd].
  unfold bookings. cbn [order withOrder].
  rewrite filter_app. cbn [filter].
  rewrite bookedOn_cancelled by reflexivity. rewrite app_nil_r. reflexivity.
Qed.

Lemma cancel_after_create_restores_witness :
  quiet Demo.world
  /\ forall slotId day,
       bookings
         (db (snd (WebHooks.handleOrderCancelled Demo.shopName
                     (WebHooks.asCancelled Demo.newOrder)
                     (snd (WebHookService.handleOrderCreated Demo.shopName Demo.newOrder
                             Demo.world))))) slotId day
       = bookings (db Demo.world) slotId day.
Proof.
  assert (Hq : quiet Demo.world) by constructor.
  split; [exact Hq|].
  apply (cancel_after_create_restores Demo.shopName Demo.newOrder Demo.selection
           Demo.morning Demo.world
           (snd (WebHookService.handleOrderCreated Demo.shopName Demo.newOrder Demo.world))).
  - exact Hq.
  - vm_compute. constructor.
  - reflexivity.
  - reflexivity.
  - reflexivity.
  - vm_compute. reflexivity.
  - left. reflexivity.
  - cbn. intros [A|[A|[A|[]]]]; discriminate A.
  - cbn. intros [A|[A|[A|[]]]]; discriminate A.
  - reflexivity.
Defined.
(* ================================================================= *)
(** ** Releasing a slot without an order *)

Lemma normalised_slot_fields (s s' : DeliverySlot.t) :
  DeliverySlot.withCurrentOrders 0 s' = DeliverySlot.withCurrentOrders 0 s ->
  DeliverySlot.id s' = DeliverySlot.id s
  /\ DeliverySlot.shopName s' = DeliverySlot.shopName s
  /\ DeliverySlot.zoneId s' = DeliverySlot.zoneId s
  /\ DeliverySlot.isActive s' = DeliverySlot.isActive s
  /\ DeliverySlot.capacity s' = DeliverySlot.capacity s.
Proof.
  destruct s, s'. unfold DeliverySlot.withCurrentOrders. cbn.
  intros [= -> -> -> -> -> -> ->]. repeat split.
Qed.

Lemma updateAll_release_normalised (slotId : string) (l : list DeliverySlot.t) :
  map (DeliverySlot.withCurrentOrders 0)
    (updateAll (releaseWhere slotId) decrementCurrentOrders l)
  = map (DeliverySlot.withCurrentOrders 0) l.
Proof.
  unfold updateAll. rewrite map_map. apply map_ext. intros s.
  destruct (releaseWhere slotId s); reflexivity.
Qed.

Lemma find_normalised (slotId : string) (k : DeliverySlot.t -> bool)
    (l l' : list DeliverySlot.t) :
  (forall s s', DeliverySlot.withCurrentOrders 0 s' = DeliverySlot.withCurrentOrders 0 s ->
                k s' = k s) ->
  map (DeliverySlot.withCurrentOrders 0) l' = map (DeliverySlot.withCurrentOrders 0) l ->
  match find (fun s => String.eqb (DeliverySlot.id s) slotId) l' with
  | Some s => k s
  | None => false
  end
  = match find (fun s => String.eqb (DeliverySlot.id s) slotId) l with
    | Some s => k s
    | None => false
    end.
Proof.
  intros Hk. revert l'.
  induction l as [|s l IH]; intros [|s' l']; cbn; try discriminate; [reflexivity|].
  intros H.
  pose proof (f_equal (@tl _) H) as Htl. cbn [tl] in Htl.
  pose proof (f_equal (hd (DeliverySlot.withCurrentOrders 0 s)) H) as Hhd. cbn [hd] in Hhd.
  destruct (normalised_slot_fields _ _ Hhd) as (E1 & _).
  rewrite E1. destruct (String.eqb (DeliverySlot.id s) slotId).
  - apply Hk. exact Hhd.
  - apply IH. exact Htl.
Qed.

Lemma reportsAvailable_normalised (d d' : DB) (tz : Z) (slotId : string) (date : Js.Date) :
  order d' = order d ->
  blackoutDate d' = blackoutDate d ->
  map (DeliverySlot.withCurrentOrders 0) (deliverySlot d')
  = map (DeliverySlot.withCurrentOrders 0) (deliverySlot d) ->
  reportsAvailable d' tz slotId date = reportsAvailable d tz slotId date.
Proof.
  intros Ho Hb Hs. unfold reportsAvailable, reportsBlackedOut, bookings, findSlotById,
    findFirst. rewrite Ho, Hb.
  apply (find_normalised slotId
           (fun s =>
              if negb (DeliverySlot.isActive s) then false
              else if match find (exactDateWhere (DeliverySlot.shopName s)
                                    (Js.startOfLocalDay tz date) (Js.endOfLocalDay tz date)
                                    (Some (DeliverySlot.zoneId s))) (blackoutDate d) with
                      | Some _ => true
                      | None =>
                          match find (recurringWhere (DeliverySlot.shopName s)
                                        (Some (DeliverySlot.zoneId s))) (blackoutDate d) with
                          | Some rb =>
                              (Js.getMonth tz (Js.ofDay (BlackoutDate.date rb))
                               =? Js.getMonth tz date)
                              && (Js.getDate tz (Js.ofDay (BlackoutDate.date rb))
                                  =? Js.getDate tz date)
                          | None => false
                          end
                      end then false
              else Z.of_nat (List.length (filter (bookedOn slotId (Js.Day date)) (order d)))
                   <? DeliverySlot.capacity s)); [|exact Hs].
  intros s s' E. destruct (normalised_slot_fields _ _ E) as (_ & E2 & E3 & E4 & E5).
  rewrite E2, E3, E4, E5. reflexivity.
Qed.

(** X9. Releasing a slot without naming an order frees nothing:
    whatever fails, [ReleaseSlot.action] with a slot id and no order id
    leaves the orders and blackout dates untouched and changes no slot
    except in its [currentOrders] counter; so with the database
    reachable [isSlotAvailableForDate] answers for every slot and date
    as it did before. *)
Theorem releaseSlot_frees_nothing (slotId : string) (w : World) :
  let after := snd (SlotActions.releaseSlot
                      (Some (SlotActions.mkReleaseBody (Some slotId) None)) w) in
  order (db after) = order (db w)
  /\ blackoutDate (db after) = blackoutDate (db w)
  /\ map (DeliverySlot.withCurrentOrders 0) (deliverySlot (db after))
     = map (DeliverySlot.withCurrentOrders 0) (deliverySlot (db w))
  /\ (quiet w ->
      forall id date,
        fst (isSlotAvailableForDate id date after) = fst (isSlotAvailableForDate id date w)).
Proof.
  intros after.
  assert (Hafter : after = w
                   \/ after = snd (releaseSlot slotId w)).
  { unfold after, SlotActions.releaseSlot, tryCatch. cbn.
    destruct (String.eqb slotId ""); cbn; [left; reflexivity|]. right.
    unfold bind. destruct (releaseSlot slotId w) as [[b|e] w']; cbn;
      [destruct b; reflexivity | reflexivity]. }
  assert (Hrel : order (db (snd (releaseSlot slotId w))) = order (db w)
                 /\ blackoutDate (db (snd (releaseSlot slotId w))) = blackoutDate (db w)
                 /\ map (DeliverySlot.withCurrentOrders 0)
                      (deliverySlot (db (snd (releaseSlot slotId w))))
                    = map (DeliverySlot.withCurrentOrders 0) (deliverySlot (db w))
                 /\ tza (snd (releaseSlot slotId w)) = tza w
                 /\ (quiet w -> quiet (snd (releaseSlot slotId w)))).
  { rewrite releaseSlot_run. destruct (faults w) as [|[e|] fs] eqn:Ef; cbn.
    - repeat split; try apply updateAll_release_normalised.
      intros _. constructor.
    - repeat split. unfold quiet. rewrite Ef. intros H. inversion H. assumption.
    - repeat split; try apply updateAll_release_normalised.
      unfold quiet. rewrite Ef. intros H. inversion H. assumption. }
  destruct Hafter as [-> | ->]; [repeat split|].
  destruct Hrel as (H1 & H2 & H3 & H4 & H5).
  split; [exact H1|]. split; [exact H2|]. split; [exact H3|].
  intros Hq id date.
  destruct (isSlotAvailableForDate_quiet id date w Hq) as (wa & Ea & _).
  destruct (isSlotAvailableForDate_quiet id date _ (H5 Hq)) as (wb & Eb & _).
  rewrite Ea, Eb. cbn [fst]. f_equal. rewrite H4.
  apply reportsAvailable_normalised; assumption.
Qed.

Lemma releaseSlot_frees_nothing_witness :
  quiet Demo.world
  /\ fst (isSlotAvailableForDate "s2" (Js.ofDay Demo.day_2026_01_15)
            (snd (SlotActions.releaseSlot
                    (Some (SlotActions.mkReleaseBody (Some "s2") None)) Demo.world)))
     = Ok false.
Proof.
  assert (Hq : quiet Demo.world) by constructor.
  split; [exact Hq|].
  destruct (releaseSlot_frees_nothing "s2" Demo.world) as (_ & _ & _ & H).
  rewrite (H Hq). vm_compute. reflexivity.
Defined.
(* ================================================================= *)
(** ** Delivery zones *)

Lemma read_store {A} (q : DB -> A) (w : World) :
  db (snd (read q w)) = db w.
Proof.
  unfold read, call. destruct (faults w) as [|[e|] fs]; reflexivity.
Qed.

Lemma read_cases {A} (q : DB -> A) (w : World) :
  (exists e w', read q w = (Throw e, w') /\ db w' = db w)
  \/ (exists w', read q w = (Ok (q (db w)), w') /\ db w' = db w).
Proof.
  unfold read, call. destruct (faults w) as [|[e|] fs];
    [right|left|right]; eauto.
Qed.

Lemma call_cases {A} (q : DB -> result A * DB) (w : World) :
  (exists e w', call q w = (Throw e, w') /\ db w' = db w)
  \/ (exists w', call q w = (fst (q (db w)), w') /\ db w' = snd (q (db w))).
Proof.
  unfold call. destruct (faults w) as [|[e|] fs];
    [right|left|right]; try (destruct (q (db w)) as [r d]); cbn; eauto.
Qed.

Lemma deleteDeliveryZoneRow_absent (zoneId shopName : string) (d : DB) :
  (forall z, In z (deliveryZone d) -> DeliveryZone.id z <> zoneId) ->
  Zones.deleteDeliveryZoneRow zoneId shopName d = (Throw recordNotFound, d).
Proof.
  intros H. unfold Zones.deleteDeliveryZoneRow, findFirst.
  destruct (find _ _) as [z|] eqn:E; [|reflexivity].
  apply find_some in E. destruct E as [Hin Hz].
  apply andb_prop in Hz. destruct Hz as [Hz _]. apply String.eqb_eq in Hz.
  destruct (H z Hin Hz).
Qed.

(** What [deleteDeliveryZone] does when no zone has the id it is given:
    it throws and writes nothing, whatever the queries' outcomes. *)
Lemma deleteDeliveryZone_absent (zoneId shopName : string) (w : World) :
  (forall z, In z (deliveryZone (db w)) -> DeliveryZone.id z <> zoneId) ->
  exists e w', Zones.deleteDeliveryZone zoneId shopName w = (Throw e, w')
               /\ db w' = db w.
Proof.
  intros H. unfold Zones.deleteDeliveryZone, tryCatch, bind.
  destruct (read_cases (fun d => count (deliverySlot d)
              (fun s => String.eqb (DeliverySlot.zoneId s) zoneId)) w)
    as [(e & w1 & E & Hdb)|(w1 & E & Hdb)]; rewrite E; cbn.
  - exists e, w1. auto.
  - destruct (0 <? _); cbn; [exists "Cannot delete zone with existing delivery slots", w1; auto|].
    destruct (call_cases (Zones.deleteDeliveryZoneRow zoneId shopName) w1)
      as [(e & w2 & E2 & Hdb2)|(w2 & E2 & Hdb2)]; rewrite E2; cbn.
    + exists e, w2. split; [reflexivity|congruence].
    + rewrite <- Hdb in H. rewrite (deleteDeliveryZoneRow_absent _ _ _ H) in *. cbn in *.
      exists recordNotFound, w2. split; [reflexivity|congruence].
Qed.

(** X10. The admin page's delete request never deletes a zone.  The
    action passes the session's shop where [deleteDeliveryZone] expects
    the zone id (and the zone id where it expects the shop), so, as
    long as no zone's id is the shop's name, a request of type
    [delete] leaves the store as it was and is never answered with
    status [deleted], whatever zone it names and whether or not the
    queries succeed. *)
Theorem zones_action_delete_never_deletes (shop : string) (form : Zones.Form)
    (w : World) :
  (forall z, In z (deliveryZone (db w)) -> DeliveryZone.id z <> shop) ->
  Zones.actionType form = Some "delete" ->
  db (snd (Zones.action shop form w)) = db w
  /\ forall response, fst (Zones.action shop form w) = Ok response ->
       Zones.status response <> 200.
Proof.
  intros Hids Htype.
  enough (exists out w', Zones.action shop form w = (out, w') /\ db w' = db w
                         /\ forall response, out = Ok response ->
                              Zones.status response <> 200) as (out & w' & E & Hdb & Hout).
  { rewrite E. auto. }
  unfold Zones.action, tryCatch. rewrite Htype. cbn.
  destruct (Zones.truthy (Zones.form_zoneId form)); cbn;
    [|eexists _, w; repeat split; intros r [= <-]; discriminate].
  unfold bind at 1.
  assert (Hhas : (exists e w', Zones.hasActiveSlots shop (Zones.text (Zones.form_zoneId form)) w
                               = (Throw e, w') /\ db w' = db w)
                 \/ (exists b w', Zones.hasActiveSlots shop (Zones.text (Zones.form_zoneId form)) w
                               = (Ok b, w') /\ db w' = db w)).
  { unfold Zones.hasActiveSlots, tryCatch, bind.
    match goal with |- context [read ?q w] =>
      destruct (read_cases q w) as [(e & w1 & E & Hdb)|(w1 & E & Hdb)]; rewrite E; cbn
    end; [left; exists e, w1|right; eexists _, w1]; auto. }
  destruct Hhas as [(e & w1 & E & Hdb)|(b & w1 & E & Hdb)]; rewrite E; cbn.
  - eexists _, w1. repeat split; [exact Hdb|intros r [= <-]; discriminate].
  - destruct b; cbn;
      [eexists _, w1; repeat split; [exact Hdb|intros r [= <-]; discriminate]|].
    unfold bind.
    rewrite <- Hdb in Hids.
    destruct (deleteDeliveryZone_absent shop (Zones.text (Zones.form_zoneId form)) w1 Hids)
      as (e & w2 & E2 & Hdb2).
    rewrite E2. cbn. eexists _, w2.
    repeat split; [congruence|intros r [= <-]; discriminate].
Qed.

Lemma zones_action_delete_never_deletes_witness :
  let w := mkWorld (withDeliverySlot [Demo.morning; Demo.afternoon; Demo.evening] Demo.store)
             [] 0 0 in
  let form := Zones.mkForm (Some "delete") None None (Some "z2") in
  db (snd (Zones.action Demo.shopName form w)) = db w
  /\ forall response, fst (Zones.action Demo.shopName form w) = Ok response ->
       Zones.status response <> 200.
Proof.
  apply (zones_action_delete_never_deletes Demo.shopName
           (Zones.mkForm (Some "delete") None None (Some "z2"))
           (mkWorld (withDeliverySlot [Demo.morning; Demo.afternoon; Demo.evening]
                       Demo.store) [] 0 0)).
  - intros z [<-|[<-|[]]]; discriminate.
  - reflexivity.
Defined.
Lemma own_local_day (tz : Z) (t : Js.Date) :
  Js.startOfLocalDay tz t <= t <= Js.endOfLocalDay tz t.
Proof.
  unfold Js.startOfLocalDay, Js.endOfLocalDay, Js.LocalTime, Js.Day, Js.msPerDay.
  pose proof (Z.div_mod (t + tz) 86400000 ltac:(lia)) as Hdm.
  pose proof (Z.mod_pos_bound (t + tz) 86400000 ltac:(lia)) as Hb.
  lia.
Qed.

Lemma count_zero_iff {R} (l : list R) (p : R -> bool) :
  (0 <? count l p) = existsb p l.
Proof.
  destruct (existsb p l) eqn:E.
  - apply count_pos_iff. apply existsb_exists in E.
    destruct E as (x & Hin & Hp). eauto.
  - destruct (0 <? count l p) eqn:H; [|reflexivity].
    apply count_pos_iff in H. destruct H as (x & Hin & Hp).
    assert (existsb p l = true) by (apply existsb_exists; eauto). congruence.
Qed.

(** What [deleteDeliveryZone] does when no query fails and the zone
    is there. *)
Lemma deleteDeliveryZone_quiet (z : DeliveryZone.t) (w : World) :
  quiet w ->
  In z (deliveryZone (db w)) ->
  exists w',
    Zones.deleteDeliveryZone (DeliveryZone.id z) (DeliveryZone.shopName z) w
    = (if existsb (fun s => String.eqb (DeliverySlot.zoneId s) (DeliveryZone.id z))
            (deliverySlot (db w))
       then Throw "Cannot delete zone with existing delivery slots"
       else Ok true, w')
    /\ db w'
       = if existsb (fun s => String.eqb (DeliverySlot.zoneId s) (DeliveryZone.id z))
              (deliverySlot (db w))
         then db w
         else Zones.withBlackoutDate
                (map (Zones.detachZone (DeliveryZone.id z)) (blackoutDate (db w)))
                (Zones.withDeliveryZone
                   (Zones.removeFirst
                      (fun z' => String.eqb (DeliveryZone.id z') (DeliveryZone.id z)
                                 && String.eqb (DeliveryZone.shopName z')
                                      (DeliveryZone.shopName z))
                      (deliveryZone (db w)))
                   (db w)).
Proof.
  intros Hq Hin. unfold Zones.deleteDeliveryZone, tryCatch, bind.
  rewrite read_quiet by assumption. rewrite count_zero_iff.
  destruct (existsb _ (deliverySlot (db w))) eqn:Hslots; cbn.
  - eexists. split; reflexivity.
  - rewrite call_quiet by (apply quiet_advance; assumption). cbn.
    unfold Zones.deleteDeliveryZoneRow at 1 2. cbn. unfold findFirst.
    destruct (find _ (deliveryZone (db w))) as [z'|] eqn:E.
    + rewrite Hslots. cbn. eexists. split; reflexivity.
    + apply (find_none _ _ E) in Hin. rewrite !String.eqb_refl in Hin. discriminate.
Qed.

(** X11. Deleting a zone turns its blackout records into records of
    the whole shop.  [deleteDeliveryZone] refuses, changing nothing,
    while any slot refers to the zone; otherwise it returns true,
    leaves shops, settings, slots and orders as they were, and the
    store detaches the zone's blackout records (the foreign key is ON
    DELETE SET NULL): the day stored in each blackout record of the
    deleted zone is from then on reported as blacked out for every
    zone of the shop, and for a request that names no zone.  Nothing
    is said of the other years' anniversaries of a yearly record. *)
Theorem deleteDeliveryZone_widens_blackouts (z : DeliveryZone.t) (w : World) :
  quiet w ->
  In z (deliveryZone (db w)) ->
  exists w',
    Zones.deleteDeliveryZone (DeliveryZone.id z) (DeliveryZone.shopName z) w
    = (if existsb (fun s => String.eqb (DeliverySlot.zoneId s) (DeliveryZone.id z))
            (deliverySlot (db w))
       then Throw "Cannot delete zone with existing delivery slots"
       else Ok true, w')
    /\ deliverySlot (db w') = deliverySlot (db w)
    /\ order (db w') = order (db w)
    /\ shop (db w') = shop (db w)
    /\ shopSettings (db w') = shopSettings (db w)
    /\ (existsb (fun s => String.eqb (DeliverySlot.zoneId s) (DeliveryZone.id z))
          (deliverySlot (db w)) = true -> db w' = db w)
    /\ (existsb (fun s => String.eqb (DeliverySlot.zoneId s) (DeliveryZone.id z))
          (deliverySlot (db w)) = false ->
        forall b, In b (blackoutDate (db w)) ->
          BlackoutDate.zoneId b = Some (DeliveryZone.id z) ->
          BlackoutDate.shopName b = DeliveryZone.shopName z ->
          forall (zoneId : option string) (w1 : World),
            quiet w1 -> db w1 = db w' ->
            fst (isDateBlackedOut (DeliveryZone.shopName z)
                   (Js.ofDay (BlackoutDate.date b)) zoneId w1) = Ok true).
Proof.
  intros Hq Hin.
  destruct (deleteDeliveryZone_quiet z w Hq Hin) as (w' & E & Hdb).
  exists w'. split; [exact E|]. clear E.
  destruct (existsb _ (deliverySlot (db w))) eqn:Hslots;
    (repeat split; try (rewrite Hdb; reflexivity); try discriminate).
  intros _ b Hb Hzone Hshop zoneId w1 Hq1 Hdb1.
  destruct (isDateBlackedOut_quiet (DeliveryZone.shopName z)
              (Js.ofDay (BlackoutDate.date b)) zoneId w1 Hq1) as (w2 & E2 & _).
  rewrite E2. cbn. f_equal.
  unfold reportsBlackedOut, findFirst. rewrite Hdb1, Hdb. cbn.
  destruct (find _ _) as [x|] eqn:Ef; [reflexivity|].
  exfalso.
  pose proof (find_none _ _ Ef (Zones.detachZone (DeliveryZone.id z) b)
                (in_map _ _ _ Hb)) as Hnone.
  unfold Zones.detachZone in Hnone. rewrite Hzone, String.eqb_refl in Hnone.
  unfold exactDateWhere, zoneFilter in Hnone. cbn in Hnone.
  rewrite Hshop, String.eqb_refl in Hnone.
  pose proof (own_local_day (tza w1) (Js.ofDay (BlackoutDate.date b))) as [H1 H2].
  apply Z.leb_le in H1, H2. rewrite H1, H2 in Hnone.
  destruct zoneId; discriminate.
Qed.

Lemma deleteDeliveryZone_widens_blackouts_witness :
  exists w',
    Zones.deleteDeliveryZone "z1" Demo.shopName
      (mkWorld (withDeliverySlot [] Demo.store) [] 0 0) = (Ok true, w')
    /\ fst (isDateBlackedOut Demo.shopName (Js.ofDay Demo.day_2026_03_10) (Some "z2")
              (mkWorld (withDeliverySlot [] Demo.store) [] 0 0)) = Ok false
    /\ fst (isDateBlackedOut Demo.shopName (Js.ofDay Demo.day_2026_03_10) (Some "z2") w')
       = Ok true.
Proof.
  destruct (deleteDeliveryZone_widens_blackouts Demo.zoneUS
              (mkWorld (withDeliverySlot [] Demo.store) [] 0 0))
    as (w' & E & _ & _ & _ & _ & _ & H).
  - constructor.
  - left. reflexivity.
  - exists w'. split; [exact E|]. split; [vm_compute; reflexivity|].
    assert (Hq : quiet w').
    { cbv in E. injection E as <-. constructor. }
    exact (H eq_refl Demo.stocktaking (or_intror (or_intror (or_introl eq_refl)))
             eq_refl eq_refl (Some "z2") w' Hq eq_refl).
Defined.
Lemma updateZoneIn_middle (zoneId : string) (before l1 l2 : list DeliveryZone.t)
    (z : DeliveryZone.t) :
  (forall x, In x l1 -> DeliveryZone.id x <> zoneId) ->
  DeliveryZone.id z = zoneId ->
  Zones.updateZoneIn zoneId before (l1 ++ z :: l2) = Some (z, before ++ l1, l2).
Proof.
  revert before. induction l1 as [|a l1 IH]; cbn; intros before Hl1 Hz.
  - apply String.eqb_eq in Hz. rewrite Hz, app_nil_r. reflexivity.
  - destruct (String.eqb_spec (DeliveryZone.id a) zoneId) as [Ha|_].
    + destruct (Hl1 a (or_introl eq_refl) Ha).
    + rewrite IH by auto. rewrite <- app_assoc. reflexivity.
Qed.

Lemma NoDup_split_by {A B} (f : A -> B) (l : list A) (z : A) :
  NoDup (map f l) -> In z l ->
  exists l1 l2, l = l1 ++ z :: l2 /\ forall x, In x (l1 ++ l2) -> f x <> f z.
Proof.
  intros Hnd Hin. destruct (in_split _ _ Hin) as (l1 & l2 & ->).
  exists l1, l2. split; [reflexivity|].
  rewrite map_app in Hnd. cbn in Hnd. apply NoDup_remove_2 in Hnd.
  intros x Hx E. apply Hnd. rewrite <- map_app, <- E. apply in_map. exact Hx.
Qed.

Lemma sameZoneKey_withIsActive (d : DB) (b : bool) (z : DeliveryZone.t) :
  Zones.sameZoneKey d (Zones.withIsActive b z) z = true.
Proof.
  unfold Zones.sameZoneKey. cbn. rewrite String.eqb_refl, sameText_refl. reflexivity.
Qed.

(** What [toggleDeliveryZone] does when no query fails, for a zone
    whose id no other row has. *)
Lemma toggleDeliveryZone_quiet (z : DeliveryZone.t) (l1 l2 : list DeliveryZone.t)
    (w : World) :
  quiet w ->
  deliveryZone (db w) = l1 ++ z :: l2 ->
  (forall x, In x (l1 ++ l2) -> DeliveryZone.id x <> DeliveryZone.id z) ->
  exists w',
    Zones.toggleDeliveryZone (DeliveryZone.shopName z) (DeliveryZone.id z) w
    = (Ok (Zones.withIsActive (negb (DeliveryZone.isActive z)) z), w')
    /\ db w' = Zones.withDeliveryZone
                 (l1 ++ Zones.withIsActive (negb (DeliveryZone.isActive z)) z :: l2) (db w).
Proof.
  intros Hq Hl Hids. unfold Zones.toggleDeliveryZone, tryCatch, bind.
  rewrite read_quiet by assumption. unfold findFirst. rewrite Hl.
  rewrite find_middle.
  - rewrite call_quiet by (apply quiet_advance; assumption). cbn.
    unfold Zones.updateDeliveryZoneRow. rewrite Hl.
    rewrite (updateZoneIn_middle _ [] l1 l2 z) by
      (auto; intros x Hx; apply Hids, in_or_app; auto).
    rewrite sameZoneKey_withIsActive. cbn. eexists. split; reflexivity.
  - apply find_none_iff. intros x Hx. unfold Zones.zoneOfShop.
    destruct (String.eqb_spec (DeliveryZone.id x) (DeliveryZone.id z)) as [E|_];
      [|reflexivity].
    destruct (Hids x (in_or_app _ _ _ (or_introl Hx)) E).
  - unfold Zones.zoneOfShop. rewrite !String.eqb_refl. reflexivity.
Qed.

(** X12. Toggling a zone twice restores the store.  Where zone ids
    are distinct (the primary key) and no query fails,
    [toggleDeliveryZone] returns the zone with its active flag
    inverted and changes nothing else, neither slots, blackout dates
    nor orders; toggling the same zone again returns the original zone
    row and leaves exactly the original store. *)
Theorem toggleDeliveryZone_involutive (z : DeliveryZone.t) (w : World) :
  quiet w ->
  NoDup (map DeliveryZone.id (deliveryZone (db w))) ->
  In z (deliveryZone (db w)) ->
  exists w',
    Zones.toggleDeliveryZone (DeliveryZone.shopName z) (DeliveryZone.id z) w
    = (Ok (Zones.withIsActive (negb (DeliveryZone.isActive z)) z), w')
    /\ deliverySlot (db w') = deliverySlot (db w)
    /\ blackoutDate (db w') = blackoutDate (db w)
    /\ order (db w') = order (db w)
    /\ map DeliveryZone.id (deliveryZone (db w')) = map DeliveryZone.id (deliveryZone (db w))
    /\ forall w1, quiet w1 -> db w1 = db w' ->
         exists w'',
           Zones.toggleDeliveryZone (DeliveryZone.shopName z) (DeliveryZone.id z) w1
           = (Ok z, w'')
           /\ db w'' = db w.
Proof.
  intros Hq Hnd Hin.
  destruct (NoDup_split_by _ _ _ Hnd Hin) as (l1 & l2 & Hl & Hids).
  destruct (toggleDeliveryZone_quiet z l1 l2 w Hq Hl Hids) as (w' & E & Hdb).
  exists w'. split; [exact E|]. rewrite Hdb. cbn.
  repeat split.
  - rewrite Hl, !map_app. reflexivity.
  - intros w1 Hq1 Hdb1.
    destruct (toggleDeliveryZone_quiet
                (Zones.withIsActive (negb (DeliveryZone.isActive z)) z) l1 l2 w1 Hq1)
      as (w'' & E' & Hdb'').
    + rewrite Hdb1. reflexivity.
    + exact Hids.
    + cbn in E', Hdb''. rewrite negb_involutive in E', Hdb''.
      assert (Hz : Zones.withIsActive (DeliveryZone.isActive z)
                     (Zones.withIsActive (negb (DeliveryZone.isActive z)) z) = z)
        by (destruct z; reflexivity).
      rewrite Hz in E', Hdb''.
      exists w''. split; [exact E'|].
      rewrite Hdb'', Hdb1. cbn. rewrite <- Hl. destruct (db w); reflexivity.
Qed.

Lemma toggleDeliveryZone_involutive_witness :
  exists w',
    Zones.toggleDeliveryZone Demo.shopName "z2" Demo.world
    = (Ok (Zones.withIsActive true Demo.zoneCA), w')
    /\ forall w1, quiet w1 -> db w1 = db w' ->
         exists w'',
           Zones.toggleDeliveryZone Demo.shopName "z2" w1 = (Ok Demo.zoneCA, w'')
           /\ db w'' = Demo.store.
Proof.
  destruct (toggleDeliveryZone_involutive Demo.zoneCA Demo.world)
    as (w' & E & _ & _ & _ & _ & H).
  - constructor.
  - repeat constructor; cbn; intuition discriminate.
  - right. left. reflexivity.
  - exists w'. split; [exact E|exact H].
Defined.

Lemma find_zone_inactive (l1 l2 : list DeliveryZone.t) (z : DeliveryZone.t)
    (data : CreateSlotData) :
  (forall x, In x (l1 ++ l2) -> DeliveryZone.id x <> DeliveryZone.id z) ->
  zoneId data = DeliveryZone.id z ->
  findFirst (l1 ++ Zones.withIsActive false z :: l2) (zoneOfShopWhere data) = None.
Proof.
  intros Hids Hz. apply find_none_iff. intros x Hx. unfold zoneOfShopWhere.
  apply in_app_or in Hx. destruct Hx as [Hx|[<-|Hx]].
  - destruct (String.eqb_spec (DeliveryZone.id x) (zoneId data)) as [E|_]; [|reflexivity].
    rewrite Hz in E. destruct (Hids x (in_or_app _ _ _ (or_introl Hx)) E).
  - cbn. rewrite andb_false_r. reflexivity.
  - destruct (String.eqb_spec (DeliveryZone.id x) (zoneId data)) as [E|_]; [|reflexivity].
    rewrite Hz in E. destruct (Hids x (in_or_app _ _ _ (or_intror Hx)) E).
Qed.

Lemma bookings_zone_free (l : list DeliveryZone.t) (d : DB) (slotId : string) (day : Z) :
  bookings (Zones.withDeliveryZone l d) slotId day = bookings d slotId day.
Proof. reflexivity. Qed.

Lemma reportsBlackedOut_zone_free (l : list DeliveryZone.t) (d : DB) (tz : Z)
    (shopName : string) (date : Js.Date) (zoneId : option string) :
  reportsBlackedOut (Zones.withDeliveryZone l d) tz shopName date zoneId
  = reportsBlackedOut d tz shopName date zoneId.
Proof. reflexivity. Qed.

(** X13. Deactivating a zone closes it to new slots but not to
    bookings.  After [toggleDeliveryZone] has deactivated a zone (ids
    distinct, no query failing), [createDeliverySlot] refuses every
    slot for that zone with the invalid-zone error, while
    [getAvailableSlots] offers the same slots with the same capacities
    as before and [isSlotAvailableForDate] answers as before: neither
    looks at the zone's active flag. *)
Theorem deactivated_zone_still_bookable (z : DeliveryZone.t) (w : World) :
  quiet w ->
  NoDup (map DeliveryZone.id (deliveryZone (db w))) ->
  In z (deliveryZone (db w)) ->
  DeliveryZone.isActive z = true ->
  exists w',
    Zones.toggleDeliveryZone (DeliveryZone.shopName z) (DeliveryZone.id z) w
    = (Ok (Zones.withIsActive false z), w')
    /\ (forall data w1, quiet w1 -> db w1 = db w' ->
          zoneId data = DeliveryZone.id z ->
          fst (createDeliverySlot data w1) = Throw "Invalid delivery zone for this shop"
          /\ db (snd (createDeliverySlot data w1)) = db w1)
    /\ (forall shopName date zoneId w0 w1,
          quiet w0 -> db w0 = db w -> quiet w1 -> db w1 = db w' -> tza w1 = tza w0 ->
          exists before after,
            fst (getAvailableSlots shopName date zoneId w0) = Ok before
            /\ fst (getAvailableSlots shopName date zoneId w1) = Ok after
            /\ map slot after = map slot before
            /\ map availableCapacity after = map availableCapacity before)
    /\ (forall slotId date w0 w1,
          quiet w0 -> db w0 = db w -> quiet w1 -> db w1 = db w' -> tza w1 = tza w0 ->
          fst (isSlotAvailableForDate slotId date w1)
          = fst (isSlotAvailableForDate slotId date w0)).
Proof.
  intros Hq Hnd Hin Hact.
  destruct (NoDup_split_by _ _ _ Hnd Hin) as (l1 & l2 & Hl & Hids).
  destruct (toggleDeliveryZone_quiet z l1 l2 w Hq Hl Hids) as (w' & E & Hdb).
  rewrite Hact in E, Hdb. cbn in E, Hdb.
  exists w'. split; [exact E|]. split; [|split].
  - intros data w1 Hq1 Hdb1 Hz.
    destruct (createDeliverySlot_quiet data w1 Hq1) as (w2 & E2 & Hdb2).
    rewrite E2. cbn [fst snd]. rewrite Hdb2. rewrite Hdb1 at 1 2. rewrite Hdb.
    cbn [deliveryZone Zones.withDeliveryZone].
    rewrite (find_zone_inactive l1 l2 z data Hids Hz). split; reflexivity.
  - intros shopName date zoneId w0 w1 Hq0 Hdb0 Hq1 Hdb1 Htz.
    destruct (getAvailableSlots_quiet shopName date zoneId w0 Hq0) as (w0' & E0 & _).
    destruct (getAvailableSlots_quiet shopName date zoneId w1 Hq1) as (w1' & E1 & _).
    rewrite Hdb0 in E0. rewrite Hdb1, Hdb, Htz in E1.
    rewrite reportsBlackedOut_zone_free in E1.
    rewrite E0, E1. cbn [fst].
    destruct (reportsBlackedOut _ _ _ _ _); [exists [], []; auto|].
    do 2 eexists. split; [reflexivity|]. split; [reflexivity|].
    rewrite !map_map. split; apply map_ext; intros s; reflexivity.
  - intros slotId date w0 w1 Hq0 Hdb0 Hq1 Hdb1 Htz.
    destruct (isSlotAvailableForDate_quiet slotId date w0 Hq0) as (w0' & E0 & _).
    destruct (isSlotAvailableForDate_quiet slotId date w1 Hq1) as (w1' & E1 & _).
    rewrite E0, E1. cbn [fst]. rewrite Hdb1, Hdb0, Hdb, Htz. reflexivity.
Qed.

Lemma deactivated_zone_still_bookable_witness :
  exists w',
    Zones.toggleDeliveryZone Demo.shopName "z1" Demo.world
    = (Ok (Zones.withIsActive false Demo.zoneUS), w')
    /\ fst (createDeliverySlot Demo.requestNight w')
       = Throw "Invalid delivery zone for this shop"
    /\ fst (isSlotAvailableForDate "s1" (Js.ofDay Demo.day_2026_01_15) w')
       = fst (isSlotAvailableForDate "s1" (Js.ofDay Demo.day_2026_01_15) Demo.world).
Proof.
  destruct (deactivated_zone_still_bookable Demo.zoneUS Demo.world)
    as (w' & E & Hcreate & _ & Havail).
  - constructor.
  - repeat constructor; cbn; intuition discriminate.
  - left. reflexivity.
  - reflexivity.
  - assert (Hq : quiet w') by (cbv in E; injection E as <-; constructor).
    assert (Htz : tza w' = tza Demo.world) by (cbv in E; injection E as <-; reflexivity).
    exists w'. split; [exact E|]. split.
    + apply (Hcreate Demo.requestNight w'); [exact Hq|reflexivity|reflexivity].
    + apply Havail; [constructor|reflexivity|exact Hq|reflexivity|exact Htz].
Defined.
Lemma insertDeliveryZone_ok (row z : DeliveryZone.t) (d : DB) :
  fst (Zones.insertDeliveryZone row d) = Ok z ->
  z = row
  /\ snd (Zones.insertDeliveryZone row d)
     = Zones.withDeliveryZone (deliveryZone d ++ [row]) d
  /\ existsb_str (DeliveryZone.shopName row) (shop d) = true
  /\ forall x, In x (deliveryZone d) -> Zones.sameZoneKey d row x = false.
Proof.
  unfold Zones.insertDeliveryZone.
  destruct (existsb_str _ _); cbn; [|discriminate].
  destruct (existsb _ _) eqn:E; cbn; [discriminate|].
  intros [= <-]. repeat split.
  intros x Hx. destruct (Zones.sameZoneKey d row x) eqn:Ek; [|reflexivity].
  assert (existsb (Zones.sameZoneKey d row) (deliveryZone d) = true)
    by (apply existsb_exists; eauto).
  congruence.
Qed.

(** When [createDeliveryZone] returns a zone, that zone was inserted
    by its last query, whatever the earlier outcomes. *)
Lemma createDeliveryZone_ok (shopName : string) (data : Zones.ZoneData)
    (z : DeliveryZone.t) (w w' : World) :
  Zones.createDeliveryZone shopName data w = (Ok z, w') ->
  exists id,
    z = DeliveryZone.mk id shopName (JsText.trim (Zones.name data))
          (Zones.shippingRate data) true
    /\ db w' = Zones.withDeliveryZone (deliveryZone (db w) ++ [z]) (db w)
    /\ existsb_str shopName (shop (db w)) = true
    /\ forall x, In x (deliveryZone (db w)) -> Zones.sameZoneKey (db w) z x = false.
Proof.
  unfold Zones.createDeliveryZone, tryCatch, Zones.getShopByName. unfold bind at 1.
  match goal with |- context [read ?q w] =>
    destruct (read_cases q w) as [(e & w1 & E & Hdb1)|(w1 & E & Hdb1)]; rewrite E; cbn
  end; [discriminate|].
  destruct (existsb_str shopName (shop (db w))); cbn; [|discriminate].
  unfold bind at 1.
  match goal with |- context [read ?q w1] =>
    destruct (read_cases q w1) as [(e & w2 & E2 & Hdb2)|(w2 & E2 & Hdb2)]; rewrite E2; cbn
  end; [discriminate|].
  destruct (findFirst _ _); cbn; [discriminate|].
  unfold bind, freshId.
  match goal with |- context [call ?q ?w0] =>
    destruct (call_cases q w0) as [(e & w3 & E3 & Hdb3)|(w3 & E3 & Hdb3)]; rewrite E3
  end; [discriminate|].
  cbn [db] in E3, Hdb3 |- *.
  destruct (fst (Zones.insertDeliveryZone _ (db w2))) as [row|e] eqn:Eins; [|discriminate].
  intros [= <- <-].
  destruct (insertDeliveryZone_ok _ _ _ Eins) as (-> & Hsnd & _ & Hkey).
  rewrite Hdb2, Hdb1 in *.
  eexists. split; [reflexivity|]. rewrite Hdb3, Hsnd. auto.
Qed.

(** X14. A zone that [createDeliveryZone] returns is the one that
    [getZoneByCountryCode] finds under its trimmed name.  Whatever the
    queries' outcomes, a returned zone is a row of the shop, active,
    named by the given name with surrounding white space removed, and
    appended to the zones with nothing else changed; from then on a
    lookup of that shop and trimmed name that does not fail returns
    exactly this zone. *)
Theorem createDeliveryZone_then_found (shopName : string) (data : Zones.ZoneData)
    (z : DeliveryZone.t) (w w' : World) :
  Zones.createDeliveryZone shopName data w = (Ok z, w') ->
  DeliveryZone.shopName z = shopName
  /\ DeliveryZone.name z = JsText.trim (Zones.name data)
  /\ DeliveryZone.shippingRate z = Zones.shippingRate data
  /\ DeliveryZone.isActive z = true
  /\ db w' = Zones.withDeliveryZone (deliveryZone (db w) ++ [z]) (db w)
  /\ forall w1, quiet w1 -> db w1 = db w' ->
       fst (getZoneByCountryCode shopName (JsText.trim (Zones.name data)) w1)
       = Ok (Some z).
Proof.
  intros H. destruct (createDeliveryZone_ok _ _ _ _ _ H) as (id & Hz & Hdb & _ & Hkey).
  subst z. cbn. repeat split; [exact Hdb|].
  intros w1 Hq1 Hdb1. unfold getZoneByCountryCode, tryCatch.
  rewrite read_quiet by assumption. cbn. f_equal.
  rewrite Hdb1, Hdb. cbn. unfold findFirst. rewrite find_app_none.
  - cbn. unfold zoneByCountryWhere. cbn [DeliveryZone.shopName DeliveryZone.name
      DeliveryZone.isActive]. rewrite String.eqb_refl, sameText_refl. reflexivity.
  - apply find_none_iff. intros x Hx. specialize (Hkey x Hx).
    unfold Zones.sameZoneKey in Hkey.
    cbn [DeliveryZone.shopName DeliveryZone.name] in Hkey.
    unfold zoneByCountryWhere.
    rewrite (String.eqb_sym (DeliveryZone.shopName x)),
            (sameText_sym _ (DeliveryZone.name x)).
    unfold sameText in Hkey |- *. cbn [weightString Zones.withDeliveryZone].
    rewrite Hkey. reflexivity.
Qed.

Lemma createDeliveryZone_then_found_witness :
  fst (getZoneByCountryCode Demo.shopName "GB"
         (snd (Zones.createDeliveryZone Demo.shopName (Zones.mkZoneData " GB " 7)
                 Demo.world)))
  = Ok (Some (DeliveryZone.mk "c0" Demo.shopName "GB" 7 true)).
Proof.
  assert (E : Zones.createDeliveryZone Demo.shopName (Zones.mkZoneData " GB " 7) Demo.world
              = (Ok (DeliveryZone.mk "c0" Demo.shopName "GB" 7 true),
                 mkWorld (Zones.withDeliveryZone
                            ([Demo.zoneUS; Demo.zoneCA]
                               ++ [DeliveryZone.mk "c0" Demo.shopName "GB" 7 true])
                            Demo.store) [] 1 0)) by reflexivity.
  rewrite E.
  apply (proj2 (proj2 (proj2 (proj2 (proj2
           (createDeliveryZone_then_found _ _ _ _ _ E)))))).
  - constructor.
  - reflexivity.
Defined.
(* ================================================================= *)
(** ** Shop settings *)

(** X15. What [updateShopSettings] stores is what [getShopSettings]
    returns.  For a shop that exists and with no query failing,
    [updateShopSettings] returns the shop's settings row, carrying
    each given field (a given cut-off time that is not empty, a given
    number of days that is not zero, a given same-day flag), and leaves
    the rows of other shops alone; a following [getShopSettings]
    returns that same row and writes nothing. *)
Theorem updateShopSettings_then_get (shopName : string) (settings : Settings.Partial)
    (w : World) :
  quiet w ->
  existsb_str shopName (shop (db w)) = true ->
  exists row w',
    Settings.updateShopSettings shopName settings w = (Ok row, w')
    /\ ShopSettings.shopName row = shopName
    /\ (forall c, Settings.cutoffTime settings = Some c -> c <> "" ->
          ShopSettings.cutoffTime row = c)
    /\ (forall n, Settings.maxDaysInAdvance settings = Some n -> n <> 0 ->
          ShopSettings.maxDaysInAdvance row = n)
    /\ (forall b, Settings.enableSameDayDelivery settings = Some b ->
          ShopSettings.enableSameDayDelivery row = b)
    /\ filter (fun s => negb (String.eqb (ShopSettings.shopName s) shopName))
         (shopSettings (db w'))
       = filter (fun s => negb (String.eqb (ShopSettings.shopName s) shopName))
           (shopSettings (db w))
    /\ forall w1, quiet w1 -> db w1 = db w' ->
         exists w2, ShopService.getShopSettings shopName w1 = (Ok (Some row), w2)
                    /\ db w2 = db w'.
Proof.
  intros Hq Hshop. unfold Settings.updateShopSettings, bind, freshId.
  rewrite call_quiet by exact Hq. cbn [db nextId].
  unfold Settings.upsertShopSettings, findFirst.
  destruct (find _ (shopSettings (db w))) as [old|] eqn:Ef.
  - destruct (find_split _ _ _ Ef) as (l1 & l2 & Hl & Hp & Hn).
    rewrite Hl. rewrite (updateFirst_middle _ _ l1 l2 old Hn Hp). cbn [fst snd].
    apply String.eqb_eq in Hp.
    do 2 eexists. split; [reflexivity|]. cbn [db].
    split; [exact Hp|].
    split; [intros c Hc _; cbn; rewrite Hc; reflexivity|].
    split; [intros n Hn' _; cbn; rewrite Hn'; reflexivity|].
    split; [intros b Hb; cbn; rewrite Hb; reflexivity|].
    split.
    + cbn. rewrite !filter_app. cbn. rewrite Hp, String.eqb_refl. reflexivity.
    + intros w1 Hq1 Hdb1. eexists. split.
      * apply getShopSettings_found; [exact Hq1|]. rewrite Hdb1. cbn.
        apply find_middle; [exact Hn|]. cbn. rewrite Hp. apply String.eqb_refl.
      * cbn. exact Hdb1.
  - assert (Hins : insertShopSettings
                     (Settings.created (cuid (nextId w)) shopName settings) (db w)
                   = (Ok (Settings.created (cuid (nextId w)) shopName settings),
                      withShopSettings
                        (shopSettings (db w)
                           ++ [Settings.created (cuid (nextId w)) shopName settings])
                        (db w))).
    { unfold insertShopSettings. cbn [ShopSettings.shopName Settings.created].
      rewrite Hshop. cbn.
      destruct (existsb_str shopName (map ShopSettings.shopName (shopSettings (db w))))
        eqn:Ex; [|reflexivity].
      apply existsb_str_iff in Ex. apply in_map_iff in Ex.
      destruct Ex as (x & Hx & Hin).
      apply (find_none _ _ Ef) in Hin. rewrite Hx, String.eqb_refl in Hin. discriminate. }
    rewrite Hins. cbn [fst snd].
    do 2 eexists. split; [reflexivity|]. cbn [db].
    split; [reflexivity|].
    split; [intros c Hc Hne; cbn; rewrite Hc; apply String.eqb_neq in Hne;
            rewrite Hne; reflexivity|].
    split; [intros n Hn Hne; cbn; rewrite Hn; apply Z.eqb_neq in Hne;
            rewrite Hne; reflexivity|].
    split; [intros b Hb; cbn; rewrite Hb; reflexivity|].
    split.
    + cbn. rewrite filter_app. cbn. rewrite String.eqb_refl. cbn. apply app_nil_r.
    + intros w1 Hq1 Hdb1. eexists. split.
      * apply getShopSettings_found; [exact Hq1|]. rewrite Hdb1. cbn.
        rewrite (find_app_none _ _ _ Ef). cbn. rewrite String.eqb_refl. reflexivity.
      * cbn. exact Hdb1.
Qed.

Lemma updateShopSettings_then_get_witness :
  exists row w',
    Settings.updateShopSettings Demo.shopName
      (Settings.mkPartial (Some "16:30") (Some 14) None) Demo.world = (Ok row, w')
    /\ ShopSettings.cutoffTime row = "16:30"
    /\ ShopSettings.maxDaysInAdvance row = 14.
Proof.
  destruct (updateShopSettings_then_get Demo.shopName
              (Settings.mkPartial (Some "16:30") (Some 14) None) Demo.world)
    as (row & w' & E & _ & Hc & Hn & _).
  - constructor.
  - reflexivity.
  - exists row, w'. split; [exact E|]. split.
    + apply (Hc "16:30"); [reflexivity|discriminate].
    + apply (Hn 14); [reflexivity|discriminate].
Defined.
(* ================================================================= *)
(** ** The estimate and the slot menu *)

Lemma mapM_Forall {A B} (f : A -> M B) (P : A -> Prop) (Q : B -> Prop) :
  (forall a w b w', P a -> f a w = (Ok b, w') -> Q b) ->
  forall l w bs w', Forall P l -> mapM f l w = (Ok bs, w') -> Forall Q bs.
Proof.
  intros Hf. induction l as [|a l IH]; cbn; intros w bs w' HP H.
  - injection H as <- <-. constructor.
  - inversion HP as [|? ? Ha Hl]; subst. unfold bind in H.
    destruct (f a w) as [[b|e] w1] eqn:Ea; [|discriminate].
    destruct (mapM f l w1) as [[bs'|e] w2] eqn:El; [|discriminate].
    injection H as <- <-. constructor; [exact (Hf _ _ _ _ Ha Ea)|].
    exact (IH _ _ _ Hl El).
Qed.

Lemma mapM_store {A B} (f : A -> M B) :
  (forall a w, db (snd (f a w)) = db w) ->
  forall l w, db (snd (mapM f l w)) = db w.
Proof.
  intros Hf. induction l as [|a l IH]; cbn; intros w; [reflexivity|].
  unfold bind. pose proof (Hf a w) as Ha.
  destruct (f a w) as [[b|e] w1]; cbn in *; [|exact Ha].
  pose proof (IH w1) as Hl.
  destruct (mapM f l w1) as [[bs|e] w2]; cbn in *; congruence.
Qed.

(** Every slot [getAvailableSlots] returns is active and has room,
    whatever the queries' outcomes. *)
Lemma getAvailableSlots_sound (shopName : string) (date : Js.Date) (zoneId : string)
    (w w' : World) (l : list SlotWithBookings) :
  getAvailableSlots shopName date zoneId w = (Ok l, w') ->
  Forall (fun x => DeliverySlot.isActive (slot x) = true
                   /\ currentBookings x < DeliverySlot.capacity (slot x)
                   /\ DeliverySlot.zoneId (slot x) = zoneId) l.
Proof.
  unfold getAvailableSlots, tryCatch. unfold bind at 1.
  destruct (isDateBlackedOut_store shopName date (Some zoneId) w)
    as (b & w1 & E1 & _). rewrite E1.
  destruct b; cbn.
  { intros [= <- <-]. constructor. }
  unfold bind at 1.
  match goal with |- context [read ?q w1] =>
    destruct (read_cases q w1) as [(e & w2 & E2 & _)|(w2 & E2 & _)]; rewrite E2
  end; [discriminate|].
  unfold bind at 1.
  match goal with |- context [mapM ?f ?l0 w2] =>
    destruct (mapM f l0 w2) as [[xs|e] w3] eqn:E3; [|discriminate];
    pose proof (mapM_Forall f
      (fun sz => activeSlotWhere shopName zoneId (fst sz) = true)
      (fun x => DeliverySlot.isActive (slot x) = true
                /\ availableCapacity x
                   = DeliverySlot.capacity (slot x) - currentBookings x
                /\ DeliverySlot.zoneId (slot x) = zoneId)) as HF
  end.
  cbn. intros [= <- <-].
  assert (Hxs : Forall (fun x => DeliverySlot.isActive (slot x) = true
                /\ availableCapacity x
                   = DeliverySlot.capacity (slot x) - currentBookings x
                /\ DeliverySlot.zoneId (slot x) = zoneId) xs).
  { eapply HF; [| |exact E3].
    - intros [s z] w0 x w0' Hact. cbn [fst snd]. unfold bind.
      destruct (getSlotBookingsForDate_store (DeliverySlot.id s) date w0)
        as (n & w4 & E4 & _). rewrite E4. cbn. intros [= <- <-]. cbn.
      unfold activeSlotWhere in Hact.
      apply andb_prop in Hact. destruct Hact as [Hact Hactive].
      apply andb_prop in Hact. destruct Hact as [_ Hzone].
      apply String.eqb_eq in Hzone.
      destruct s; cbn in *. auto.
    - apply Forall_forall. intros [s z] Hin. cbn [fst].
      apply in_map_iff in Hin. destruct Hin as (s' & [= <- _] & Hin).
      apply (Permutation_in _ (Permutation_sym (orderBy_perm _ _))) in Hin.
      apply filter_In in Hin. apply Hin. }
  apply Forall_forall. intros x Hx. apply filter_In in Hx. destruct Hx as [Hx Hroom].
  rewrite Forall_forall in Hxs. destruct (Hxs x Hx) as (Hact & Hcap & Hzone).
  apply Z.ltb_lt in Hroom. repeat split; auto. lia.
Qed.

Lemma getAvailableSlots_store (shopName : string) (date : Js.Date) (zoneId : string)
    (w : World) :
  db (snd (getAvailableSlots shopName date zoneId w)) = db w.
Proof.
  unfold getAvailableSlots, tryCatch. unfold bind at 1.
  destruct (isDateBlackedOut_store shopName date (Some zoneId) w)
    as (b & w1 & E1 & Hdb1 & _). rewrite E1.
  destruct b; cbn; [exact Hdb1|].
  unfold bind at 1.
  match goal with |- context [read ?q w1] =>
    destruct (read_cases q w1) as [(e & w2 & E2 & Hdb2)|(w2 & E2 & Hdb2)]; rewrite E2
  end; cbn; [congruence|].
  unfold bind at 1.
  match goal with |- context [mapM ?f ?l0 w2] =>
    assert (Hm : db (snd (mapM f l0 w2)) = db w2);
    [|destruct (mapM f l0 w2) as [[xs|e] w3]; cbn in *; congruence]
  end.
  apply mapM_store. intros [s z] w0. cbn [fst snd]. unfold bind.
  destruct (getSlotBookingsForDate_store (DeliverySlot.id s) date w0)
    as (n & w4 & E4 & Hdb4 & _). rewrite E4. cbn. exact Hdb4.
Qed.

Lemma getZoneByCountryCode_store (shopName countryCode : string) (w : World) :
  db (snd (getZoneByCountryCode shopName countryCode w)) = db w.
Proof.
  unfold getZoneByCountryCode, tryCatch.
  match goal with |- context [read ?q w] =>
    destruct (read_cases q w) as [(e & w2 & E2 & Hdb2)|(w2 & E2 & Hdb2)]; rewrite E2
  end; cbn; assumption.
Qed.

Lemma filter_all {A} (p : A -> bool) (l : list A) :
  Forall (fun x => p x = true) l -> filter p l = l.
Proof.
  induction 1 as [|x l Hx _ IH]; cbn; [reflexivity|]. rewrite Hx, IH. reflexivity.
Qed.

(** The outcomes of [DeliveryEstimate.loader]. *)
Lemma estimate_loader_cases (parseDate : string -> option Js.Date)
    (now : Js.Date) (country_code delivery_date shop : option string) (w : World) :
  exists out w',
    DeliveryEstimate.loader parseDate now country_code delivery_date shop w = (out, w')
    /\ db w' = db w
    /\ forall rate slots zone,
         out = Ok (DeliveryEstimate.json
                     (DeliveryEstimate.EstimateBody rate slots zone) 200) ->
         exists zoneId deliveryDate l,
           slots = map (DeliveryEstimate.formatSlot deliveryDate) l
           /\ Forall (fun x => DeliverySlot.isActive (slot x) = true
                               /\ currentBookings x < DeliverySlot.capacity (slot x)
                               /\ DeliverySlot.zoneId (slot x) = zoneId) l.
Proof.
  unfold DeliveryEstimate.loader.
  destruct country_code as [countryCode|], delivery_date as [deliveryDate|],
    shop as [shopName|];
    try (eexists _, w; split; [reflexivity|]; split; [reflexivity|]; discriminate).
  destruct (_ || _);
    [eexists _, w; split; [reflexivity|]; split; [reflexivity|]; discriminate|].
  unfold tryCatch.
  destruct (parseDate deliveryDate) as [date|];
    [|eexists _, w; split; [reflexivity|]; split; [reflexivity|]; discriminate].
  unfold bind at 1, getTza.
  destruct (date <? _);
    [eexists _, w; split; [reflexivity|]; split; [reflexivity|]; discriminate|].
  unfold bind at 1.
  pose proof (getZoneByCountryCode_store shopName countryCode w) as Hz.
  destruct (getZoneByCountryCode shopName countryCode w) as [[[z|]|e] w1];
    cbn [fst snd] in Hz;
    try (eexists _, w1; split; [reflexivity|]; split; [exact Hz|]; discriminate).
  unfold bind at 1.
  destruct (isDateBlackedOut_store shopName date (Some (DeliveryZone.id z)) w1)
    as (b & w2 & E2 & Hdb2 & _). rewrite E2.
  destruct b;
    [eexists _, w2; split; [reflexivity|]; split; [congruence|]; discriminate|].
  unfold bind.
  pose proof (getAvailableSlots_store shopName date (DeliveryZone.id z) w2) as Hs.
  pose proof (getAvailableSlots_sound shopName date (DeliveryZone.id z) w2) as Hsound.
  destruct (getAvailableSlots shopName date (DeliveryZone.id z) w2) as [[l|e] w3];
    cbn [fst snd] in Hs;
    [|eexists _, w3; split; [reflexivity|]; split; [congruence|]; discriminate].
  specialize (Hsound w3 l eq_refl).
  eexists _, w3. split; [reflexivity|]. split; [congruence|].
  intros rate slots zone [= <- <- <-].
  exists (DeliveryZone.id z), deliveryDate, l. split; [reflexivity|exact Hsound].
Qed.

(** X16. The checkout menu shows every slot of an estimate.  Whatever
    the outcomes of the queries, [DeliveryEstimate.loader] writes
    nothing, and when it answers with an estimate every slot in it is
    active, has fewer orders than capacity and belongs to one zone; so
    the client's [isSlotAvailable] filter removes none of them, and
    [slotOptions] lists exactly the estimate's slots, in its order,
    after the placeholder (or the single 'No slots available' entry
    when the estimate is empty). *)
Theorem estimate_slots_all_offered (parseDate : string -> option Js.Date)
    (now : Js.Date) (country_code delivery_date shop : option string) (w : World)
    (rate : Z) (slots : list DeliveryEstimate.FormattedSlot) (zone : string) :
  fst (DeliveryEstimate.loader parseDate now country_code delivery_date shop w)
  = Ok (DeliveryEstimate.json (DeliveryEstimate.EstimateBody rate slots zone) 200) ->
  db (snd (DeliveryEstimate.loader parseDate now country_code delivery_date shop w))
  = db w
  /\ filter Selector.isSlotAvailable slots = slots
  /\ map Selector.value (Selector.slotOptions (Some slots))
     = "" :: map DeliveryEstimate.id slots
  /\ map Selector.disabled (Selector.slotOptions (Some slots))
     = true :: map (fun _ => false) slots
  /\ exists zoneId, Forall (fun s => DeliveryEstimate.zoneId s = zoneId) slots.
Proof.
  intros H.
  destruct (estimate_loader_cases parseDate now country_code delivery_date shop w)
    as (out & w' & E & Hdb & Hout).
  rewrite E in H |- *. cbn [fst snd] in H |- *.
  destruct (Hout rate slots zone H) as (zoneId & deliveryDate & l & -> & Hsound).
  assert (Hall : Forall (fun s => Selector.isSlotAvailable s = true)
                   (map (DeliveryEstimate.formatSlot deliveryDate) l)).
  { apply Forall_forall. intros s Hin. apply in_map_iff in Hin.
    destruct Hin as (x & <- & Hx). rewrite Forall_forall in Hsound.
    destruct (Hsound x Hx) as (Hact & Hroom & _).
    unfold Selector.isSlotAvailable. cbn. rewrite Hact. apply Z.ltb_lt. exact Hroom. }
  split; [exact Hdb|]. split; [apply filter_all; exact Hall|].
  unfold Selector.slotOptions. rewrite (filter_all _ _ Hall).
  split; [|split].
  - destruct l; cbn; [reflexivity|]. rewrite !map_map. reflexivity.
  - destruct l; cbn; [reflexivity|]. rewrite !map_map. reflexivity.
  - exists zoneId. apply Forall_forall. intros s Hin.
    apply in_map_iff in Hin. destruct Hin as (x & <- & Hx).
    rewrite Forall_forall in Hsound. apply (Hsound x Hx).
Qed.

Lemma estimate_slots_all_offered_witness :
  map Selector.value
    (Selector.slotOptions
       (Some [DeliveryEstimate.mkFormattedSlot "s1" "09:00" "12:00" 2 1 "2026-01-15"
                "z1" true]))
  = [""; "s1"].
Proof.
  apply (estimate_slots_all_offered
           (fun s => if String.eqb s "2026-01-15"
                     then Some (Js.ofDay Demo.day_2026_01_15) else None)
           (Js.ofDay Demo.day_2026_01_01)
           (Some "US") (Some "2026-01-15") (Some Demo.shopName) Demo.world
           500
           [DeliveryEstimate.mkFormattedSlot "s1" "09:00" "12:00" 2 1 "2026-01-15"
              "z1" true]
           "US").
  vm_compute. reflexivity.
Defined.
(* ================================================================= *)
(** ** The slot handler of the checkout component *)

(** [setDate(getDate() + 1)] gives the instant that is, on the
    browser's clock, the same time of day one day later. *)
Lemma getNextAvailableDate_next_day (LocalTZA : Z -> bool -> Z)
    (currentDate : Js.Date) (enableSameDay : bool) :
  Selector.getNextAvailableDate LocalTZA currentDate enableSameDay
  = currentDate + Js.msPerDay
    + (LocalTZA currentDate true
       - LocalTZA (currentDate + LocalTZA currentDate true + Js.msPerDay) false).
Proof.
  unfold Selector.getNextAvailableDate, Js.Day, Js.msPerDay.
  set (t := currentDate + LocalTZA currentDate true).
  assert (E : (t / 86400000 + 1) * 86400000 + t mod 86400000 = t + 86400000)
    by (pose proof (Z.div_mod t 86400000 ltac:(lia)); lia).
  rewrite E. lia.
Qed.

(** X17. [handleSlotChange] never leaves a slot selected that ends
    after the cut-off time.  With a date selected and the chosen slot
    among the estimate's slots: if the slot's end is past the cut-off,
    the handler selects no slot, moves the date to the same time of
    day of the next day on the browser's clock, and sets a notice
    (which says a slot was selected, though none is); the move is one
    day of 24 hours corrected by the change of the browser's offset
    from UTC between the two days, so exactly 24 hours when the offset
    is the same on both.  Otherwise the handler selects the slot, keeps
    the date and clears the notice. *)
Theorem handleSlotChange_respects_cutoff (LocalTZA : Z -> bool -> Z)
    (toLocaleDateString : Js.Date -> string)
    (cutoffTime : string) (enableSameDay : bool)
    (slots : list DeliveryEstimate.FormattedSlot) (st : Selector.Selection)
    (slotId : string) (date : Js.Date) (s : DeliveryEstimate.FormattedSlot) :
  Selector.selectedDate st = Some date ->
  slotId <> "" ->
  find (fun slot => String.eqb (DeliveryEstimate.id slot) slotId) slots = Some s ->
  let st' := Selector.handleSlotChange LocalTZA toLocaleDateString cutoffTime
               enableSameDay (Some slots) st slotId in
  let offsetBefore := LocalTZA date true in
  let offsetAfter := LocalTZA (date + offsetBefore + Js.msPerDay) false in
  (Checkout.isSlotPastCutoff (DeliveryEstimate.endTime s) cutoffTime = true ->
     Selector.selectedSlot st' = ""
     /\ Selector.selectedDate st'
        = Some (date + Js.msPerDay + (offsetBefore - offsetAfter))
     /\ (offsetAfter = offsetBefore ->
         Selector.selectedDate st' = Some (date + Js.msPerDay))
     /\ Selector.cutoffNotification st' <> None)
  /\ (Checkout.isSlotPastCutoff (DeliveryEstimate.endTime s) cutoffTime = false ->
        Selector.selectedSlot st' = slotId
        /\ Selector.selectedDate st' = Some date
        /\ Selector.cutoffNotification st' = None)
  /\ (Selector.selectedSlot st' = slotId ->
        Checkout.isSlotPastCutoff (DeliveryEstimate.endTime s) cutoffTime = false).
Proof.
  intros Hdate Hne Hfind st' offsetBefore offsetAfter. subst st'.
  unfold Selector.handleSlotChange.
  rewrite Hdate, Hfind. apply String.eqb_neq in Hne. rewrite Hne.
  destruct (Checkout.isSlotPastCutoff _ _); cbn [Selector.selectedSlot
    Selector.selectedDate Selector.cutoffNotification].
  - rewrite getNextAvailableDate_next_day. fold offsetBefore. fold offsetAfter.
    split.
    + intros _. split; [reflexivity|]. split; [reflexivity|].
      split; [|discriminate].
      intros ->. f_equal. lia.
    + split; [discriminate|].
      intros E. apply String.eqb_neq in Hne. destruct Hne. symmetry. exact E.
  - split; [discriminate|]. split; [intros _; repeat split|reflexivity].
Qed.

Lemma handleSlotChange_respects_cutoff_witness :
  let slots := [DeliveryEstimate.mkFormattedSlot "s2" "13:00" "17:00" 1 0 "2026-03-07"
                  "z1" true] in
  let noon := Js.ofDay 20519 + 17 * 3600000 in
  let st' := Selector.handleSlotChange Selector.newYork2026 (fun _ => "Sunday, Mar 8")
               "14:00" false (Some slots)
               (Selector.mkSelection (Some noon) "" None) "s2" in
  Selector.selectedSlot st' = ""
  /\ Selector.selectedDate st' = Some (noon + 23 * 3600000)
  /\ Selector.cutoffNotification st' <> None.
Proof.
  destruct (handleSlotChange_respects_cutoff Selector.newYork2026
              (fun _ => "Sunday, Mar 8") "14:00" false
              [DeliveryEstimate.mkFormattedSlot "s2" "13:00" "17:00" 1 0 "2026-03-07"
                 "z1" true]
              (Selector.mkSelection (Some (Js.ofDay 20519 + 17 * 3600000)) "" None) "s2"
              (Js.ofDay 20519 + 17 * 3600000)
              (DeliveryEstimate.mkFormattedSlot "s2" "13:00" "17:00" 1 0 "2026-03-07"
                 "z1" true) eq_refl) as (H & _).
  - discriminate.
  - reflexivity.
  - destruct H as (H1 & H2 & _ & H3); [vm_compute; reflexivity|].
    split; [exact H1|]. split; [|exact H3].
    rewrite H2. vm_compute. reflexivity.
Defined.
(* ================================================================= *)
(** ** The admin's slot action *)

Lemma splitFirst_spec {R} (p : R -> bool) (before after : list R)
    (x : R) (l1 l2 : list R) :
  TimeSlots.splitFirst p before after = Some (x, l1, l2) ->
  exists l0, l1 = before ++ l0 /\ after = l0 ++ x :: l2 /\ p x = true
             /\ find p l0 = None.
Proof.
  revert before. induction after as [|a after IH]; cbn; intros before H; [discriminate|].
  destruct (p a) eqn:Ea.
  - injection H as <- <- <-. exists []. rewrite app_nil_r. auto.
  - destruct (IH _ H) as (l0 & -> & -> & Hp & Hn).
    exists (a :: l0). rewrite <- app_assoc. repeat split; auto.
    cbn. rewrite Ea. exact Hn.
Qed.

Lemma splitFirst_none {R} (p : R -> bool) (before after : list R) :
  TimeSlots.splitFirst p before after = None -> find p after = None.
Proof.
  revert before. induction after as [|a after IH]; cbn; intros before H; [reflexivity|].
  destruct (p a); [discriminate|]. exact (IH _ H).
Qed.


(** What [deliverySlot.update] leaves behind. *)
Lemma updateDeliverySlotRow_cases (slotId : string)
    (f : DeliverySlot.t -> DeliverySlot.t) (d : DB) :
  (snd (TimeSlots.updateDeliverySlotRow slotId f d) = d
   /\ exists e, fst (TimeSlots.updateDeliverySlotRow slotId f d) = Throw e)
  \/ exists s l1 l2,
       deliverySlot d = l1 ++ s :: l2
       /\ DeliverySlot.id s = slotId
       /\ TimeSlots.updateDeliverySlotRow slotId f d
          = (Ok (f s), withDeliverySlot (l1 ++ f s :: l2) d).
Proof.
  unfold TimeSlots.updateDeliverySlotRow.
  destruct (TimeSlots.splitFirst _ _ _) as [[[s l1] l2]|] eqn:E; [|left; cbn; eauto].
  apply splitFirst_spec in E. destruct E as (l0 & -> & Hl & Hp & _).
  destruct (_ && _); [left; cbn; eauto|].
  destruct (_ && _); [left; cbn; eauto|].
  right. exists s, l0, l2. apply String.eqb_eq in Hp. auto.
Qed.

(** What [deliverySlot.delete] leaves behind. *)
Lemma deleteDeliverySlotRow_cases (slotId : string) (d : DB) :
  (snd (TimeSlots.deleteDeliverySlotRow slotId d) = d
   /\ exists e, fst (TimeSlots.deleteDeliverySlotRow slotId d) = Throw e)
  \/ exists s l1 l2,
       deliverySlot d = l1 ++ s :: l2
       /\ DeliverySlot.id s = slotId
       /\ existsb (fun o => String.eqb (Order.deliverySlotId o) slotId) (order d) = false
       /\ TimeSlots.deleteDeliverySlotRow slotId d
          = (Ok s, withDeliverySlot (l1 ++ l2) d).
Proof.
  unfold TimeSlots.deleteDeliverySlotRow.
  destruct (TimeSlots.splitFirst _ _ _) as [[[s l1] l2]|] eqn:E; [|left; cbn; eauto].
  apply splitFirst_spec in E. destruct E as (l0 & -> & Hl & Hp & _).
  destruct (existsb _ (order d)) eqn:Ex; [left; cbn; eauto|].
  right. exists s, l0, l2. apply String.eqb_eq in Hp. auto.
Qed.

Lemma wellFormedSlots_replace (d : DB) (l1 l2 : list DeliverySlot.t)
    (s s' : DeliverySlot.t) :
  wellFormedSlots d ->
  deliverySlot d = l1 ++ s :: l2 ->
  properRange s' -> 0 < DeliverySlot.capacity s' ->
  wellFormedSlots (withDeliverySlot (l1 ++ s' :: l2) d).
Proof.
  intros Hwf Hl Hr Hc x Hx. cbn in Hx.
  apply in_app_or in Hx. destruct Hx as [Hx|[<-|Hx]]; [|auto|];
    apply Hwf; rewrite Hl; apply in_or_app; [left|right; right]; exact Hx.
Qed.

Lemma wellFormedSlots_remove (d : DB) (l1 l2 : list DeliverySlot.t) (s : DeliverySlot.t) :
  wellFormedSlots d ->
  deliverySlot d = l1 ++ s :: l2 ->
  wellFormedSlots (withDeliverySlot (l1 ++ l2) d).
Proof.
  intros Hwf Hl x Hx. cbn in Hx.
  apply in_app_or in Hx. apply Hwf. rewrite Hl. apply in_or_app.
  destruct Hx as [Hx|Hx]; [left|right; right]; exact Hx.
Qed.

(** X18. The admin's slot action keeps every slot well formed.  If
    each stored slot starts before it ends and has a positive
    capacity, this still holds after [action], for every form, every
    shop and every outcome of the queries: what is created or updated
    has passed the checks on times and capacity, and toggling or
    deleting changes neither. *)
Ltac kept :=
  cbn -[wellFormedSlots];
  repeat match goal with
         | H : snd _ = _ |- _ => rewrite H
         | H : db ?w' = _ |- context [db ?w'] => rewrite H
         end;
  assumption.

Theorem timeSlots_action_keeps_slots_well_formed (shop : string)
    (form : TimeSlots.Form) (w : World) :
  wellFormedSlots (db w) ->
  wellFormedSlots (db (snd (TimeSlots.action shop form w))).
Proof.
  intros Hwf. unfold TimeSlots.action, tryCatch.
  destruct (_ || _).
  { destruct (TimeSlots.capacity form) as [cap|]; [|exact Hwf].
    destruct (_ || _); [exact Hwf|].
    destruct (String.leb _ _) eqn:Hle; [exact Hwf|].
    destruct (cap <=? 0) eqn:Hcap; [exact Hwf|].
    assert (Hrange : before (Zones.text (TimeSlots.startTime form))
                       (Zones.text (TimeSlots.endTime form))).
    { apply not_atOrBefore. unfold atOrBefore. congruence. }
    apply Z.leb_gt in Hcap.
    destruct (_ && _); unfold bind.
    - match goal with |- context [call ?q w] =>
        destruct (call_cases q w) as [(e & w1 & E & Hdb)|(w1 & E & Hdb)]; rewrite E
      end; [kept|].
      match type of Hdb with _ = snd (TimeSlots.updateDeliverySlotRow ?i ?f ?d) =>
        destruct (updateDeliverySlotRow_cases i f d)
          as [[Hs [e He]]|(s & l1 & l2 & Hl & _ & Hu)]
      end.
      + rewrite He. kept.
      + rewrite Hu in Hdb |- *. cbn -[wellFormedSlots] in Hdb |- *. rewrite Hdb.
        apply (wellFormedSlots_replace _ _ _ s); auto.
    - match goal with |- context [createDeliverySlot ?data w] =>
        destruct (createDeliverySlot_store data w) as [Hs|(_ & id & Hr & Hs)];
        destruct (createDeliverySlot data w) as [[row|e] w1];
        cbn -[wellFormedSlots] in *
      end; try discriminate; try (rewrite Hs; exact Hwf).
      rewrite Hs. intros x Hx. cbn in Hx. apply in_app_or in Hx.
      destruct Hx as [Hx|[<-|[]]]; [apply Hwf; exact Hx|].
      split; [exact Hrange|exact Hcap]. }
  destruct (Zones.equals _ "toggle").
  { destruct (negb _); [exact Hwf|]. unfold bind at 1.
    match goal with |- context [read ?q w] =>
      destruct (read_cases q w) as [(e & w1 & E & Hdb)|(w1 & E & Hdb)]; rewrite E
    end; [kept|].
    destruct (findSlotById _ _) as [cur|]; [|kept].
    unfold bind.
    match goal with |- context [call ?q w1] =>
      destruct (call_cases q w1) as [(e & w2 & E2 & Hdb2)|(w2 & E2 & Hdb2)]; rewrite E2
    end; [kept|].
    match type of Hdb2 with _ = snd (TimeSlots.updateDeliverySlotRow ?i ?f ?d) =>
      destruct (updateDeliverySlotRow_cases i f d)
        as [[Hs [e He]]|(s & l1 & l2 & Hl & _ & Hu)]
    end.
    - rewrite He. kept.
    - rewrite Hu in Hdb2 |- *. cbn -[wellFormedSlots] in Hdb2 |- *. rewrite Hdb2.
      rewrite <- Hdb in Hwf.
      assert (Hin : In s (deliverySlot (db w1)))
        by (rewrite Hl; apply in_or_app; right; left; reflexivity).
      destruct (Hwf s Hin) as [Hr Hc].
      apply (wellFormedSlots_replace _ _ _ s); auto. }
  destruct (Zones.equals _ "delete"); [|exact Hwf].
  destruct (negb _); [exact Hwf|]. unfold bind at 1.
  match goal with |- context [read ?q w] =>
    destruct (read_cases q w) as [(e & w1 & E & Hdb)|(w1 & E & Hdb)]; rewrite E
  end; [kept|].
  destruct (0 <? _); [kept|].
  unfold bind.
  match goal with |- context [call ?q w1] =>
    destruct (call_cases q w1) as [(e & w2 & E2 & Hdb2)|(w2 & E2 & Hdb2)]; rewrite E2
  end; [kept|].
  match type of Hdb2 with _ = snd (TimeSlots.deleteDeliverySlotRow ?i ?d) =>
    destruct (deleteDeliverySlotRow_cases i d)
      as [[Hs [e He]]|(s & l1 & l2 & Hl & _ & _ & Hu)]
  end.
  - rewrite He. kept.
  - rewrite Hu in Hdb2 |- *. cbn -[wellFormedSlots] in Hdb2 |- *. rewrite Hdb2.
    rewrite <- Hdb in Hwf. exact (wellFormedSlots_remove _ _ _ s Hwf Hl).
Qed.

Lemma timeSlots_action_keeps_slots_well_formed_witness :
  wellFormedSlots
    (db (snd (TimeSlots.action Demo.shopName
                (TimeSlots.mkForm (Some "create") (Some "20:00") (Some "22:00") (Some 4)
                   (Some "z1") None)
                Demo.world))).
Proof.
  apply (timeSlots_action_keeps_slots_well_formed Demo.shopName
           (TimeSlots.mkForm (Some "create") (Some "20:00") (Some "22:00") (Some 4)
              (Some "z1") None)
           Demo.world).
  intros s [<-|[<-|[<-|[<-|[]]]]]; split; reflexivity.
Defined.

(** The outcomes of a delete request that names a slot, whatever the
    queries' outcomes. *)
Lemma timeSlots_delete_cases (shop : string) (form : TimeSlots.Form) (w : World) :
  TimeSlots.actionType form = Some "delete" ->
  Zones.truthy (TimeSlots.slotId form) = true ->
  exists out w',
    TimeSlots.action shop form w = (Ok out, w')
    /\ ((db w' = db w /\ TimeSlots.status out <> 200)
        \/ (existsb (fun o => String.eqb (Order.deliverySlotId o)
                                (Zones.text (TimeSlots.slotId form)))
              (order (db w)) = false
            /\ out = TimeSlots.json (TimeSlots.StatusBody "deleted") 200
            /\ exists s l1 l2,
                 deliverySlot (db w) = l1 ++ s :: l2
                 /\ DeliverySlot.id s = Zones.text (TimeSlots.slotId form)
                 /\ db w' = withDeliverySlot (l1 ++ l2) (db w))).
Proof.
  intros Htype Hid. unfold TimeSlots.action, tryCatch. rewrite Htype, Hid.
  cbn [Zones.equals String.eqb Ascii.eqb Bool.eqb orb negb].
  unfold bind at 1.
  match goal with |- context [read ?q w] =>
    destruct (read_cases q w) as [(e & w1 & E & Hdb)|(w1 & E & Hdb)]; rewrite E
  end.
  { do 2 eexists. split; [reflexivity|]. left. split; [exact Hdb|discriminate]. }
  destruct (0 <? _).
  { do 2 eexists. split; [reflexivity|]. left. split; [exact Hdb|discriminate]. }
  unfold bind.
  match goal with |- context [call ?q w1] =>
    destruct (call_cases q w1) as [(e & w2 & E2 & Hdb2)|(w2 & E2 & Hdb2)]; rewrite E2
  end.
  { do 2 eexists. split; [reflexivity|]. left. split; [congruence|discriminate]. }
  destruct (deleteDeliverySlotRow_cases (Zones.text (TimeSlots.slotId form)) (db w1))
    as [[Hs [e He]]|(s & l1 & l2 & Hl & Hsid & Hex & Hu)].
  - rewrite He. do 2 eexists. split; [reflexivity|]. left.
    split; [congruence|discriminate].
  - rewrite Hu in Hdb2 |- *. cbn [fst snd] in Hdb2 |- *. rewrite Hdb in *.
    do 2 eexists. split; [reflexivity|]. right.
    split; [exact Hex|]. split; [reflexivity|]. exists s, l1, l2. auto.
Qed.

(** X19. The admin's delete request removes no slot that an order
    refers to.  Whatever the outcomes of the queries, a delete request
    naming a slot that some order refers to, cancelled or not, leaves
    the store as it was and is not answered with status 200; with no
    query failing the answer is 400 if one of those orders is not
    cancelled and 500 (the store refuses: the orders' foreign key) if
    all are cancelled. *)
Theorem timeSlots_delete_keeps_booked_slots (shop : string) (form : TimeSlots.Form)
    (o : Order.t) (w : World) :
  TimeSlots.actionType form = Some "delete" ->
  Zones.truthy (TimeSlots.slotId form) = true ->
  In o (order (db w)) ->
  Order.deliverySlotId o = Zones.text (TimeSlots.slotId form) ->
  exists out w',
    TimeSlots.action shop form w = (Ok out, w')
    /\ db w' = db w
    /\ TimeSlots.status out <> 200
    /\ (quiet w ->
        TimeSlots.status out
        = if existsb (TimeSlots.activeOrderWhere (Zones.text (TimeSlots.slotId form)))
               (order (db w))
          then 400 else 500).
Proof.
  intros Htype Hid Hin Hslot.
  assert (Hex : existsb (fun o => String.eqb (Order.deliverySlotId o)
                                    (Zones.text (TimeSlots.slotId form)))
                  (order (db w)) = true).
  { apply existsb_exists. exists o. split; [exact Hin|]. apply String.eqb_eq. exact Hslot. }
  destruct (timeSlots_delete_cases shop form w Htype Hid)
    as (out & w' & E & [[Hdb Hst]|[Hno _]]); [|congruence].
  exists out, w'. split; [exact E|]. split; [exact Hdb|]. split; [exact Hst|].
  intros Hq. revert E. unfold TimeSlots.action, tryCatch. rewrite Htype, Hid.
  cbn [Zones.equals String.eqb Ascii.eqb Bool.eqb orb negb].
  unfold bind at 1. rewrite read_quiet by exact Hq. rewrite count_zero_iff.
  destruct (existsb (TimeSlots.activeOrderWhere _) _).
  { intros [= <- _]. reflexivity. }
  unfold bind. rewrite call_quiet by (apply quiet_advance; exact Hq).
  cbn [db advance]. unfold TimeSlots.deleteDeliverySlotRow.
  destruct (TimeSlots.splitFirst _ _ _) as [[[s l1] l2]|];
    [rewrite Hex|]; intros [= <- _]; reflexivity.
Qed.

Lemma timeSlots_delete_keeps_booked_slots_witness :
  exists out w',
    TimeSlots.action Demo.shopName
      (TimeSlots.mkForm (Some "delete") None None None None (Some "s2")) Demo.world
    = (Ok out, w')
    /\ db w' = Demo.store
    /\ TimeSlots.status out = 400.
Proof.
  destruct (timeSlots_delete_keeps_booked_slots Demo.shopName
              (TimeSlots.mkForm (Some "delete") None None None None (Some "s2"))
              Demo.order2 Demo.world)
    as (out & w' & E & Hdb & _ & Hst).
  - reflexivity.
  - reflexivity.
  - right. left. reflexivity.
  - reflexivity.
  - exists out, w'. split; [exact E|]. split; [exact Hdb|].
    apply Hst. constructor.
Defined.


(* ================================================================= *)
(** ** The admin's blackout dates *)

Lemma Day_ofDay (day : Z) : Js.Day (Js.ofDay day) = day.
Proof. unfold Js.Day, Js.ofDay, Js.msPerDay. apply Z.div_mul. discriminate. Qed.

Lemma ofDay_inj (a b : Z) : Js.ofDay a = Js.ofDay b -> a = b.
Proof. unfold Js.ofDay, Js.msPerDay. lia. Qed.

(** A blackout row of the shop closes its own day for every zone it
    covers. *)
Lemma blackout_row_closes_day (d : DB) (tz : Z) (b : BlackoutDate.t)
    (zoneId : option string) :
  In b (blackoutDate d) ->
  zoneFilter zoneId b = true ->
  reportsBlackedOut d tz (BlackoutDate.shopName b) (Js.ofDay (BlackoutDate.date b)) zoneId
  = true.
Proof.
  intros Hin Hz. unfold reportsBlackedOut, findFirst.
  destruct (find _ _) as [x|] eqn:Ef; [reflexivity|]. exfalso.
  pose proof (find_none _ _ Ef b Hin) as Hnone.
  unfold exactDateWhere in Hnone. rewrite String.eqb_refl, Hz in Hnone.
  pose proof (own_local_day tz (Js.ofDay (BlackoutDate.date b))) as [H1 H2].
  apply Z.leb_le in H1, H2. rewrite H1, H2 in Hnone. discriminate.
Qed.

(** X21. A blackout date entered by the admin closes that day.  For
    an existing shop, a date at midnight UTC and a zone that exists
    (or none), a create request that meets no failing query is
    answered 'created', or with status 400 when the shop already has
    a row of that date and zone; either way the store then holds such
    a row, [isDateBlackedOut] reports the day as blacked out for the
    zone named (for every zone, if none was named) and
    [getAvailableSlots] offers no slot there that day. *)
Theorem blackout_created_closes_day (shop : string) (form : Blackouts.Form)
    (day : Z) (w : World) :
  quiet w ->
  existsb_str shop (Prisma.shop (db w)) = true ->
  Blackouts.actionType form = Some "create" ->
  Blackouts.date form = Some (Js.ofDay day) ->
  Blackouts.refersToZone
    (BlackoutDate.mk "" shop day (Blackouts.isRecurring form)
       (Blackouts.orNull (Blackouts.zoneId form))) (db w) = true ->
  exists out w',
    Blackouts.action shop form w = (Ok out, w')
    /\ (out = Blackouts.json (Blackouts.StatusBody "created") 200
        \/ out = Blackouts.json
                   (Blackouts.ErrorBody
                      "Blackout date already exists for this date and zone") 400)
    /\ forall zoneId w1,
         quiet w1 -> db w1 = db w' ->
         (Blackouts.orNull (Blackouts.zoneId form) = None
          \/ Blackouts.orNull (Blackouts.zoneId form) = Some zoneId) ->
         fst (isDateBlackedOut shop (Js.ofDay day) (Some zoneId) w1) = Ok true
         /\ fst (getAvailableSlots shop (Js.ofDay day) zoneId w1) = Ok [].
Proof.
  intros Hq Hshop Htype Hdate Hfk.
  assert (Hclose : forall d b,
             In b (blackoutDate d) ->
             BlackoutDate.shopName b = shop -> BlackoutDate.date b = day ->
             BlackoutDate.zoneId b = Blackouts.orNull (Blackouts.zoneId form) ->
             forall zoneId w1, quiet w1 -> db w1 = d ->
               (Blackouts.orNull (Blackouts.zoneId form) = None
                \/ Blackouts.orNull (Blackouts.zoneId form) = Some zoneId) ->
               fst (isDateBlackedOut shop (Js.ofDay day) (Some zoneId) w1) = Ok true
               /\ fst (getAvailableSlots shop (Js.ofDay day) zoneId w1) = Ok []).
  { intros d b Hin Hs Hd Hz zoneId w1 Hq1 Hdb1 Hcov.
    assert (Hrep : reportsBlackedOut (db w1) (tza w1) shop (Js.ofDay day) (Some zoneId)
                   = true).
    { rewrite <- Hs, <- Hd. apply blackout_row_closes_day; [rewrite Hdb1; exact Hin|].
      unfold zoneFilter. rewrite Hz.
      destruct Hcov as [-> | ->]; [apply orb_true_r|].
      rewrite String.eqb_refl. reflexivity. }
    destruct (isDateBlackedOut_quiet shop (Js.ofDay day) (Some zoneId) w1 Hq1)
      as (w2 & E2 & _).
    destruct (getAvailableSlots_quiet shop (Js.ofDay day) zoneId w1 Hq1)
      as (w3 & E3 & _).
    rewrite E2, E3, Hrep. split; reflexivity. }
  unfold Blackouts.action, tryCatch. rewrite Htype, Hdate.
  cbn [Zones.equals String.eqb Ascii.eqb Bool.eqb orb andb].
  unfold bind at 1. rewrite read_quiet by exact Hq.
  destruct (findFirst _ _) as [b|] eqn:Ef.
  - do 2 eexists. split; [reflexivity|]. split; [right; reflexivity|].
    unfold findFirst in Ef. apply find_some in Ef. destruct Ef as [Hin Hw].
    unfold Blackouts.duplicateWhere in Hw.
    apply andb_prop in Hw. destruct Hw as [Hw Hz].
    apply andb_prop in Hw. destruct Hw as [Hs Hd].
    apply String.eqb_eq in Hs. apply Z.eqb_eq in Hd. apply ofDay_inj in Hd.
    apply (Hclose _ b Hin Hs Hd).
    destruct (Blackouts.orNull _) as [x|], (BlackoutDate.zoneId b) as [y|];
      try discriminate; [|reflexivity].
    apply String.eqb_eq in Hz. congruence.
  - unfold bind, freshId.
    rewrite call_quiet by (apply quiet_advance; exact Hq).
    cbn [db advance nextId]. rewrite Day_ofDay.
    unfold Blackouts.insertBlackoutDate. cbn [BlackoutDate.shopName].
    rewrite Hshop. cbn [negb].
    unfold Blackouts.refersToZone in Hfk |- *. cbn [BlackoutDate.zoneId] in Hfk |- *.
    rewrite Hfk. cbn [negb].
    assert (Hu : existsb
                   (Blackouts.sameBlackoutKey
                      (BlackoutDate.mk (cuid (nextId w)) shop day
                         (Blackouts.isRecurring form)
                         (Blackouts.orNull (Blackouts.zoneId form))))
                   (blackoutDate (db w)) = false).
    { destruct (existsb _ _) eqn:E; [|reflexivity].
      apply existsb_exists in E. destruct E as (x & Hx & Hk).
      unfold findFirst in Ef. pose proof (find_none _ _ Ef x Hx) as Hn.
      unfold Blackouts.sameBlackoutKey in Hk. cbn in Hk.
      unfold Blackouts.duplicateWhere in Hn.
      apply andb_prop in Hk. destruct Hk as [Hk Hz].
      apply andb_prop in Hk. destruct Hk as [Hs Hd].
      apply String.eqb_eq in Hs. apply Z.eqb_eq in Hd.
      rewrite <- Hs, <- Hd, String.eqb_refl, Z.eqb_refl in Hn.
      destruct (Blackouts.orNull _) as [a|], (BlackoutDate.zoneId x) as [y|];
        try discriminate.
      rewrite String.eqb_sym, Hz in Hn. discriminate. }
    rewrite Hu. cbn [fst snd].
    do 2 eexists. split; [reflexivity|]. split; [left; reflexivity|].
    cbn [db advance].
    apply (Hclose _ (BlackoutDate.mk (cuid (nextId w)) shop day
                       (Blackouts.isRecurring form)
                       (Blackouts.orNull (Blackouts.zoneId form)))); try reflexivity.
    cbn. apply in_or_app. right. left. reflexivity.
Qed.

Lemma blackout_created_closes_day_witness :
  exists out w',
    Blackouts.action Demo.shopName
      (Blackouts.mkForm (Some "create") (Some (Js.ofDay Demo.day_2026_01_15)) false
         (Some "z1") None)
      Demo.world = (Ok out, w')
    /\ fst (getAvailableSlots Demo.shopName (Js.ofDay Demo.day_2026_01_15) "z1" Demo.world)
       <> Ok []
    /\ fst (getAvailableSlots Demo.shopName (Js.ofDay Demo.day_2026_01_15) "z1" w')
       = Ok [].
Proof.
  destruct (blackout_created_closes_day Demo.shopName
              (Blackouts.mkForm (Some "create") (Some (Js.ofDay Demo.day_2026_01_15)) false
                 (Some "z1") None)
              Demo.day_2026_01_15 Demo.world)
    as (out & w' & E & _ & H); try reflexivity.
  - constructor.
  - exists out, w'. split; [exact E|]. split; [vm_compute; discriminate|].
    assert (Hq : quiet w') by (cbv in E; injection E as _ <-; constructor).
    apply (H "z1" w' Hq eq_refl). right. reflexivity.
Defined.
(* ================================================================= *)
(** ** Names of customers *)

Section CustomerNames.

Local Open Scope string_scope.

Lemma trimStart_head (s : string) :
  match JsText.trimStart s with
  | EmptyString => True
  | String c _ => JsText.isWhiteSpace c = false
  end.
Proof.
  induction s as [|c s IH]; cbn -[JsText.isWhiteSpace]; [exact I|].
  destruct (JsText.isWhiteSpace c) eqn:E; [exact IH|]. cbn -[JsText.isWhiteSpace]. exact E.
Qed.

Lemma trimStart_fixed (s : string) :
  match s with
  | EmptyString => True
  | String c _ => JsText.isWhiteSpace c = false
  end ->
  JsText.trimStart s = s.
Proof. destruct s as [|c s]; cbn -[JsText.isWhiteSpace]; [reflexivity|]. intros ->. reflexivity. Qed.

Lemma trimEnd_head (s : string) :
  match s with
  | EmptyString => True
  | String c _ => JsText.isWhiteSpace c = false
  end ->
  match JsText.trimEnd s with
  | EmptyString => s = EmptyString
  | String c _ => JsText.isWhiteSpace c = false
  end.
Proof.
  destruct s as [|c s]; cbn -[JsText.isWhiteSpace]; [reflexivity|]. intros Hc.
  destruct (JsText.trimEnd s); [rewrite Hc|]; exact Hc.
Qed.

Lemma trimEnd_cons (c : ascii) (r : string) :
  JsText.trimEnd (String c r)
  = match JsText.trimEnd r with
    | EmptyString => if JsText.isWhiteSpace c then EmptyString else String c EmptyString
    | r' => String c r'
    end.
Proof. reflexivity. Qed.

Lemma trimEnd_idem (s : string) : JsText.trimEnd (JsText.trimEnd s) = JsText.trimEnd s.
Proof.
  induction s as [|c s IH]; cbn -[JsText.isWhiteSpace]; [reflexivity|].
  destruct (JsText.trimEnd s) as [|c' t] eqn:E.
  - destruct (JsText.isWhiteSpace c) eqn:Ec; cbn -[JsText.isWhiteSpace]; [reflexivity|]. rewrite Ec. reflexivity.
  - rewrite trimEnd_cons, IH. reflexivity.
Qed.

Lemma trim_idem (s : string) : JsText.trim (JsText.trim s) = JsText.trim s.
Proof.
  unfold JsText.trim.
  rewrite (trimStart_fixed (JsText.trimEnd (JsText.trimStart s))).
  - apply trimEnd_idem.
  - pose proof (trimEnd_head _ (trimStart_head s)) as H.
    destruct (JsText.trimEnd (JsText.trimStart s)); [exact I|exact H].
Qed.

Lemma trimEnd_trim (s : string) : JsText.trimEnd (JsText.trim s) = JsText.trim s.
Proof. unfold JsText.trim. apply trimEnd_idem. Qed.

Lemma trimStart_trim (s : string) : JsText.trimStart (JsText.trim s) = JsText.trim s.
Proof.
  unfold JsText.trim. apply trimStart_fixed.
  pose proof (trimEnd_head _ (trimStart_head s)) as H.
  destruct (JsText.trimEnd (JsText.trimStart s)); [exact I|exact H].
Qed.

Lemma trimEnd_space (s : string) : JsText.trimEnd (s ++ " ") = JsText.trimEnd s.
Proof.
  induction s as [|c s IH]; [reflexivity|].
  cbn [String.append]. rewrite !trimEnd_cons, IH. reflexivity.
Qed.

Lemma trimEnd_app (a b : string) :
  b <> "" -> JsText.trimEnd b = b -> JsText.trimEnd (a ++ b) = a ++ b.
Proof.
  intros Hne Hb. induction a as [|c a IH]; [exact Hb|].
  cbn [String.append]. rewrite trimEnd_cons, IH.
  destruct (a ++ b) eqn:E; [|reflexivity].
  destruct a; cbn in E; [contradiction|discriminate].
Qed.

Lemma trimStart_app (a b : string) :
  a <> "" -> JsText.trimStart a = a -> JsText.trimStart (a ++ b) = a ++ b.
Proof.
  intros Hne Ha. destruct a as [|c a]; [contradiction|].
  cbn -[JsText.isWhiteSpace] in Ha |- *.
  destruct (JsText.isWhiteSpace c) eqn:Ec; [|reflexivity].
  exfalso. pose proof (trimStart_head a) as Hh. rewrite Ha in Hh. congruence.
Qed.

Lemma trimmed_fixed (p : option string) :
  JsText.trimStart (Customers.trimmed p) = Customers.trimmed p
  /\ JsText.trimEnd (Customers.trimmed p) = Customers.trimmed p.
Proof.
  destruct p as [s|]; cbn; [|auto]. split; [apply trimStart_trim|apply trimEnd_trim].
Qed.

(** X22. [formatCustomerName] puts the trimmed names together with
    exactly one space and never yields a blank or padded name.  With
    both names present (after trimming) the result is first name,
    space, last name; with one present it is that name alone; with
    neither, or with no customer, it is 'Valued Customer'.  The result
    is never empty and has no white space at either end. *)
Theorem formatCustomerName_table (customer : option Customers.Customer) :
  Customers.formatCustomerName customer
  = match customer with
    | None => "Valued Customer"
    | Some c =>
        let firstName := Customers.trimmed (Customers.first_name c) in
        let lastName := Customers.trimmed (Customers.last_name c) in
        if String.eqb firstName "" then
          if String.eqb lastName "" then "Valued Customer" else lastName
        else if String.eqb lastName "" then firstName
        else firstName ++ " " ++ lastName
    end
  /\ Customers.formatCustomerName customer <> ""
  /\ JsText.trim (Customers.formatCustomerName customer)
     = Customers.formatCustomerName customer.
Proof.
  assert (Htable : Customers.formatCustomerName customer
    = match customer with
      | None => "Valued Customer"
      | Some c =>
          if String.eqb (Customers.trimmed (Customers.first_name c)) "" then
            if String.eqb (Customers.trimmed (Customers.last_name c)) ""
            then "Valued Customer" else Customers.trimmed (Customers.last_name c)
          else if String.eqb (Customers.trimmed (Customers.last_name c)) ""
          then Customers.trimmed (Customers.first_name c)
          else Customers.trimmed (Customers.first_name c) ++ " "
               ++ Customers.trimmed (Customers.last_name c)
      end).
  { destruct customer as [c|]; [|reflexivity]. unfold Customers.formatCustomerName.
    destruct (trimmed_fixed (Customers.first_name c)) as [Hfs Hfe].
    destruct (trimmed_fixed (Customers.last_name c)) as [Hls Hle].
    destruct (String.eqb_spec (Customers.trimmed (Customers.first_name c)) "") as [Ef|Ef],
             (String.eqb_spec (Customers.trimmed (Customers.last_name c)) "") as [El|El].
    - rewrite Ef, El. reflexivity.
    - rewrite Ef. unfold JsText.trim.
      change ("" ++ " " ++ Customers.trimmed (Customers.last_name c))
        with (String " " (Customers.trimmed (Customers.last_name c))).
      cbn [JsText.trimStart]. replace (JsText.isWhiteSpace " ") with true by reflexivity.
      rewrite Hls, Hle.
      destruct (String.eqb_spec (Customers.trimmed (Customers.last_name c)) "");
        [contradiction|reflexivity].
    - rewrite El. unfold JsText.trim.
      replace (Customers.trimmed (Customers.first_name c) ++ " " ++ "")
        with (Customers.trimmed (Customers.first_name c) ++ " ") by reflexivity.
      rewrite (trimStart_app _ _ Ef Hfs), trimEnd_space, Hfe.
      destruct (String.eqb_spec (Customers.trimmed (Customers.first_name c)) "");
        [contradiction|reflexivity].
    - unfold JsText.trim.
      rewrite (trimStart_app _ _ Ef Hfs).
      assert (Hsp : JsText.trimEnd (" " ++ Customers.trimmed (Customers.last_name c))
                    = " " ++ Customers.trimmed (Customers.last_name c))
        by (apply (trimEnd_app " " _ El Hle)).
      assert (Hne : " " ++ Customers.trimmed (Customers.last_name c) <> "")
        by (cbn; discriminate).
      rewrite (trimEnd_app _ _ Hne Hsp).
      destruct (String.eqb_spec
                  (Customers.trimmed (Customers.first_name c) ++ " "
                   ++ Customers.trimmed (Customers.last_name c)) "") as [E|_];
        [|reflexivity].
      destruct (Customers.trimmed (Customers.first_name c)); [contradiction|discriminate]. }
  split; [exact Htable|]. clear Htable.
  unfold Customers.formatCustomerName. destruct customer as [c|];
    [|split; [discriminate|reflexivity]].
  cbv zeta.
  destruct (String.eqb_spec
              (JsText.trim (Customers.trimmed (Customers.first_name c) ++ " "
                            ++ Customers.trimmed (Customers.last_name c))) "") as [E|E].
  - split; [discriminate|reflexivity].
  - split; [exact E|apply trim_idem].
Qed.

End CustomerNames.
(* ================================================================= *)
(** ** The admin's list of slots *)

Lemma atOrBefore_cases (a b : string) : atOrBefore a b -> before a b \/ a = b.
Proof.
  unfold atOrBefore, before, String.leb, String.ltb.
  destruct (String.compare a b) eqn:E; intros H;
    [right; apply String.compare_eq_iff; exact E|left; reflexivity|discriminate].
Qed.

Lemma zoneThenStart_from (x y : DeliverySlot.t) :
  atOrBefore (DeliverySlot.zoneId x) (DeliverySlot.zoneId y) ->
  atOrBefore (DeliverySlot.startTime x) (DeliverySlot.startTime y) ->
  zoneThenStart x y.
Proof.
  intros Hz Hs. destruct (atOrBefore_cases _ _ Hz) as [H|H]; [left; exact H|right; auto].
Qed.

Lemma zoneThenStart_zone (x y : DeliverySlot.t) :
  zoneThenStart x y -> atOrBefore (DeliverySlot.zoneId x) (DeliverySlot.zoneId y).
Proof.
  intros [H|[H _]]; [apply before_atOrBefore; exact H|].
  rewrite H. unfold atOrBefore, String.leb. rewrite string_compare_refl. reflexivity.
Qed.

Lemma insertBy_zoneThenStart (x : DeliverySlot.t) (l : list DeliverySlot.t) :
  StronglySorted zoneThenStart l ->
  Forall (fun y => atOrBefore (DeliverySlot.startTime x) (DeliverySlot.startTime y)) l ->
  StronglySorted zoneThenStart (insertBy DeliverySlot.zoneId x l).
Proof.
  induction 1 as [|y l Hs IH Hy]; cbn; intros Hx.
  - constructor; constructor.
  - inversion Hx as [|? ? Hxy Hxl]; subst.
    destruct (String.leb (DeliverySlot.zoneId x) (DeliverySlot.zoneId y)) eqn:E.
    + constructor; [constructor; assumption|].
      constructor; [apply zoneThenStart_from; assumption|].
      rewrite Forall_forall in Hy, Hxl |- *. intros z Hz.
      apply zoneThenStart_from; [|exact (Hxl z Hz)].
      exact (string_leb_trans _ _ _ E (zoneThenStart_zone _ _ (Hy z Hz))).
    + constructor; [exact (IH Hxl)|].
      eapply Permutation_Forall; [apply insertBy_perm|].
      constructor; [|exact Hy].
      left. apply not_atOrBefore. unfold atOrBefore. congruence.
Qed.

Lemma orderBy_zoneThenStart (l : list DeliverySlot.t) :
  StronglySorted zoneThenStart
    (orderBy DeliverySlot.zoneId (orderBy DeliverySlot.startTime l)).
Proof.
  pose proof (orderBy_sorted DeliverySlot.startTime l) as Hs.
  induction Hs as [|x l0 Hs IH Hx]; [constructor|].
  unfold orderBy in *. cbn. apply insertBy_zoneThenStart; [exact IH|].
  eapply Permutation_Forall; [apply (orderBy_perm DeliverySlot.zoneId)|]. exact Hx.
Qed.

(** A [Promise.all] over calls that cannot fail and only read. *)
Lemma mapM_total {A B} (f : A -> M B) (Q : DB -> A -> B -> Prop) :
  (forall a w, exists b w', f a w = (Ok b, w') /\ db w' = db w /\ Q (db w) a b) ->
  forall l w, exists bs w',
    mapM f l w = (Ok bs, w') /\ db w' = db w /\ Forall2 (Q (db w)) l bs.
Proof.
  intros Hf. induction l as [|a l IH]; cbn; intros w.
  - exists [], w. repeat split. constructor.
  - unfold bind. destruct (Hf a w) as (b & w1 & E & Hdb & Hq). rewrite E.
    destruct (IH w1) as (bs & w2 & E2 & Hdb2 & Hq2). rewrite E2.
    exists (b :: bs), w2. split; [reflexivity|]. split; [congruence|].
    constructor; [exact Hq|]. rewrite <- Hdb. exact Hq2.
Qed.

Lemma StronglySorted_map_rel {A B} (f : A -> B) (R : B -> B -> Prop) (l : list A) :
  StronglySorted (fun a b => R (f a) (f b)) l -> StronglySorted R (map f l).
Proof.
  induction 1 as [|x l Hs IH Hx]; cbn; constructor; [exact IH|].
  apply Forall_map. exact Hx.
Qed.

Lemma zoneThenStart_withCurrentOrders (n m : Z) (a b : DeliverySlot.t) :
  zoneThenStart a b ->
  zoneThenStart (DeliverySlot.withCurrentOrders n a) (DeliverySlot.withCurrentOrders m b).
Proof. destruct a, b. exact (fun H => H). Qed.

Lemma listing_sorted (la : list (DeliverySlot.t * option string))
    (lb : list Listing.SlotListing) :
  Forall2 (fun a b =>
             Listing.slot b
             = DeliverySlot.withCurrentOrders (Listing.currentBookings b) (fst a)) la lb ->
  StronglySorted zoneThenStart (map fst la) ->
  StronglySorted zoneThenStart (map Listing.slot lb).
Proof.
  induction 1 as [|a b la lb Hb HF IH]; cbn; intros Hs; [constructor|].
  inversion Hs as [|? ? Hs' Ha]; subst. constructor; [exact (IH Hs')|].
  clear IH Hs Hs'. induction HF as [|a' b' la' lb' Hb' _ IH']; cbn in *; [constructor|].
  inversion Ha as [|? ? Haa Ha']; subst.
  constructor; [|exact (IH' Ha')].
  rewrite Hb, Hb'. apply zoneThenStart_withCurrentOrders. exact Haa.
Qed.

(** X23. [getAllSlots] lists every slot of the shop once, by zone and
    start time, also when bookings cannot be counted.  If its first
    query fails it throws 'Failed to fetch delivery slots'; otherwise,
    whatever the outcomes of the later queries, it returns one entry
    for each slot row of the shop (of the active ones, if asked for
    those) and no other, ordered by zone and by start time within a
    zone, each with a booking count that is today's count or zero and
    with the capacity left computed from it; the store is not
    written. *)
Theorem getAllSlots_lists_every_slot (today : Js.Date) (shopName : string)
    (getActiveOnly : bool) (w : World) :
  db (snd (Listing.getAllSlots today shopName getActiveOnly w)) = db w
  /\ match faults w with
     | Some _ :: _ =>
         fst (Listing.getAllSlots today shopName getActiveOnly w)
         = Throw "Failed to fetch delivery slots"
     | _ =>
         exists l,
           fst (Listing.getAllSlots today shopName getActiveOnly w) = Ok l
           /\ Permutation
                (map (fun x => DeliverySlot.withCurrentOrders 0 (Listing.slot x)) l)
                (map (DeliverySlot.withCurrentOrders 0)
                   (filter (Listing.allSlotsWhere shopName getActiveOnly)
                      (deliverySlot (db w))))
           /\ StronglySorted zoneThenStart (map Listing.slot l)
           /\ Forall (fun x =>
                (Listing.currentBookings x = 0
                 \/ Listing.currentBookings x
                    = bookings (db w) (DeliverySlot.id (Listing.slot x)) (Js.Day today))
                /\ DeliverySlot.currentOrders (Listing.slot x) = Listing.currentBookings x
                /\ Listing.availableCapacity x
                   = DeliverySlot.capacity (Listing.slot x) - Listing.currentBookings x) l
     end.
Proof.
  unfold Listing.getAllSlots. unfold tryCatch at 1. unfold bind at 1.
  set (q := fun d : DB =>
         map (fun s => (s, Listing.joinZoneName d s))
           (orderBy DeliverySlot.zoneId
              (orderBy DeliverySlot.startTime
                 (findMany (deliverySlot d)
                    (Listing.allSlotsWhere shopName getActiveOnly))))).
  match goal with |- context [mapM ?f0 _] => set (f := f0) end.
  assert (Hf : forall a w0, exists b w',
             f a w0 = (Ok b, w') /\ db w' = db w0
             /\ (fun d a b =>
                   Listing.slot b
                   = DeliverySlot.withCurrentOrders (Listing.currentBookings b) (fst a)
                   /\ (Listing.currentBookings b = 0
                       \/ Listing.currentBookings b
                          = bookings d (DeliverySlot.id (fst a)) (Js.Day today))
                   /\ Listing.availableCapacity b
                      = DeliverySlot.capacity (fst a) - Listing.currentBookings b)
                  (db w0) a b).
  { intros [s z] w0. unfold f, tryCatch, bind. cbn [fst snd].
    destruct (getSlotBookingsForDate_store (DeliverySlot.id s) today w0)
      as (n & w1 & E & Hdb & _ & _ & Hn). rewrite E. cbn.
    do 2 eexists. split; [reflexivity|]. split; [exact Hdb|]. cbn. auto. }
  pose proof (mapM_total f _ Hf) as Hm.
  unfold read, call.
  destruct w as [d fs n tz]. cbn [faults db nextId tza].
  assert (Hgoal : forall w1, db w1 = d ->
    db (snd (let (r, w') := mapM f (q d) w1 in
             match r with
             | Ok a => (Ok a, w')
             | Throw _ => throw "Failed to fetch delivery slots" w'
             end)) = d
    /\ exists l,
         fst (let (r, w') := mapM f (q d) w1 in
              match r with
              | Ok a => (Ok a, w')
              | Throw _ => throw "Failed to fetch delivery slots" w'
              end) = Ok l
         /\ Permutation
              (map (fun x => DeliverySlot.withCurrentOrders 0 (Listing.slot x)) l)
              (map (DeliverySlot.withCurrentOrders 0)
                 (filter (Listing.allSlotsWhere shopName getActiveOnly) (deliverySlot d)))
         /\ StronglySorted zoneThenStart (map Listing.slot l)
         /\ Forall (fun x =>
              (Listing.currentBookings x = 0
               \/ Listing.currentBookings x
                  = bookings d (DeliverySlot.id (Listing.slot x)) (Js.Day today))
              /\ DeliverySlot.currentOrders (Listing.slot x) = Listing.currentBookings x
              /\ Listing.availableCapacity x
                 = DeliverySlot.capacity (Listing.slot x) - Listing.currentBookings x) l).
  { intros w1 Hdb1. destruct (Hm (q d) w1) as (bs & w2 & E & Hdb2 & HF). rewrite E.
    cbn [fst snd]. split; [congruence|]. exists bs. split; [reflexivity|].
    rewrite Hdb1 in HF. clear E Hm Hf.
    assert (Hslots : map (fun x => DeliverySlot.withCurrentOrders 0 (Listing.slot x)) bs
                     = map (fun a => DeliverySlot.withCurrentOrders 0 (fst a)) (q d)).
    { induction HF as [|a b la lb (Hs & _) _ IH]; cbn; [reflexivity|].
      rewrite IH, Hs. destruct (fst a); reflexivity. }
    split; [|split].
    - rewrite Hslots. unfold q. rewrite map_map. cbn [fst].
      apply Permutation_map. unfold findMany.
      rewrite <- (orderBy_perm DeliverySlot.zoneId), <- (orderBy_perm DeliverySlot.startTime).
      reflexivity.
    - apply (listing_sorted (q d)).
      + eapply Forall2_impl; [|exact HF]. intros a b (Hb & _). exact Hb.
      + unfold q. rewrite map_map. cbn [fst]. rewrite map_id.
        apply orderBy_zoneThenStart.
    - clear Hslots. induction HF as [|a b la lb (Hs & Hn & Hc) _ IH]; constructor;
        [|exact IH].
      rewrite Hs. cbn. auto. }
  destruct fs as [|[e|] fs]; cbn [fst snd db].
  - apply Hgoal. reflexivity.
  - split; reflexivity.
  - apply Hgoal. reflexivity.
Qed.
(* ================================================================= *)
(** ** Zones and their shops *)



(* ================================================================= *)
(** ** The settings the checkout works with *)



Section OrderByText.
Context {R : Type} (d : DB) (key : R -> string).

Lemma insertByText_perm (x : R) (l : list R) :
  Permutation (x :: l) (insertByText d key x l).
Proof.
  induction l as [|y l IH]; cbn; [reflexivity|].
  destruct (textLeb d (key x) (key y)); [reflexivity|].
  rewrite perm_swap. constructor. exact IH.
Qed.

Lemma orderByText_perm (l : list R) : Permutation l (orderByText d key l).
Proof.
  unfold orderByText. induction l as [|x l IH]; cbn; [constructor|].
  rewrite <- insertByText_perm. constructor. exact IH.
Qed.

Lemma insertByText_sorted (x : R) (l : list R) :
  StronglySorted (fun a b => textNoLater d (key a) (key b)) l ->
  StronglySorted (fun a b => textNoLater d (key a) (key b)) (insertByText d key x l).
Proof.
  induction 1 as [|y l Hs IH Hy]; cbn.
  - constructor; constructor.
  - destruct (textLeb d (key x) (key y)) eqn:E.
    + constructor; [constructor; assumption|].
      constructor; [exact E|].
      eapply Forall_impl; [|exact Hy]. intros z Hz.
      exact (textLeb_trans _ _ _ _ E Hz).
    + constructor; [exact IH|].
      eapply Permutation_Forall; [apply insertByText_perm|].
      constructor; [|exact Hy].
      apply textLeb_total. exact E.
Qed.

Lemma orderByText_sorted (l : list R) :
  StronglySorted (fun a b => textNoLater d (key a) (key b)) (orderByText d key l).
Proof.
  unfold orderByText. induction l as [|x l IH]; cbn; [constructor|].
  apply insertByText_sorted. exact IH.
Qed.

End OrderByText.

(** X26. [getDeliveryZones] lists the zones of the shop, active or
    not, by name.  If its query fails it throws 'Failed to fetch
    delivery zones'; otherwise it returns exactly the zone rows of the
    shop, each as often as stored, with their names ascending in the
    order of the name column's collation, and the store is not
    written. *)
Theorem getDeliveryZones_sorted (shopName : string) (w : World) :
  db (snd (Zones.getDeliveryZones shopName w)) = db w
  /\ match faults w with
     | Some _ :: _ =>
         fst (Zones.getDeliveryZones shopName w) = Throw "Failed to fetch delivery zones"
     | _ =>
         exists l,
           fst (Zones.getDeliveryZones shopName w) = Ok l
           /\ Permutation l
                (filter (fun z => String.eqb (DeliveryZone.shopName z) shopName)
                   (deliveryZone (db w)))
           /\ StronglySorted
                (fun a b =>
                   textNoLater (db w) (DeliveryZone.name a) (DeliveryZone.name b)) l
     end.
Proof.
  unfold Zones.getDeliveryZones, tryCatch, read, call.
  destruct w as [d fs n tz]. cbn [faults db nextId tza].
  assert (H : exists l,
             Ok (orderByText d DeliveryZone.name
                   (findMany d.(deliveryZone)
                      (fun z => String.eqb (DeliveryZone.shopName z) shopName))) = Ok l
             /\ Permutation l
                  (filter (fun z => String.eqb (DeliveryZone.shopName z) shopName)
                     (deliveryZone d))
             /\ StronglySorted
                  (fun a b =>
                     textNoLater d (DeliveryZone.name a) (DeliveryZone.name b)) l).
  { eexists. split; [reflexivity|]. split.
    - symmetry. apply orderByText_perm.
    - apply orderByText_sorted. }
  destruct fs as [|[e|] fs]; cbn [fst snd db]; split; auto.
Qed.

(** Zones named 'ca' and 'US' come back in that order, as the
    collation has it, not in the order of their character codes. *)
Example getDeliveryZones_ignores_case :
  let ca := DeliveryZone.mk "z3" Demo.shopName "ca" 900 true in
  fst (Zones.getDeliveryZones Demo.shopName
         (mkWorld (Zones.withDeliveryZone [Demo.zoneUS; ca] Demo.store) [] 0 0))
  = Ok [ca; Demo.zoneUS].
Proof. vm_compute. reflexivity. Qed.
